(** * Life Calendar wallpaper engine: a shallow embedding and its properties

    The development follows [wallpaper_engine.py] (calculators, grid layout,
    atomic save, lock file, orchestrator) and the configuration writer of
    [life_calendar_gui.py].

    - Python [int] is [Z]; [//] and [%] by a positive divisor are [Z.div] and
      [Z.modulo].
    - Python [float] is IEEE-754 binary64, taken from the Standard Library's
      executable specification [SpecFloat] at [prec = 53], [emax = 1024].
    - [datetime.date] follows CPython's proleptic Gregorian ordinal.
    - Exceptions are an error monad; the wall clock, the file system and the
      process table are explicit arguments. *)

From Stdlib Require Import ZArith Lia Bool List Ascii.
From Stdlib Require Import Floats.SpecFloat.
From stdpp Require Import gmap strings list fin_maps pretty.

Open Scope Z_scope.

(* ===================================================================== *)
(** * Part I: the program                                                 *)
(* ===================================================================== *)

(** ** Exceptions *)

Inductive exn : Type :=
  | ValueError
  | RuntimeError
  | OverflowError
  | FileExistsError
  | FileNotFoundError
  | OSError
  | JSONDecodeError
  | Exception.

Inductive result (A : Type) : Type :=
  | Ok (a : A)
  | Raise (e : exn).

Arguments Ok {A} a.
Arguments Raise {A} e.

Definition rbind {A B : Type} (r : result A) (k : A -> result B) : result B :=
  match r with
  | Ok a => k a
  | Raise e => Raise e
  end.

Declare Scope result_scope.
Delimit Scope result_scope with result.
Notation "x <- r ;; k" := (rbind r (fun x => k))
  (at level 100, r at next level, right associativity) : result_scope.

(** ** Python floats (binary64) *)

Module PyFloat.

Definition prec : Z := 53.
Definition emax : Z := 1024.

Definition fmul : spec_float -> spec_float -> spec_float := SFmul prec emax.
Definition fdiv : spec_float -> spec_float -> spec_float := SFdiv prec emax.
(** [x < y] on floats; any comparison with NaN is [False]. *)
Definition flt : spec_float -> spec_float -> bool := SFltb.

(** Nearest-even rounding of an integer, without the overflow check. *)
Definition Z2SF (n : Z) : spec_float := binary_normalize prec emax n 0 false.

(** Implicit [int -> float] conversion of mixed arithmetic; an integer
    beyond the float range raises [OverflowError]. *)
Definition float_of_int (n : Z) : result spec_float :=
  match Z2SF n with
  | S754_infinity _ => Raise OverflowError
  | f => Ok f
  end.

(** A decimal literal [num/den] denotes the double nearest to it; the
    correctly rounded quotient of two exactly representable integers is
    that double. *)
Definition literal (num den : Z) : spec_float := fdiv (Z2SF num) (Z2SF den).

(** [int(x)]: truncation toward zero; [ValueError] on NaN and
    [OverflowError] on an infinity. *)
Definition int_of_float (x : spec_float) : result Z :=
  match x with
  | S754_zero _ => Ok 0
  | S754_finite s m e =>
      let a := match e with
               | Zneg p => Z.shiftr (Zpos m) (Zpos p)
               | _ => Z.shiftl (Zpos m) e
               end in
      Ok (if s then - a else a)
  | S754_infinity _ => Raise OverflowError
  | S754_nan => Raise ValueError
  end.

(** [n * x] for an [int] n and a [float] x. *)
Definition int_mul_float (n : Z) (x : spec_float) : result spec_float :=
  (f <- float_of_int n ;; Ok (fmul f x))%result.

(** [x / n] for a [float] x and an [int] n ([ZeroDivisionError] cannot
    arise at the call sites: the divisor is at least 1). *)
Definition float_div_int (x : spec_float) (n : Z) : result spec_float :=
  (f <- float_of_int n ;; Ok (fdiv x f))%result.

(** *** Vocabulary of the statements about floats

    A float is described by its sign, the size of its mantissa and its
    magnitude, the number of binary digits of the mantissa plus the
    exponent: a positive finite float of magnitude [g] lies in
    [[2 ^ (g - 1), 2 ^ g)]. *)

(** The exponent step of [shr_fexp]. *)
Definition shift_of (m e : Z) : Z := fexp prec emax (Zdigits2 m + e) - e.

(** Zero or finite, mantissa below [2 ^ 53], magnitude at most [B]. *)
Definition fin_le (B : Z) (x : spec_float) : Prop :=
  match x with
  | S754_zero _ => True
  | S754_finite _ m e => Zpos m < 2 ^ 53 /\ Zdigits2 (Zpos m) + e <= B
  | _ => False
  end.

Definition mag_ge (L : Z) (x : spec_float) : Prop :=
  match x with
  | S754_finite _ m e => L <= Zdigits2 (Zpos m) + e
  | _ => False
  end.

Definition sign_is (s : bool) (x : spec_float) : Prop :=
  match x with
  | S754_zero s' | S754_finite s' _ _ | S754_infinity s' => s' = s
  | S754_nan => False
  end.

(** Zero or finite, of magnitude at most [B]; the mantissa may be long. *)
Definition mag_le (B : Z) (x : spec_float) : Prop :=
  match x with
  | S754_zero _ => True
  | S754_finite _ m e => Zdigits2 (Zpos m) + e <= B
  | _ => False
  end.


End PyFloat.

(** ** [datetime]: the parts of CPython's date arithmetic the engine uses *)

Module PyDate.

Record date : Type := mkdate { year : Z; month : Z; day : Z }.

(** A [datetime]: a date and the microseconds elapsed since midnight. *)
Record datetime : Type := mkdatetime { dt_date : date; dt_micro : Z }.

(** [calendar.isleap] and [datetime._is_leap]. *)
Definition isleap (y : Z) : bool :=
  (y mod 4 =? 0) && (negb (y mod 100 =? 0) || (y mod 400 =? 0)).

Definition DAYS_IN_MONTH : list Z :=
  [-1; 31; 28; 31; 30; 31; 30; 31; 31; 30; 31; 30; 31].

Definition DAYS_BEFORE_MONTH : list Z :=
  [-1; 0; 31; 59; 90; 120; 151; 181; 212; 243; 273; 304; 334].

Definition table (t : list Z) (i : Z) : Z := nth (Z.to_nat i) t 0.

Definition days_before_year (y : Z) : Z :=
  let y1 := y - 1 in y1 * 365 + y1 / 4 - y1 / 100 + y1 / 400.

Definition days_in_month (y m : Z) : Z :=
  if (m =? 2) && isleap y then 29 else table DAYS_IN_MONTH m.

Definition days_before_month (y m : Z) : Z :=
  table DAYS_BEFORE_MONTH m + (if (2 <? m) && isleap y then 1 else 0).

Definition ymd2ord (y m d : Z) : Z :=
  days_before_year y + days_before_month y m + d.

Definition toordinal (d : date) : Z := ymd2ord (year d) (month d) (day d).

(** The field check of the [date] constructor. *)
Definition check_date_fields (y m d : Z) : bool :=
  (1 <=? y) && (y <=? 9999) && (1 <=? m) && (m <=? 12)
  && (1 <=? d) && (d <=? days_in_month y m).

Definition valid (d : date) : bool :=
  check_date_fields (year d) (month d) (day d).

(** [date(y, m, d)] *)
Definition new_date (y m d : Z) : result date :=
  if check_date_fields y m d then Ok (mkdate y m d) else Raise ValueError.

(** [(a - b).days] *)
Definition days_between (a b : date) : Z := toordinal a - toordinal b.

(** Dates compare as the tuples [(year, month, day)]. *)
Definition date_cmp (a b : date) : comparison :=
  match year a ?= year b with
  | Eq => match month a ?= month b with
          | Eq => day a ?= day b
          | c => c
          end
  | c => c
  end.

Definition date_lt (a b : date) : bool :=
  match date_cmp a b with Lt => true | _ => false end.
Definition date_le (a b : date) : bool :=
  match date_cmp a b with Gt => false | _ => true end.
Definition date_gt (a b : date) : bool := date_lt b a.

(** Datetimes compare by date, then by time of day. *)
Definition datetime_cmp (a b : datetime) : comparison :=
  match date_cmp (dt_date a) (dt_date b) with
  | Eq => dt_micro a ?= dt_micro b
  | c => c
  end.

Definition datetime_le (a b : datetime) : bool :=
  match datetime_cmp a b with Gt => false | _ => true end.
Definition datetime_gt (a b : datetime) : bool := negb (datetime_le a b).

(** *** [datetime.strptime(s, "%Y-%m-%d")]

    The format compiles to the regular expression
    [(\d\d\d\d)-(1[0-2]|0[1-9]|[1-9])-(3[01]|[12]\d|0[1-9]|[1-9]| [1-9])];
    the match must consume the whole string and the fields must pass the
    [date] constructor.  Only ASCII digits are recognised here. *)

Definition is_digit (c : ascii) : bool :=
  let n := Z.of_nat (nat_of_ascii c) in (48 <=? n) && (n <=? 57).

Definition digit (c : ascii) : Z := Z.of_nat (nat_of_ascii c) - 48.

Definition in_range (lo hi : Z) (c : ascii) : bool :=
  is_digit c && (lo <=? digit c) && (digit c <=? hi).

Definition is_dash (c : ascii) : bool := Z.of_nat (nat_of_ascii c) =? 45.
Definition is_space (c : ascii) : bool := Z.of_nat (nat_of_ascii c) =? 32.

(** The alternatives of [%m] that match a prefix, in regex priority. *)
Definition month_alts (s : list ascii) : list (Z * list ascii) :=
  match s with
  | c1 :: c2 :: r =>
      (if in_range 1 1 c1 && in_range 0 2 c2 then [(10 + digit c2, r)] else [])
      ++ (if in_range 0 0 c1 && in_range 1 9 c2 then [(digit c2, r)] else [])
      ++ (if in_range 1 9 c1 then [(digit c1, c2 :: r)] else [])
  | [c1] => if in_range 1 9 c1 then [(digit c1, [])] else []
  | [] => []
  end.

(** The alternatives of [%d] that match a prefix, in regex priority. *)
Definition day_alts (s : list ascii) : list (Z * list ascii) :=
  match s with
  | c1 :: c2 :: r =>
      (if in_range 3 3 c1 && in_range 0 1 c2 then [(30 + digit c2, r)] else [])
      ++ (if in_range 1 2 c1 && is_digit c2 then [(10 * digit c1 + digit c2, r)] else [])
      ++ (if in_range 0 0 c1 && in_range 1 9 c2 then [(digit c2, r)] else [])
      ++ (if in_range 1 9 c1 then [(digit c1, c2 :: r)] else [])
      ++ (if is_space c1 && in_range 1 9 c2 then [(digit c2, r)] else [])
  | [c1] => if in_range 1 9 c1 then [(digit c1, [])] else []
  | [] => []
  end.

(** The first alternative after which the rest of the pattern matches. *)
Fixpoint first_match {A B : Type} (k : A -> option B) (alts : list A)
  : option B :=
  match alts with
  | [] => None
  | a :: rest => match k a with
                 | Some b => Some b
                 | None => first_match k rest
                 end
  end.

(** The month alternative, the dash and the day alternative the regex
    engine settles on, with the unmatched rest of the input. *)
Definition match_month_day (s : list ascii) : option (Z * Z * list ascii) :=
  first_match
    (fun '(m, r) =>
       match r with
       | c :: r' =>
           if is_dash c
           then match day_alts r' with
                | (d, rest) :: _ => Some (m, d, rest)
                | [] => None
                end
           else None
       | [] => None
       end)
    (month_alts s).

Definition strptime_chars (s : list ascii) : result datetime :=
  match s with
  | y1 :: y2 :: y3 :: y4 :: c :: r =>
      if is_digit y1 && is_digit y2 && is_digit y3 && is_digit y4 && is_dash c
      then match match_month_day r with
           | Some (m, d, []) =>
               let y := 1000 * digit y1 + 100 * digit y2
                        + 10 * digit y3 + digit y4 in
               (dt <- new_date y m d ;; Ok (mkdatetime dt 0))%result
           | _ => Raise ValueError
           end
      else Raise ValueError
  | _ => Raise ValueError
  end.

Definition strptime (s : string) : result datetime :=
  strptime_chars (String.list_ascii_of_string s).

(** [datetime(d.year, d.month, d.day)]: midnight of the same day. *)
Definition midnight (d : datetime) : datetime := mkdatetime (dt_date d) 0.

(** *** Vocabulary of the statements about dates *)

Definition year_length (y : Z) : Z := if isleap y then 366 else 365.

(** The month tables, with the leap flag made a parameter. *)
Definition dim (leap : bool) (m : Z) : Z :=
  if (m =? 2) && leap then 29 else table DAYS_IN_MONTH m.
Definition dbm (leap : bool) (m : Z) : Z :=
  table DAYS_BEFORE_MONTH m + (if (2 <? m) && leap then 1 else 0).

End PyDate.

(** ** Helper functions *)

Import PyDate.

(** [safe_date]: [None] instead of the parser's [ValueError]. *)
Definition safe_date (date_str : string) : option datetime :=
  match strptime date_str with
  | Ok d => Some d
  | Raise _ => None
  end.

(** ** Data layer

    [calculate] returns [(total_units, filled_units)]; the statistics text,
    title and legend are presentation only and are not modelled.  The clock
    read by [datetime.now()] / [date.today()] is the argument [now]. *)

Module LifeCalendarData.

Record t : Type := mk { dob : datetime; lifespan : Z }.

Definition init (dob_str : string) (lifespan : Z) : result t :=
  match safe_date dob_str with
  | None => Raise ValueError
  | Some parsed => Ok (mk parsed (Z.max 1 (Z.min lifespan 150)))
  end.

(** The literal [365.2425]. *)
Definition days_per_year : spec_float := PyFloat.literal 3652425 10000.

Definition calculate (self : t) (now : datetime) : result (Z * Z) :=
  (let days_lived := days_between (dt_date now) (dt_date (dob self)) in
   let weeks_lived := days_lived / 7 in
   p <- PyFloat.int_mul_float (lifespan self) days_per_year ;;
   total_days <- PyFloat.int_of_float p ;;
   let total_weeks := total_days / 7 in
   let weeks_lived := Z.min weeks_lived total_weeks in
   Ok (total_weeks, weeks_lived))%result.

(** [int(lifespan * 365.2425)] as [calculate] computes it, and its
    comparison with the floor of the exact product. *)
Definition total_days (lifespan : Z) : result Z :=
  (p <- PyFloat.int_mul_float lifespan days_per_year ;;
   PyFloat.int_of_float p)%result.

Definition total_days_is (lifespan : Z) : bool :=
  match total_days lifespan with
  | Ok n => n =? lifespan * 3652425 / 10000
  | Raise _ => false
  end.

End LifeCalendarData.

Module YearCalendarData.

Definition calculate (now : datetime) : result (Z * Z) :=
  (let today := dt_date now in
   let year := year today in
   let is_leap := isleap year in
   let total_days := if is_leap then 366 else 365 in
   start_of_year <- new_date year 1 1 ;;
   let day_of_year := days_between today start_of_year + 1 in
   let day_of_year := Z.min day_of_year total_days in
   Ok (total_days, day_of_year))%result.

End YearCalendarData.

Module GoalCalendarData.

(** The title and subtitle strings play no part in the calculation and are
    left out of the record. *)
Record t : Type := mk { start : datetime; end_ : datetime }.

Definition init (start_str end_str : string) : result t :=
  match safe_date start_str, safe_date end_str with
  | None, _ => Raise ValueError
  | Some _, None => Raise ValueError
  | Some start_date, Some end_date =>
      let s := midnight start_date in
      let e := midnight end_date in
      if datetime_le e s then Raise ValueError else Ok (mk s e)
  end.

Definition calculate (self : t) (now : datetime) : result (Z * Z) :=
  let now := dt_date now in
  let total_days := days_between (dt_date (end_ self)) (dt_date (start self)) in
  let passed_days :=
    if date_lt now (dt_date (start self)) then 0
    else if date_gt now (dt_date (end_ self)) then total_days
    else days_between now (dt_date (start self)) in
  Ok (total_days, passed_days).

End GoalCalendarData.

(** ** Layout layer *)

Module GridLayout.

Import PyFloat.

(** A number as [min] and [max] return it: the [int] bound they were
    given or one of the [float] arguments. *)
Inductive num : Type :=
  | NInt (n : Z)
  | NFloat (x : spec_float).

(** [int(v)] *)
Definition int_of_num (v : num) : result Z :=
  match v with
  | NInt n => Ok n
  | NFloat x => int_of_float x
  end.

(** [n < x] for a small [int] n (here 20 and 2, both exact as floats). *)
Definition int_lt_float (n : Z) (x : spec_float) : bool := flt (Z2SF n) x.

(** [min(a, b, cap)]: the builtin keeps the current item unless the next
    one is strictly smaller. *)
Definition min_capped (a b : spec_float) (cap : Z) : num :=
  let r := if flt b a then b else a in
  if int_lt_float cap r then NInt cap else NFloat r.

(** [max(floor, x)]: the builtin keeps [floor] unless [x > floor]. *)
Definition max_floored (floor : Z) (x : spec_float) : num :=
  if int_lt_float floor x then NFloat x else NInt floor.

(** [a / b] on integers: the correctly rounded quotient. *)
Definition raw_int (n : Z) : spec_float :=
  match n with
  | Z0 => S754_zero false
  | Zpos p => S754_finite false p 0
  | Zneg p => S754_finite true p 0
  end.

Definition int_truediv (a b : Z) : result spec_float :=
  match fdiv (raw_int a) (raw_int b) with
  | S754_infinity _ => Raise OverflowError
  | q => Ok q
  end.

(** [x + n] for a [float] x and an [int] n. *)
Definition float_add_int (x : spec_float) (n : Z) : result spec_float :=
  (f <- float_of_int n ;; Ok (SFadd prec emax x f))%result.

Record t : Type := mk {
  mode : string;
  total_units : Z;
  canvas_width : Z;
  canvas_height : Z;
  columns : Z;
  rows : Z;
  cell_size : Z;
  gap : Z;
  grid_width : Z;
  grid_height : Z;
  start_x : Z;
  start_y : Z
}.

Definition _get_columns (mode : string) (total_units : Z) : Z :=
  if String.eqb mode "life" then 52
  else if String.eqb mode "year" then 31
  else if String.eqb mode "goal" then
    (if total_units <=? 365 then Z.min 52 total_units else 60)
  else 52.

Definition literal_0_9 : spec_float := literal 9 10.
Definition literal_0_75 : spec_float := literal 75 100.
Definition literal_0_15 : spec_float := literal 15 100.

(** [__init__] together with [_calculate_dimensions]. *)
Definition init (mode : string) (total_units canvas_width canvas_height : Z)
  : result t :=
  (let total_units := Z.max 1 total_units in
   let columns := _get_columns mode total_units in
   let rows := (total_units + columns - 1) / columns in
   available_width <- int_mul_float canvas_width literal_0_9 ;;
   available_height <- int_mul_float canvas_height literal_0_75 ;;
   max_cell_width <- float_div_int available_width columns ;;
   max_cell_height <- float_div_int available_height rows ;;
   cell_size <- int_of_num (min_capped max_cell_width max_cell_height 20) ;;
   scaled <- int_mul_float cell_size literal_0_15 ;;
   gap <- int_of_num (max_floored 2 scaled) ;;
   let grid_width := columns * cell_size + (columns - 1) * gap in
   let grid_height := rows * cell_size + (rows - 1) * gap in
   half_x <- int_truediv (canvas_width - grid_width) 2 ;;
   start_x <- int_of_float half_x ;;
   half_y <- int_truediv (canvas_height - grid_height) 2 ;;
   shifted <- float_add_int half_y 60 ;;
   start_y <- int_of_float shifted ;;
   Ok (mk mode total_units canvas_width canvas_height columns rows
          cell_size gap grid_width grid_height start_x start_y))%result.

Definition get_cell_position (self : t) (index : Z) : Z * Z :=
  let row := index / columns self in
  let col := index mod columns self in
  (start_x self + col * (cell_size self + gap self),
   start_y self + row * (cell_size self + gap self)).

(** The gap computation on its own, and the check run on every cell size
    from 0 to 20. *)
Definition gap_of (cell_size : Z) : result Z :=
  (scaled <- int_mul_float cell_size literal_0_15 ;;
   int_of_num (max_floored 2 scaled))%result.

Definition gap_in_range (cell_size : Z) : bool :=
  match gap_of cell_size with
  | Ok g => (2 <=? g) && (g <=? 3)
  | Raise _ => false
  end.

End GridLayout.

(** ** The file system

    A finite map from paths to file contents.  The operations are the OS
    calls the engine makes; each returns the new file system and the
    outcome of the call. *)

Module OS.

Definition is_OSError (e : exn) : bool :=
  match e with
  | OSError | FileExistsError | FileNotFoundError => true
  | _ => false
  end.

Definition path_exists (fs : gmap string string) (p : string) : bool :=
  bool_decide (is_Some (fs !! p)).

(** [os.remove] / [os.unlink] *)
Definition remove (fs : gmap string string) (p : string)
  : gmap string string * result unit :=
  match fs !! p with
  | Some _ => (delete p fs, Ok tt)
  | None => (fs, Raise FileNotFoundError)
  end.

(** [os.replace(src, dst)]: an atomic rename over the destination; an
    injected fault leaves the file system as it was. *)
Definition replace (fault : option exn) (fs : gmap string string)
  (src dst : string) : gmap string string * result unit :=
  match fault with
  | Some e => (fs, Raise e)
  | None =>
      match fs !! src with
      | Some c => (<[dst := c]> (delete src fs), Ok tt)
      | None => (fs, Raise FileNotFoundError)
      end
  end.

(** Writing a whole file may fail before the file is opened or after a
    prefix of the data has reached the disk. *)
Inductive write_fault : Type :=
  | FailsAtOpen (e : exn)
  | FailsMidWrite (written : string) (e : exn).

Definition write_file (fault : option write_fault) (fs : gmap string string)
  (p data : string) : gmap string string * result unit :=
  match fault with
  | None => (<[p := data]> fs, Ok tt)
  | Some (FailsAtOpen e) => (fs, Raise e)
  | Some (FailsMidWrite written e) => (<[p := written]> fs, Raise e)
  end.

(** [read()] of a text file *)
Definition read_file (fs : gmap string string) (p : string) : result string :=
  match fs !! p with
  | Some c => Ok c
  | None => Raise FileNotFoundError
  end.

(** [os.open(p, O_CREAT | O_EXCL | O_WRONLY)] followed by one write. *)
Definition create_exclusive (fs : gmap string string) (p data : string)
  : gmap string string * result unit :=
  match fs !! p with
  | Some _ => (fs, Raise FileExistsError)
  | None => (<[p := data]> fs, Ok tt)
  end.

(** The process table as the liveness probes see it. *)
Inductive system : Type := Windows | Linux | Darwin.

(** [OpenProcess] is [kernel32.OpenProcess(0x1000, False, pid)], a handle
    or 0 for NULL; [kill0] is [os.kill(pid, 0)]. *)
Record procs : Type := mkprocs {
  platform_system : system;
  OpenProcess : Z -> result Z;
  kill0 : Z -> result unit;
  getpid : Z
}.

End OS.

(** ** Rendering layer: [WallpaperRenderer.save]

    The canvas is its PNG encoding [img]. *)

Module WallpaperRenderer.

Record faults : Type := mkfaults {
  save_fault : option OS.write_fault;
  replace_fault : option exn
}.


Definition temp_path_of (path : string) : string := path +:+ ".tmp".

(** The body of the [try]. *)
Definition save_body (f : faults) (img : string) (fs : gmap string string)
  (path : string) : gmap string string * result unit :=
  let temp_path := temp_path_of path in
  match OS.write_file (save_fault f) fs temp_path img with
  | (fs1, Raise e) => (fs1, Raise e)
  | (fs1, Ok _) =>
      match OS.replace (replace_fault f) fs1 temp_path path with
      | (fs2, Raise e) => (fs2, Raise e)
      | (fs2, Ok _) =>
          if negb (OS.path_exists fs2 path)
          then (fs2, Raise RuntimeError)
          else (fs2, Ok tt)
      end
  end.

(** The [except Exception] handler: best-effort removal of the temporary
    file, then the original exception again. *)
Definition save_cleanup (fs : gmap string string) (temp_path : string)
  : gmap string string :=
  if OS.path_exists fs temp_path
  then match OS.remove fs temp_path with
       | (fs', Ok _) => fs'
       | (fs', Raise _) => fs'
       end
  else fs.

Definition save (f : faults) (img : string) (fs : gmap string string)
  (path : string) : gmap string string * result unit :=
  match save_body f img fs path with
  | (fs', Ok _) => (fs', Ok tt)
  | (fs', Raise e) => (save_cleanup fs' (temp_path_of path), Raise e)
  end.


End WallpaperRenderer.

(** ** The lock file *)

Module Lock.

Import OS.

Definition LOCK_FILE : string := ".life_calendar.lock".

Definition _is_process_running (os : procs) (pid : Z) : bool :=
  match platform_system os with
  | Windows =>
      match OpenProcess os pid with
      | Ok handle => if handle =? 0 then false else true
      | Raise _ => false
      end
  | _ =>
      match kill0 os pid with
      | Ok _ => true
      | Raise _ => false
      end
  end.

(** *** [int(text.strip())] on ASCII text *)

Definition is_space (c : ascii) : bool :=
  let n := Z.of_nat (nat_of_ascii c) in
  ((9 <=? n) && (n <=? 13)) || ((28 <=? n) && (n <=? 32)).

Fixpoint lstrip (s : list ascii) : list ascii :=
  match s with
  | c :: r => if is_space c then lstrip r else s
  | [] => []
  end.

Definition strip (s : list ascii) : list ascii :=
  rev (lstrip (rev (lstrip s))).

(** Decimal digits, single underscores allowed between them. *)
Fixpoint digits_value (acc : Z) (after_digit : bool) (s : list ascii)
  : option Z :=
  match s with
  | [] => if after_digit then Some acc else None
  | c :: r =>
      if PyDate.is_digit c then digits_value (10 * acc + PyDate.digit c) true r
      else if (Z.of_nat (nat_of_ascii c) =? 95) && after_digit
      then match r with
           | c' :: _ => if PyDate.is_digit c' then digits_value acc false r
                        else None
           | [] => None
           end
      else None
  end.

Definition py_int (text : string) : result Z :=
  let signed :=
    match strip (String.list_ascii_of_string text) with
    | c :: r =>
        if Z.of_nat (nat_of_ascii c) =? 45
        then option_map Z.opp (digits_value 0 false r)
        else if Z.of_nat (nat_of_ascii c) =? 43
        then digits_value 0 false r
        else digits_value 0 false (c :: r)
    | [] => None
    end in
  match signed with
  | Some n => Ok n
  | None => Raise ValueError
  end.

(** The [try] block under [if os.path.exists(LOCK_FILE)]. *)
Definition check_existing (os : procs) (fs : gmap string string)
  : gmap string string * result unit :=
  match (text <- read_file fs LOCK_FILE ;; py_int text)%result with
  | Raise e => (fs, Raise e)
  | Ok old_pid =>
      if _is_process_running os old_pid
      then (fs, Raise RuntimeError)
      else remove fs LOCK_FILE
  end.

Definition stale_check (os : procs) (fs : gmap string string)
  : gmap string string * result unit :=
  if path_exists fs LOCK_FILE
  then
    match check_existing os fs with
    | (fs1, Raise e) =>
        if match e with ValueError => true | _ => is_OSError e end
        then (* corrupted lock file: remove it, ignoring [OSError] *)
          match remove fs1 LOCK_FILE with
          | (fs2, Ok _) => (fs2, Ok tt)
          | (fs2, Raise e') =>
              if is_OSError e' then (fs2, Ok tt) else (fs2, Raise e')
          end
        else (fs1, Raise e)
    | r => r
    end
  else (fs, Ok tt).

Definition create_lock (os : procs) (fs : gmap string string)
  : gmap string string * result unit :=
  match create_exclusive fs LOCK_FILE (pretty (getpid os)) with
  | (fs1, Raise FileExistsError) => (fs1, Raise RuntimeError)
  | r => r
  end.

(** [acquire_lock]; [others] is what the other processes do to the file
    system between the stale check and the exclusive creation. *)
Definition acquire_lock (os : procs)
  (others : gmap string string -> gmap string string)
  (fs : gmap string string) : gmap string string * result unit :=
  match stale_check os fs with
  | (fs1, Raise e) => (fs1, Raise e)
  | (fs1, Ok _) => create_lock os (others fs1)
  end.

Definition release_lock (fs : gmap string string) : gmap string string :=
  if path_exists fs LOCK_FILE
  then match remove fs LOCK_FILE with
       | (fs', _) => fs'
       end
  else fs.

End Lock.

(** ** Engine layer *)

Module WallpaperEngine.

(** The values of the flat configuration document. *)
Inductive jvalue : Type :=
  | JNull
  | JBool (b : bool)
  | JInt (n : Z)
  | JStr (s : string).

Definition DEFAULT_CONFIG : gmap string jvalue :=
  list_to_map
    [ ("mode", JStr "life");
      ("dob", JStr EmptyString);
      ("lifespan", JInt 90);
      ("goal_start", JStr EmptyString);
      ("goal_end", JStr EmptyString);
      ("goal_title", JStr EmptyString);
      ("goal_subtitle", JStr EmptyString);
      ("resolution_width", JInt 1920);
      ("resolution_height", JInt 1080);
      ("config_version", JInt 2) ].

Section Config.

(** [json.dump] and [json.load] on flat documents. *)
Variable json_dump : gmap string jvalue -> string.
Variable json_load : string -> result (gmap string jvalue).

(** [load_config]: the defaults, updated with what the file holds. *)
Definition load_config (fs : gmap string string) (config_file : string)
  : result (gmap string jvalue) :=
  if OS.path_exists fs config_file
  then
    match (text <- OS.read_file fs config_file ;; json_load text)%result with
    | Ok loaded => Ok (loaded ∪ DEFAULT_CONFIG)
    | Raise JSONDecodeError => Raise ValueError
    | Raise FileNotFoundError => Raise FileNotFoundError
    | Raise _ => Raise Exception
    end
  else Raise FileNotFoundError.

(** [save_config] of the configuration form: a backup copy of the old
    file, then the new document. *)
Definition save_config (config : gmap string jvalue)
  (fs : gmap string string) (config_file : string) : gmap string string :=
  let fs1 :=
    match fs !! config_file with
    | Some old => <[config_file +:+ ".bak" := old]> fs
    | None => fs
    end in
  <[config_file := json_dump config]> fs1.

End Config.

Section Run.

(** [generate_wallpaper] and [set_wallpaper] catch their own exceptions
    and report success as a boolean. *)
Variable generate_wallpaper : gmap string string -> gmap string string * bool.
Variable set_wallpaper : gmap string string -> gmap string string * bool.

(** The [try] body of [run_auto]. *)
Definition run_body (os : OS.procs)
  (others : gmap string string -> gmap string string)
  (fs : gmap string string) : gmap string string * result bool :=
  match Lock.acquire_lock os others fs with
  | (fs1, Raise e) => (fs1, Raise e)
  | (fs1, Ok _) =>
      match generate_wallpaper fs1 with
      | (fs2, false) => (fs2, Ok false)
      | (fs2, true) =>
          match set_wallpaper fs2 with
          | (fs3, false) => (fs3, Ok false)
          | (fs3, true) => (fs3, Ok true)
          end
      end
  end.

(** [run_auto]: [except Exception] turns a failure into [False]; the
    [finally] clause runs on every path. *)
Definition run_auto (os : OS.procs)
  (others : gmap string string -> gmap string string)
  (fs : gmap string string) : gmap string string * bool :=
  match run_body os others fs with
  | (fs1, Ok b) => (Lock.release_lock fs1, b)
  | (fs1, Raise _) => (Lock.release_lock fs1, false)
  end.

End Run.

End WallpaperEngine.

(** ** A reference JSON codec for flat documents

    [load_config] and [save_config] are stated over any implementation of
    [json.dump] / [json.load]; this small printer and parser, for objects
    whose values are strings, integers, booleans and null, is one. *)

Module MiniJson.

Import WallpaperEngine.

Definition quote_char : ascii := ascii_of_nat 34.
Definition backslash : ascii := ascii_of_nat 92.

Fixpoint escape (s : list ascii) : list ascii :=
  match s with
  | [] => []
  | c :: r =>
      if Ascii.eqb c quote_char || Ascii.eqb c backslash
      then backslash :: c :: escape r
      else c :: escape r
  end.

Definition quoted (s : string) : list ascii :=
  quote_char :: escape (String.list_ascii_of_string s) ++ [quote_char].

Definition dump_value (v : jvalue) : list ascii :=
  match v with
  | JNull => String.list_ascii_of_string "null"
  | JBool true => String.list_ascii_of_string "true"
  | JBool false => String.list_ascii_of_string "false"
  | JInt n => String.list_ascii_of_string (pretty n)
  | JStr s => quoted s
  end.

Fixpoint dump_members (l : list (string * jvalue)) : list ascii :=
  match l with
  | [] => []
  | [(k, v)] => quoted k ++ String.list_ascii_of_string ": " ++ dump_value v
  | (k, v) :: r =>
      quoted k ++ String.list_ascii_of_string ": " ++ dump_value v
      ++ String.list_ascii_of_string ", " ++ dump_members r
  end.

Definition dump (doc : gmap string jvalue) : string :=
  String.string_of_list_ascii
    (String.list_ascii_of_string "{" ++ dump_members (map_to_list doc)
     ++ String.list_ascii_of_string "}").

Fixpoint skip_ws (s : list ascii) : list ascii :=
  match s with
  | c :: r => if Lock.is_space c then skip_ws r else s
  | [] => []
  end.

(** The rest of a string literal, after its opening quote. *)
Fixpoint parse_chars (acc : list ascii) (s : list ascii)
  : option (string * list ascii) :=
  match s with
  | [] => None
  | c :: r =>
      if Ascii.eqb c quote_char
      then Some (String.string_of_list_ascii (rev acc), r)
      else if Ascii.eqb c backslash
      then match r with
           | c' :: r' =>
               if Ascii.eqb c' quote_char || Ascii.eqb c' backslash
               then parse_chars (c' :: acc) r'
               else None
           | [] => None
           end
      else parse_chars (c :: acc) r
  end.

Definition parse_string (s : list ascii) : option (string * list ascii) :=
  match s with
  | c :: r => if Ascii.eqb c quote_char then parse_chars [] r else None
  | [] => None
  end.

Fixpoint parse_digits (acc : Z) (seen : bool) (s : list ascii)
  : option (Z * list ascii) :=
  match s with
  | c :: r =>
      if PyDate.is_digit c
      then parse_digits (10 * acc + PyDate.digit c) true r
      else if seen then Some (acc, s) else None
  | [] => if seen then Some (acc, []) else None
  end.

Definition parse_word (w : string) (v : jvalue) (s : list ascii)
  : option (jvalue * list ascii) :=
  let w := String.list_ascii_of_string w in
  if bool_decide (take (length w) s = w)
  then Some (v, drop (length w) s)
  else None.

Definition parse_value (s : list ascii) : option (jvalue * list ascii) :=
  match s with
  | c :: r =>
      if Ascii.eqb c quote_char
      then option_map (fun '(t, r') => (JStr t, r')) (parse_chars [] r)
      else if Z.of_nat (nat_of_ascii c) =? 45
      then option_map (fun '(n, r') => (JInt (- n), r')) (parse_digits 0 false r)
      else if PyDate.is_digit c
      then option_map (fun '(n, r') => (JInt n, r')) (parse_digits 0 false s)
      else match parse_word "null" JNull s with
           | Some p => Some p
           | None =>
               match parse_word "true" (JBool true) s with
               | Some p => Some p
               | None => parse_word "false" (JBool false) s
               end
           end
  | [] => None
  end.

(** The members of an object, up to and including the closing brace. *)
Fixpoint parse_members (fuel : nat) (doc : gmap string jvalue)
  (s : list ascii) : option (gmap string jvalue * list ascii) :=
  match fuel with
  | O => None
  | S fuel' =>
      match parse_string (skip_ws s) with
      | None => None
      | Some (k, r1) =>
          match skip_ws r1 with
          | colon :: r2 =>
              if Z.of_nat (nat_of_ascii colon) =? 58
              then match parse_value (skip_ws r2) with
                   | None => None
                   | Some (v, r3) =>
                       match skip_ws r3 with
                       | sep :: r4 =>
                           if Z.of_nat (nat_of_ascii sep) =? 44
                           then parse_members fuel' (<[k := v]> doc) r4
                           else if Z.of_nat (nat_of_ascii sep) =? 125
                           then Some (<[k := v]> doc, r4)
                           else None
                       | [] => None
                       end
                   end
              else None
          | [] => None
          end
      end
  end.

Definition parse_object (s : list ascii) : option (gmap string jvalue) :=
  match skip_ws s with
  | open :: r =>
      if Z.of_nat (nat_of_ascii open) =? 123
      then match skip_ws r with
           | close :: r' =>
               if Z.of_nat (nat_of_ascii close) =? 125
               then match skip_ws r' with [] => Some ∅ | _ => None end
               else match parse_members (length r) ∅ r with
                    | Some (doc, rest) =>
                        match skip_ws rest with [] => Some doc | _ => None end
                    | None => None
                    end
           | [] => None
           end
      else None
  | [] => None
  end.

Definition load (text : string) : result (gmap string jvalue) :=
  match parse_object (String.list_ascii_of_string text) with
  | Some doc => Ok doc
  | None => Raise JSONDecodeError
  end.

End MiniJson.

(** ** Scenarios

    Concrete inputs of the examples. *)

Module Scenario.

Import PyDate.

Definition birthday : string := "1990-05-15".
Definition on_2024_05_15 : datetime := mkdatetime (mkdate 2024 5 15) 0.
Definition new_years_eve_2024 : datetime := mkdatetime (mkdate 2024 12 31) 0.
Definition mid_2024 : datetime := mkdatetime (mkdate 2024 7 1) 0.

Definition wallpaper : string := "life_calendar_wallpaper.png".
Definition old_disk : gmap string string := {[ wallpaper := "old image" ]}.

(** A Unix process table in which exactly the pids of [alive] answer
    [kill(pid, 0)]; the engine runs as pid 777. *)
Definition unix (alive : Z -> bool) : OS.procs :=
  OS.mkprocs OS.Linux (fun _ => Raise OSError)
    (fun pid => if alive pid then Ok tt else Raise OSError) 777.

Definition held_by_4242 : gmap string string :=
  {[ Lock.LOCK_FILE := "4242" ]}.

Definition goal_config : gmap string WallpaperEngine.jvalue :=
  list_to_map
    [ ("mode", WallpaperEngine.JStr "goal");
      ("dob", WallpaperEngine.JStr "1990-05-15");
      ("lifespan", WallpaperEngine.JInt 85);
      ("goal_start", WallpaperEngine.JStr "2024-01-01");
      ("goal_end", WallpaperEngine.JStr "2024-12-31");
      ("goal_title", WallpaperEngine.JStr "Ship it");
      ("goal_subtitle",
       WallpaperEngine.JStr (String MiniJson.quote_char "quoted"));
      ("resolution_width", WallpaperEngine.JInt 2560);
      ("resolution_height", WallpaperEngine.JInt 1440);
      ("config_version", WallpaperEngine.JInt 2) ].

End Scenario.

(** ** Halves of integers as doubles

    The double whose value is [b / 2], for an integer [b] of at most 53
    bits: the mantissa is [|b|] shifted to 53 bits. *)

Module Halves.

Definition half_float (b : Z) : spec_float :=
  match b with
  | Z0 => S754_zero false
  | _ => S754_finite (b <? 0)
           (Z.to_pos (Z.abs b * 2 ^ (53 - Zdigits2 (Z.abs b))))
           (Zdigits2 (Z.abs b) - 54)
  end.

End Halves.

(** ** [date.isoformat]

    CPython prints a date as ["%04d-%02d-%02d" % (year, month, day)]; this
    is the text form of a date that the configuration stores. *)

Module DateText.

(** The decimal digit of [n] at the units place, as a character. *)
Definition digit_char (n : Z) : ascii :=
  ascii_of_nat (Z.to_nat (48 + n mod 10)).

Definition dash : ascii := ascii_of_nat 45.

Definition isoformat_chars (y m d : Z) : list ascii :=
  [digit_char (y / 1000); digit_char (y / 100); digit_char (y / 10);
   digit_char y; dash;
   digit_char (m / 10); digit_char m; dash;
   digit_char (d / 10); digit_char d].

Definition isoformat (d : date) : string :=
  String.string_of_list_ascii (isoformat_chars (year d) (month d) (day d)).

(** The month and day fields of an ISO date are read back as written. *)
Definition month_day_reads_back (m d : Z) : bool :=
  match match_month_day
          [digit_char (m / 10); digit_char m; dash;
           digit_char (d / 10); digit_char d] with
  | Some (m', d', []) => (m' =? m) && (d' =? d)
  | _ => false
  end.

Definition month_reads_back (m : Z) : bool :=
  forallb (month_day_reads_back m) (map (fun i => 1 + Z.of_nat i) (seq 0 31)).

End DateText.

(** ** Rendering layer: [WallpaperRenderer.draw_grid]

    The grid is the list of the rectangles handed to [draw.rectangle], in
    drawing order, each with its fill colour. *)

Module Drawing.

Record rectangle : Type := mkrect {
  x0 : Z; y0 : Z; x1 : Z; y1 : Z; fill : string
}.

Definition LIVED : string := "#cfcfcf".
Definition CURRENT : string := "#ffffff".
Definition FUTURE : string := "#3a3a3a".

(** [range(n)] *)
Definition range (n : Z) : list Z := map Z.of_nat (seq 0 (Z.to_nat n)).

Definition cell_color (total_units filled_units i : Z) : string :=
  if i <? filled_units then LIVED
  else if (filled_units <? total_units) && (i =? filled_units) then CURRENT
  else FUTURE.

Definition draw_grid (layout : GridLayout.t) (total_units filled_units : Z)
  : list rectangle :=
  map (fun i =>
         let '(x, y) := GridLayout.get_cell_position layout i in
         mkrect x y (x + GridLayout.cell_size layout)
                (y + GridLayout.cell_size layout)
                (cell_color total_units filled_units i))
      (range total_units).


(** Two rectangles of [draw.rectangle] share a pixel: the corners are
    inclusive. *)
Definition overlap (a b : rectangle) : Prop :=
  x0 a <= x1 b /\ x0 b <= x1 a /\ y0 a <= y1 b /\ y0 b <= y1 a.

End Drawing.

(** ** [str] methods, on ASCII text *)

Module Str.

Definition is_empty (s : string) : bool :=
  match s with EmptyString => true | _ => false end.

(** [s.strip()] *)
Definition strip (s : string) : string :=
  String.string_of_list_ascii (Lock.strip (String.list_ascii_of_string s)).

(** [s.isdigit()]: at least one character, and all of them digits. *)
Definition isdigit (s : string) : bool :=
  negb (is_empty s) && forallb PyDate.is_digit (String.list_ascii_of_string s).

Definition upper_char (c : ascii) : ascii :=
  let n := Z.of_nat (nat_of_ascii c) in
  if (97 <=? n) && (n <=? 122) then ascii_of_nat (Z.to_nat (n - 32)) else c.

Definition lower_char (c : ascii) : ascii :=
  let n := Z.of_nat (nat_of_ascii c) in
  if (65 <=? n) && (n <=? 90) then ascii_of_nat (Z.to_nat (n + 32)) else c.

(** [s.upper()] and [s.lower()] *)
Definition upper (s : string) : string :=
  String.string_of_list_ascii (map upper_char (String.list_ascii_of_string s)).
Definition lower (s : string) : string :=
  String.string_of_list_ascii (map lower_char (String.list_ascii_of_string s)).

End Str.

(** ** Python values of the configuration

    The configuration is the dictionary [json.load] returns; its values
    are strings, integers, booleans and [None].  Exceptions of classes
    that [exn] does not name are added here, with the error monad over
    them. *)

Module PyValue.

Import WallpaperEngine.

Inductive raised : Type :=
  | Std (e : exn)
  | TypeError
  | AttributeError
  | KeyError.

Inductive outcome (A : Type) : Type :=
  | Return (a : A)
  | Raised (e : raised).

Arguments Return {A} a.
Arguments Raised {A} e.

Definition obind {A B : Type} (r : outcome A) (k : A -> outcome B)
  : outcome B :=
  match r with
  | Return a => k a
  | Raised e => Raised e
  end.

Definition lift {A : Type} (r : result A) : outcome A :=
  match r with
  | Ok a => Return a
  | Raise e => Raised (Std e)
  end.

(** [bool(v)], the test of [if v] and [not v]. *)
Definition truthy (v : jvalue) : bool :=
  match v with
  | JNull => false
  | JBool b => b
  | JInt n => negb (n =? 0)
  | JStr s => negb (Str.is_empty s)
  end.

(** [int(v)] *)
Definition int_ (v : jvalue) : outcome Z :=
  match v with
  | JNull => Raised TypeError
  | JBool b => Return (if b then 1 else 0)
  | JInt n => Return n
  | JStr s => lift (Lock.py_int s)
  end.

(** [config[key]] and [config.get(key, default)] *)
Definition getitem (config : gmap string jvalue) (key : string)
  : outcome jvalue :=
  match config !! key with
  | Some v => Return v
  | None => Raised KeyError
  end.

Definition get (config : gmap string jvalue) (key : string) (dflt : jvalue)
  : jvalue :=
  match config !! key with
  | Some v => v
  | None => dflt
  end.

(** [int(config[key])] under [except (KeyError, ValueError, TypeError)]:
    [None] stands for the handler being entered. *)
Definition int_item (config : gmap string jvalue) (key : string) : option Z :=
  match config !! key with
  | Some v => match int_ v with
              | Return n => Some n
              | Raised _ => None
              end
  | None => None
  end.

(** [v == s] for a string [s] *)
Definition eq_str (v : jvalue) (s : string) : bool :=
  match v with
  | JStr t => String.eqb t s
  | _ => false
  end.

(** [safe_date(v)]: [strptime] raises [TypeError] on a value that is not
    a string, which [safe_date] turns into [None]. *)
Definition safe_date_value (v : jvalue) : option datetime :=
  match v with
  | JStr s => safe_date s
  | _ => None
  end.

(** [v.strip()]: only strings have the method. *)
Definition strip_ (v : jvalue) : outcome string :=
  match v with
  | JStr s => Return (Str.strip s)
  | _ => Raised AttributeError
  end.

End PyValue.

(** ** Engine layer: validation and generation *)

Module Engine.

Import WallpaperEngine PyValue.

Definition WALLPAPER : string := "life_calendar_wallpaper.png".

(** [validate_config]; [now] is the clock read by [datetime.now()]. *)
Definition validate_config (config : gmap string jvalue) (now : datetime)
  : outcome unit :=
  let mode := get config "mode" (JStr "life") in
  match int_item config "resolution_width",
        int_item config "resolution_height" with
  | Some width, Some height =>
      if (width <? 800) || (height <? 600) then Raised (Std ValueError)
      else if eq_str mode "life" then
        let dob := get config "dob" (JStr EmptyString) in
        if negb (truthy dob) then Raised (Std ValueError)
        else
          match safe_date_value dob with
          | None => Raised (Std ValueError)
          | Some dob_date =>
              if datetime_gt dob_date now then Raised (Std ValueError)
              else
                match int_item config "lifespan" with
                | None => Raised (Std ValueError)
                | Some lifespan =>
                    if (lifespan <? 1) || (150 <? lifespan)
                    then Raised (Std ValueError)
                    else Return tt
                end
          end
      else if eq_str mode "goal" then
        let start := get config "goal_start" (JStr EmptyString) in
        let end_ := get config "goal_end" (JStr EmptyString) in
        let title := get config "goal_title" (JStr EmptyString) in
        if negb (truthy start) || negb (truthy end_)
        then Raised (Std ValueError)
        else
          match strip_ title with
          | Raised e => Raised e
          | Return stripped =>
              if Str.is_empty stripped then Raised (Std ValueError)
              else
                match safe_date_value start, safe_date_value end_ with
                | None, _ => Raised (Std ValueError)
                | Some _, None => Raised (Std ValueError)
                | Some start_date, Some end_date =>
                    if datetime_le end_date start_date
                    then Raised (Std ValueError)
                    else Return tt
                end
          end
      else Return tt
  | _, _ => Raised (Std ValueError)
  end.

(** The calendar object of a run: [LifeCalendarData], [YearCalendarData]
    or [GoalCalendarData] with its title and subtitle. *)
Inductive calendar_data : Type :=
  | Life (self : LifeCalendarData.t)
  | Year
  | Goal (self : GoalCalendarData.t) (title subtitle : string).

(** [LifeCalendarData(dob, lifespan)] on a configuration value. *)
Definition life_init (dob : jvalue) (lifespan : Z) : outcome calendar_data :=
  match dob with
  | JStr dob_str =>
      obind (lift (LifeCalendarData.init dob_str lifespan))
            (fun self => Return (Life self))
  | _ => Raised (Std ValueError)
  end.

(** [GoalCalendarData(start, end, title, subtitle)] on configuration
    values, in the order of [__init__]: the two dates are parsed, the
    title and the subtitle are stripped, then the dates are compared. *)
Definition goal_init (start end_ title subtitle : jvalue)
  : outcome calendar_data :=
  match safe_date_value start, safe_date_value end_ with
  | None, _ => Raised (Std ValueError)
  | Some _, None => Raised (Std ValueError)
  | Some start_date, Some end_date =>
      let s := midnight start_date in
      let e := midnight end_date in
      obind (if truthy title then strip_ title else Return "GOAL COUNTDOWN")
        (fun title' =>
           obind (strip_ subtitle)
             (fun subtitle' =>
                if datetime_le e s then Raised (Std ValueError)
                else Return (Goal (GoalCalendarData.mk s e) title' subtitle')))
  end.

Definition get_title (c : calendar_data) (today : datetime) : string :=
  match c with
  | Life _ => "YOUR LIFE IN WEEKS"
  | Year => "YEAR PROGRESS " +:+ pretty (year (dt_date today))
  | Goal _ title _ => Str.upper title
  end.

Definition get_subtitle (c : calendar_data) : string :=
  match c with
  | Goal _ _ subtitle => subtitle
  | _ => EmptyString
  end.

Definition get_legend (c : calendar_data) : list (string * string) :=
  match c with
  | Life _ => [("#cfcfcf", "Lived"); ("#ffffff", "Current Week");
               ("#3a3a3a", "Future")]
  | Year => [("#cfcfcf", "Passed"); ("#ffffff", "Today");
             ("#3a3a3a", "Remaining")]
  | Goal _ _ _ => [("#cfcfcf", "Completed"); ("#ffffff", "Today");
                   ("#3a3a3a", "Remaining")]
  end.

(** The calls made on the renderer, with their arguments. *)
Inductive call : Type :=
  | draw_title (text : string) (y_position : Z)
  | draw_subtitle (text : string) (y_position : Z)
  | draw_stats (text : string) (y_position : Z)
  | draw_grid (layout : GridLayout.t) (total_units filled_units : Z)
  | draw_legend (legend_items : list (string * string)) (y_position : Z).

(** What a run has computed when it starts drawing. *)
Record plan : Type := mkplan {
  width : Z;
  height : Z;
  data : calendar_data;
  total_units : Z;
  filled_units : Z;
  layout : GridLayout.t;
  calls : list call
}.

(** The clock readings of a run, in the order they are taken: by
    [validate_config], by [calculate] and by [get_title]. *)
Record clock : Type := mkclock {
  at_validate : datetime;
  at_calculate : datetime;
  at_title : datetime
}.

Section Generate.

(** The text of [round((a / b) * 100, 1)]. *)
Variable percentage : Z -> Z -> string.

(** [calculate] with its statistics line. *)
Definition calculate (c : calendar_data) (now : datetime)
  : result (Z * Z * string) :=
  match c with
  | Life self =>
      match LifeCalendarData.calculate self now with
      | Ok (total_weeks, weeks_lived) =>
          Ok (total_weeks, weeks_lived,
              "Weeks Lived: " +:+ pretty weeks_lived
              +:+ " | Remaining: " +:+ pretty (total_weeks - weeks_lived)
              +:+ " | Total: " +:+ pretty total_weeks)
      | Raise e => Raise e
      end
  | Year =>
      match YearCalendarData.calculate now with
      | Ok (total_days, day_of_year) =>
          Ok (total_days, day_of_year,
              "Year " +:+ pretty (year (dt_date now))
              +:+ " Progress: Day " +:+ pretty day_of_year
              +:+ " of " +:+ pretty total_days
              +:+ " (" +:+ percentage day_of_year total_days +:+ "%)")
      | Raise e => Raise e
      end
  | Goal self _ _ =>
      match GoalCalendarData.calculate self now with
      | Ok (total_days, passed_days) =>
          Ok (total_days, passed_days,
              "Goal Progress: " +:+ pretty passed_days
              +:+ " of " +:+ pretty total_days +:+ " days ("
              +:+ (if 0 <? total_days then percentage passed_days total_days
                   else "0")
              +:+ "%)")
      | Raise e => Raise e
      end
  end.

(** The body of [generate_wallpaper] up to the call of [save]. *)
Definition prepare (config : gmap string jvalue) (t : clock) : outcome plan :=
  obind (validate_config config (at_validate t)) (fun _ =>
  obind (getitem config "mode") (fun mode =>
  obind (obind (getitem config "resolution_width") int_) (fun width =>
  obind (obind (getitem config "resolution_height") int_) (fun height =>
  match mode with
  | JStr m =>
      obind
        (if String.eqb m "life" then
           obind (getitem config "dob") (fun dob =>
           obind (obind (getitem config "lifespan") int_) (fun lifespan =>
           life_init dob lifespan))
         else if String.eqb m "year" then Return Year
         else if String.eqb m "goal" then
           obind (getitem config "goal_start") (fun start =>
           obind (getitem config "goal_end") (fun end_ =>
           goal_init start end_
             (get config "goal_title" (JStr EmptyString))
             (get config "goal_subtitle" (JStr EmptyString))))
         else Raised (Std ValueError))
        (fun calendar =>
           obind (lift (calculate calendar (at_calculate t)))
             (fun '(total_units, filled_units, stats_text) =>
                obind (lift (GridLayout.init m total_units width height))
                  (fun layout =>
                     let start_y := GridLayout.start_y layout in
                     let title :=
                       draw_title (get_title calendar (at_title t))
                                  (start_y - 110) in
                     let subtitle := get_subtitle calendar in
                     let texts :=
                       if negb (Str.is_empty subtitle)
                       then [draw_subtitle subtitle (start_y - 75);
                             draw_stats stats_text (start_y - 45)]
                       else [draw_stats stats_text (start_y - 65)] in
                     Return
                       (mkplan width height calendar total_units filled_units
                          layout
                          (title :: texts
                           ++ [draw_grid layout total_units filled_units;
                               draw_legend (get_legend calendar)
                                 (start_y + GridLayout.grid_height layout
                                  + 50)])))))
  | _ => Raised (Std ValueError)
  end)))).

(** The canvas after the calls, PNG-encoded; PIL may raise. *)
Variable render : Z -> Z -> list call -> result string.

(** [generate_wallpaper]: any exception is caught and reported as
    [False]. *)
Definition generate_wallpaper (config : gmap string jvalue) (t : clock)
  (f : WallpaperRenderer.faults) (fs : gmap string string)
  : gmap string string * bool :=
  match prepare config t with
  | Raised _ => (fs, false)
  | Return p =>
      match render (width p) (height p) (calls p) with
      | Raise _ => (fs, false)
      | Ok img =>
          match WallpaperRenderer.save f img fs WALLPAPER with
          | (fs', Ok _) => (fs', true)
          | (fs', Raise _) => (fs', false)
          end
      end
  end.

End Generate.

End Engine.

(** ** Runs of the engine used as examples *)

Module Runs.

Import WallpaperEngine.

(** Every reading of the clock falls on 2024-07-01. *)
Definition july_first : Engine.clock :=
  Engine.mkclock Scenario.mid_2024 Scenario.mid_2024 Scenario.mid_2024.


Definition percent_stub (a b : Z) : string := pretty (100 * a / b).

End Runs.

(** ** The configuration form ([life_calendar_gui.py])

    The widgets are the texts they hold; message boxes are not
    modelled. *)

Module GUI.

Import WallpaperEngine PyValue.

(** [safe_int(value, default)] on the text of an entry. *)
Definition safe_int (value : string) (default : Z) : Z :=
  match Lock.py_int value with
  | Ok n => n
  | Raise _ => default
  end.

Definition _default_config : gmap string jvalue :=
  list_to_map
    [ ("config_version", JInt 2);
      ("mode", JStr "life");
      ("dob", JStr EmptyString);
      ("lifespan", JInt 90);
      ("goal_start", JStr EmptyString);
      ("goal_end", JStr EmptyString);
      ("goal_title", JStr EmptyString);
      ("goal_subtitle", JStr EmptyString);
      ("resolution_width", JInt 1920);
      ("resolution_height", JInt 1080) ].

(** [version < 2] on a configuration value: an integer or a boolean
    compares, a string or [None] raises [TypeError]. *)
Definition lt_2 (version : jvalue) : outcome bool :=
  match version with
  | JInt n => Return (n <? 2)
  | JBool b => Return true
  | _ => Raised TypeError
  end.

Section Config.

Variable json_load : string -> result (gmap string jvalue).

(** [load_config]: the defaults updated with the file, or the defaults
    alone when the file is missing, unreadable or not JSON; then the
    migration of old versions. *)
Definition load_config (fs : gmap string string) (config_file : string)
  : outcome (gmap string jvalue) :=
  let loaded :=
    if OS.path_exists fs config_file
    then
      match (text <- OS.read_file fs config_file ;; json_load text)%result with
      | Ok loaded => Return (loaded ∪ _default_config)
      | Raise JSONDecodeError => Return _default_config
      | Raise e =>
          if OS.is_OSError e then Return _default_config else Raised (Std e)
      end
    else Return _default_config in
  obind loaded (fun config =>
  obind (lt_2 (get config "config_version" (JInt 1))) (fun old =>
  if old then Return (<["config_version" := JInt 2]> config)
  else Return config)).

End Config.

(** [RESOLUTION_PRESETS], in the order of the dictionary. *)
Definition RESOLUTION_PRESETS : list (string * option (Z * Z)) :=
  [ ("1920x1080 (Full HD)", Some (1920, 1080));
    ("2560x1440 (2K QHD)", Some (2560, 1440));
    ("3840x2160 (4K UHD)", Some (3840, 2160));
    ("1366x768 (HD)", Some (1366, 768));
    ("1280x720 (720p)", Some (1280, 720));
    ("Auto-detect", None);
    ("Custom", None) ].

(** [n == v] for an integer [n] and a configuration value [v]. *)
Definition eq_int (v : jvalue) (n : Z) : bool :=
  match v with
  | JInt k => k =? n
  | JBool b => (if b then 1 else 0) =? n
  | _ => false
  end.

(** The loop of [create_resolution_settings] that looks for the preset
    of the configured resolution.  The loop header unpacks the value of
    each entry into two names, which raises [TypeError] on [None]. *)
Fixpoint find_preset (presets : list (string * option (Z * Z)))
  (config_width config_height : jvalue) (current_preset : string)
  : outcome string :=
  match presets with
  | [] => Return current_preset
  | (preset_name, Some (preset_width, preset_height)) :: rest =>
      if eq_int config_width preset_width
         && eq_int config_height preset_height
      then Return preset_name
      else find_preset rest config_width config_height current_preset
  | (_, None) :: _ => Raised TypeError
  end.

Definition current_preset (config : gmap string jvalue) : outcome string :=
  find_preset RESOLUTION_PRESETS
    (get config "resolution_width" (JInt 1920))
    (get config "resolution_height" (JInt 1080))
    "Custom".

(** The texts of the form. *)
Record form : Type := mkform {
  mode_var : string;
  dob_entry : string;
  lifespan_entry : string;
  goal_title_entry : string;
  goal_subtitle_entry : string;
  goal_start_entry : string;
  goal_end_entry : string;
  width_entry : string;
  height_entry : string
}.

(** The resolution part of [_sync_config_from_ui]. *)
Definition sync_resolution (ui : form) (config : gmap string jvalue)
  : gmap string jvalue * result bool :=
  let width := safe_int (width_entry ui) 1920 in
  let height := safe_int (height_entry ui) 1080 in
  if (width <? 800) || (height <? 600) then (config, Ok false)
  else (<["resolution_height" := JInt height]>
          (<["resolution_width" := JInt width]> config), Ok true).

(** [_sync_config_from_ui]: the configuration as it is left, and the
    value returned. *)
Definition _sync_config_from_ui (ui : form) (config : gmap string jvalue)
  : gmap string jvalue * result bool :=
  let mode := mode_var ui in
  let config := <["mode" := JStr mode]> config in
  if String.eqb mode "life" then
    let dob := Str.strip (dob_entry ui) in
    if Str.is_empty dob then (config, Ok false)
    else
      match safe_date dob with
      | None => (config, Ok false)
      | Some _ =>
          let config := <["dob" := JStr dob]> config in
          let lifespan_str := Str.strip (lifespan_entry ui) in
          if Str.is_empty lifespan_str || negb (Str.isdigit lifespan_str)
          then (config, Ok false)
          else
            match Lock.py_int lifespan_str with
            | Raise e => (config, Raise e)
            | Ok lifespan =>
                if (lifespan <? 1) || (150 <? lifespan)
                then (config, Ok false)
                else sync_resolution ui (<["lifespan" := JInt lifespan]> config)
            end
      end
  else if String.eqb mode "goal" then
    let title := Str.strip (goal_title_entry ui) in
    if Str.is_empty title then (config, Ok false)
    else
      let start := Str.strip (goal_start_entry ui) in
      let end_ := Str.strip (goal_end_entry ui) in
      if Str.is_empty start || Str.is_empty end_ then (config, Ok false)
      else
        match safe_date start, safe_date end_ with
        | None, _ => (config, Ok false)
        | Some _, None => (config, Ok false)
        | Some start_date, Some end_date =>
            if datetime_le end_date start_date then (config, Ok false)
            else
              sync_resolution ui
                (<["goal_subtitle" :=
                     JStr (Str.strip (goal_subtitle_entry ui))]>
                   (<["goal_title" := JStr title]>
                      (<["goal_end" := JStr end_]>
                         (<["goal_start" := JStr start]> config))))
        end
  else sync_resolution ui config.

End GUI.

(** ** Forms used as examples *)

Module Forms.

Definition life_form : GUI.form :=
  GUI.mkform "life" " 1990-05-15 " "85" EmptyString EmptyString
    EmptyString EmptyString "2560" "1440".

End Forms.

(** ** The scheduler entry point ([auto_update.py])

    Paths are file names in the base directory; what the logger writes
    is not part of the file system. *)

Module AutoUpdate.

Import WallpaperEngine.

Definition CONFIG_FILE : string := "life_calendar_config.json".
Definition ERROR_CONFIG_NOT_FOUND : string := "ERROR_CONFIG_NOT_FOUND.txt".
Definition ERROR_IMPORT_FAILED : string := "ERROR_IMPORT_FAILED.txt".
Definition ERROR_GENERATION_FAILED : string := "ERROR_GENERATION_FAILED.txt".

Definition nl : string := String (ascii_of_nat 10) EmptyString.

Definition config_not_found_text : string :=
  "Life Calendar Error" +:+ nl +:+ "===================" +:+ nl
  +:+ "Config file not found" +:+ nl +:+ nl
  +:+ "Solution: Run LifeCalendar.exe first to create a config file.".

Definition generation_failed_text : string :=
  "Life Calendar Error" +:+ nl +:+ "===================" +:+ nl
  +:+ "Wallpaper generation failed" +:+ nl +:+ nl
  +:+ "Check wallpaper.log for details".

(** What the process meets outside the file system: whether [os.chdir]
    and the import of the engine succeed, the fault, if any, of writing
    an error file, and the paths on which [unlink] raises [OSError]. *)
Record env : Type := mkenv {
  chdir : result unit;
  import_engine : bool;
  write_fault : option OS.write_fault;
  unlink_fails : string -> bool
}.

(** [error_file.write_text(text)] under [except OSError]. *)
Definition write_error_file (e : env) (fs : gmap string string)
  (error_file text : string) : gmap string string :=
  fst (OS.write_file (write_fault e) fs error_file text).

(** The loop that removes old error files after a success. *)
Definition clean_error_files (e : env) (fs : gmap string string)
  : gmap string string :=
  fold_left
    (fun fs error_file_name =>
       if OS.path_exists fs error_file_name
       then if unlink_fails e error_file_name then fs
            else fst (OS.remove fs error_file_name)
       else fs)
    [ERROR_CONFIG_NOT_FOUND; ERROR_IMPORT_FAILED; ERROR_GENERATION_FAILED]
    fs.

Section Main.

Variable json_load : string -> result (gmap string jvalue).

(** [engine.run_auto()] of the engine built from a configuration. *)
Variable run_auto :
  gmap string jvalue -> gmap string string -> gmap string string * bool.

(** [main]: the file system it leaves and the exit code. *)
Definition main (e : env) (fs : gmap string string)
  : gmap string string * Z :=
  match chdir e with
  | Raise _ => (fs, 1)
  | Ok _ =>
      if negb (import_engine e) then (fs, 1)
      else if negb (OS.path_exists fs CONFIG_FILE)
      then (write_error_file e fs ERROR_CONFIG_NOT_FOUND config_not_found_text,
            1)
      else
        match load_config json_load fs CONFIG_FILE with
        | Raise _ => (fs, 1)
        | Ok config =>
            match run_auto config fs with
            | (fs1, true) => (clean_error_files e fs1, 0)
            | (fs1, false) =>
                (write_error_file e fs1 ERROR_GENERATION_FAILED
                   generation_failed_text, 1)
            end
        end
  end.

End Main.

End AutoUpdate.

(** ** The uninstaller ([uninstall.py]) *)

Module Uninstall.

Definition LOCK : string := ".life_calendar.lock".
Definition WALLPAPER : string := "life_calendar_wallpaper.png".
Definition ERROR_FILES : list string :=
  ["ERROR_CONFIG_NOT_FOUND.txt"; "ERROR_GENERATION_FAILED.txt";
   "ERROR_IMPORT_FAILED.txt"].

(** [remove_scheduled_task]: the outcomes of the two [schtasks] calls are
    their return codes, or the exception [subprocess.run] raised. *)
Definition remove_scheduled_task (system : OS.system)
  (query delete : result Z) : bool :=
  match system with
  | OS.Windows =>
      match query with
      | Raise _ => false
      | Ok check =>
          if negb (check =? 0) then true
          else match delete with
               | Ok returncode => returncode =? 0
               | Raise _ => false
               end
      end
  | _ => true
  end.

(** [remove_file]: [unlink] raises on the paths of [locked]. *)
Definition remove_file (locked : string -> bool) (fs : gmap string string)
  (filepath : string) : gmap string string * bool :=
  if OS.path_exists fs filepath
  then if locked filepath then (fs, false)
       else (delete filepath fs, true)
  else (fs, true).

(** The names [glob("wallpaper.log*")] yields. *)
Definition is_log_file (name : string) : bool :=
  String.prefix "wallpaper.log" name.

Definition log_files (fs : gmap string string) : list string :=
  List.filter is_log_file (map fst (map_to_list fs)).

(** Removing the files of a list, [success] being the conjunction of the
    results. *)
Definition remove_all (locked : string -> bool) (files : list string)
  (fs : gmap string string) : gmap string string * bool :=
  fold_left
    (fun '(fs, success) file =>
       let '(fs', removed) := remove_file locked fs file in
       (fs', removed && success))
    files (fs, true).

Definition remove_log_files (locked : string -> bool)
  (fs : gmap string string) : gmap string string * bool :=
  remove_all locked (log_files fs) fs.

(** [main]: the file system it leaves and the exit code. *)
Definition main (system : OS.system) (query delete : result Z)
  (locked : string -> bool) (fs : gmap string string)
  : gmap string string * Z :=
  let all_success := remove_scheduled_task system query delete && true in
  let '(fs, removed) := remove_file locked fs LOCK in
  let all_success := removed && all_success in
  let '(fs, removed) := remove_file locked fs WALLPAPER in
  let all_success := removed && all_success in
  let '(fs, removed) := remove_log_files locked fs in
  let all_success := removed && all_success in
  let fs := fst (remove_all locked ERROR_FILES fs) in
  (fs, if all_success then 0 else 1).

(** The files the uninstaller goes after. *)
Definition targeted (name : string) : bool :=
  String.eqb name LOCK || String.eqb name WALLPAPER || is_log_file name
  || existsb (String.eqb name) ERROR_FILES.

End Uninstall.

(** ** Engine layer: [set_wallpaper]

    The desktop is what the process can ask of it: environment
    variables, [shutil.which], and [subprocess.run], which returns the
    exit code of the command or raises.  Each function returns the
    commands it has run, in order, and whether it reports success. *)

Module SetWallpaper.

(** [sub in s] *)
Fixpoint contains (sub s : string) : bool :=
  String.prefix sub s
  || match s with
     | String _ rest => contains sub rest
     | EmptyString => false
     end.

Record desktop : Type := mkdesktop {
  XDG_CURRENT_DESKTOP : option string;
  DESKTOP_SESSION : option string;
  which : string -> bool;
  run : list string -> result Z
}.

(** [os.environ.get(name, '').lower()] *)
Definition environ_lower (value : option string) : string :=
  Str.lower (match value with Some v => v | None => EmptyString end).

(** One command: success is a zero exit code; an exception of
    [subprocess.run] reaches the handler of the function, which reports
    failure. *)
Definition run_one (d : desktop) (cmd : list string)
  : list (list string) * bool :=
  match run d cmd with
  | Ok returncode => ([cmd], returncode =? 0)
  | Raise _ => ([cmd], false)
  end.

Definition _set_linux_wallpaper (d : desktop) (abs_path : string)
  : list (list string) * bool :=
  let de := environ_lower (XDG_CURRENT_DESKTOP d) in
  let session := environ_lower (DESKTOP_SESSION d) in
  let desktop_env := de +:+ session in
  if contains "gnome" desktop_env || contains "ubuntu" desktop_env
     || contains "unity" desktop_env
  then
    if negb (which d "gsettings") then ([], false)
    else
      let c1 := ["gsettings"; "set"; "org.gnome.desktop.background";
                 "picture-uri"; "file://" +:+ abs_path] in
      let c2 := ["gsettings"; "set"; "org.gnome.desktop.background";
                 "picture-uri-dark"; "file://" +:+ abs_path] in
      match run d c1 with
      | Raise _ => ([c1], false)
      | Ok r1 =>
          match run d c2 with
          | Raise _ => ([c1; c2], false)
          | Ok r2 => ([c1; c2], (r1 =? 0) || (r2 =? 0))
          end
      end
  else if contains "kde" desktop_env || contains "plasma" desktop_env
  then
    if negb (which d "plasma-apply-wallpaperimage") then ([], false)
    else run_one d ["plasma-apply-wallpaperimage"; abs_path]
  else if contains "xfce" desktop_env
  then
    if negb (which d "xfconf-query") then ([], false)
    else run_one d ["xfconf-query"; "-c"; "xfce4-desktop"; "-p";
                    "/backdrop/screen0/monitor0/image-path"; "-s"; abs_path]
  else if contains "mate" desktop_env
  then
    if negb (which d "gsettings") then ([], false)
    else run_one d ["gsettings"; "set"; "org.mate.background";
                    "picture-filename"; abs_path]
  else if contains "cinnamon" desktop_env
  then
    if negb (which d "gsettings") then ([], false)
    else run_one d ["gsettings"; "set"; "org.cinnamon.desktop.background";
                    "picture-uri"; "file://" +:+ abs_path]
  else
    if negb (which d "feh") then ([], false)
    else run_one d ["feh"; "--bg-scale"; abs_path].

(** [_set_windows_wallpaper]: [spi] is the outcome of
    [SystemParametersInfoW(20, 0, abs_path, 3)]; the broadcast that
    follows cannot change the result.  The boolean of the first
    component tells whether the API was called. *)
Definition _set_windows_wallpaper (spi : string -> result Z)
  (fs : gmap string string) (abs_path : string) : bool * bool :=
  match fs !! abs_path with
  | None => (false, false)
  | Some content =>
      if Z.of_nat (String.length content) <? 1000 then (false, false)
      else match spi abs_path with
           | Ok result => (true, negb (result =? 0))
           | Raise _ => (true, false)
           end
  end.

(** The program of a command. *)
Definition program (cmd : list string) : string :=
  match cmd with
  | p :: _ => p
  | [] => EmptyString
  end.

(** What every branch of [_set_linux_wallpaper] respects. *)
Definition sound (d : desktop) (r : list (list string) * bool) : Prop :=
  (forall cmd, In cmd (fst r) -> which d (program cmd) = true)
  /\ (snd r = true -> exists cmd, In cmd (fst r) /\ run d cmd = Ok 0)
  /\ (forall c1 c2, In c1 (fst r) -> In c2 (fst r) -> program c1 = program c2)
  /\ (length (fst r) <= 2)%nat.

End SetWallpaper.

(* ===================================================================== *)
(** * Part II: properties                                                 *)
(* ===================================================================== *)

(** ** Finite checks over integer ranges *)

Lemma Zrange_forallb (f : Z -> bool) (lo : Z) (n : nat) :
  forallb f (map (fun i => lo + Z.of_nat i) (seq 0 n)) = true ->
  forall z, lo <= z < lo + Z.of_nat n -> f z = true.
Proof.
  intros Hall z Hz.
  rewrite forallb_forall in Hall.
  apply Hall.
  apply in_map_iff. exists (Z.to_nat (z - lo)).
  split; [lia | apply in_seq; lia].
Qed.

(** ** Calendar arithmetic *)

Module DateFacts.

Import PyDate.

Lemma days_before_year_succ y :
  days_before_year (y + 1) = days_before_year y + year_length y.
Proof.
  unfold days_before_year, year_length, isleap.
  replace (y + 1 - 1) with y by lia.
  destruct (Z.eqb_spec (y mod 4) 0), (Z.eqb_spec (y mod 100) 0),
    (Z.eqb_spec (y mod 400) 0); cbn [andb orb negb];
    Z.div_mod_to_equations; lia.
Qed.

Lemma days_before_year_mono y y' :
  y <= y' -> days_before_year y <= days_before_year y'.
Proof.
  intros H. unfold days_before_year. Z.div_mod_to_equations. lia.
Qed.

Lemma year_length_pos y : 365 <= year_length y <= 366.
Proof. unfold year_length. destruct (isleap y); lia. Qed.

Lemma days_in_month_dim y m : days_in_month y m = dim (isleap y) m.
Proof. reflexivity. Qed.

Lemma days_before_month_dbm y m : days_before_month y m = dbm (isleap y) m.
Proof. reflexivity. Qed.

(** [DAYS_BEFORE_MONTH] accumulates [DAYS_IN_MONTH]. *)
Lemma dbm_succ leap m :
  1 <= m < 12 -> dbm leap (m + 1) = dbm leap m + dim leap m.
Proof.
  intros Hm.
  apply Z.eqb_eq.
  apply (Zrange_forallb
           (fun m => dbm leap (m + 1) =? dbm leap m + dim leap m) 1 11);
    [destruct leap; vm_compute; reflexivity | lia].
Qed.

Lemma dim_pos leap m : 1 <= m <= 12 -> 28 <= dim leap m <= 31.
Proof.
  intros Hm.
  enough ((28 <=? dim leap m) && (dim leap m <=? 31) = true) by lia.
  apply (Zrange_forallb
           (fun m => (28 <=? dim leap m) && (dim leap m <=? 31)) 1 12);
    [destruct leap; vm_compute; reflexivity | lia].
Qed.

Lemma dbm_first leap : dbm leap 1 = 0.
Proof. destruct leap; reflexivity. Qed.

Lemma dbm_last leap : dbm leap 12 + dim leap 12 = if leap then 366 else 365.
Proof. destruct leap; reflexivity. Qed.

(** A later month starts after the earlier one has ended. *)
Lemma dbm_mono leap m m' :
  1 <= m -> m < m' -> m' <= 12 -> dbm leap m + dim leap m <= dbm leap m'.
Proof.
  intros H1 Hlt H12.
  replace m' with (m + 1 + Z.of_nat (Z.to_nat (m' - m - 1))) in * by lia.
  induction (Z.to_nat (m' - m - 1)) as [|k IH].
  - rewrite Z.add_0_r, dbm_succ by lia. lia.
  - replace (m + 1 + Z.of_nat (S k)) with (m + 1 + Z.of_nat k + 1) in * by lia.
    rewrite dbm_succ by lia.
    pose proof (dim_pos leap (m + 1 + Z.of_nat k)). lia.
Qed.

Lemma dbm_end leap m :
  1 <= m <= 12 -> dbm leap m + dim leap m <= if leap then 366 else 365.
Proof.
  intros Hm. rewrite <- dbm_last.
  destruct (Z.eq_dec m 12) as [->|Hne]; [lia|].
  pose proof (dbm_mono leap m 12). pose proof (dim_pos leap 12). lia.
Qed.

Lemma dbm_nonneg leap m : 1 <= m <= 12 -> 0 <= dbm leap m.
Proof.
  intros Hm. rewrite <- (dbm_first leap).
  destruct (Z.eq_dec m 1) as [->|Hne]; [lia|].
  pose proof (dbm_mono leap 1 m). pose proof (dim_pos leap 1). lia.
Qed.

Lemma valid_fields d :
  valid d = true ->
  1 <= year d <= 9999 /\ 1 <= month d <= 12
  /\ 1 <= day d <= dim (isleap (year d)) (month d).
Proof.
  unfold valid, check_date_fields. rewrite days_in_month_dim. lia.
Qed.

(** The day of the year of a valid date lies within its year. *)
Lemma day_of_year_bounds d :
  valid d = true ->
  1 <= dbm (isleap (year d)) (month d) + day d <= year_length (year d).
Proof.
  intros Hv. apply valid_fields in Hv as (_ & Hm & Hd).
  pose proof (dbm_nonneg (isleap (year d)) (month d) Hm).
  pose proof (dbm_end (isleap (year d)) (month d) Hm).
  unfold year_length. lia.
Qed.

Lemma date_cmp_eq a b : date_cmp a b = Eq -> a = b.
Proof.
  unfold date_cmp. destruct a as [y m d], b as [y' m' d']; cbn.
  destruct (Z.compare_spec y y'); try discriminate.
  destruct (Z.compare_spec m m'); try discriminate.
  destruct (Z.compare_spec d d'); try discriminate.
  congruence.
Qed.

(** The ordinal is strictly monotone for the tuple order on valid dates. *)
Lemma toordinal_lt a b :
  valid a = true -> valid b = true ->
  date_cmp a b = Lt -> toordinal a < toordinal b.
Proof.
  intros Ha Hb Hcmp.
  pose proof (day_of_year_bounds a Ha) as Hda.
  pose proof (day_of_year_bounds b Hb) as Hdb.
  apply valid_fields in Ha as (_ & Hma & Hdya).
  apply valid_fields in Hb as (_ & Hmb & Hdyb).
  unfold toordinal, ymd2ord. rewrite !days_before_month_dbm.
  unfold date_cmp in Hcmp.
  destruct (Z.compare_spec (year a) (year b)) as [Hy|Hy|Hy]; try discriminate.
  - rewrite Hy in *.
    destruct (Z.compare_spec (month a) (month b)) as [Hm|Hm|Hm];
      try discriminate.
    + rewrite Hm.
      assert (day a < day b) by (apply Z.compare_lt_iff; exact Hcmp). lia.
    + pose proof (dbm_mono (isleap (year b)) (month a) (month b)). lia.
  - pose proof (days_before_year_mono (year a + 1) (year b)).
    pose proof (days_before_year_succ (year a)). lia.
Qed.

Lemma date_cmp_antisym a b : date_cmp b a = CompOpp (date_cmp a b).
Proof.
  unfold date_cmp.
  rewrite (Z.compare_antisym (year a)), (Z.compare_antisym (month a)),
    (Z.compare_antisym (day a)).
  destruct (year a ?= year b), (month a ?= month b), (day a ?= day b);
    reflexivity.
Qed.

Lemma toordinal_compare a b :
  valid a = true -> valid b = true ->
  (toordinal a ?= toordinal b) = date_cmp a b.
Proof.
  intros Ha Hb. destruct (date_cmp a b) eqn:Hc.
  - apply date_cmp_eq in Hc. subst. apply Z.compare_refl.
  - apply Z.compare_lt_iff. now apply toordinal_lt.
  - apply Z.compare_gt_iff. apply toordinal_lt; trivial.
    rewrite date_cmp_antisym, Hc. reflexivity.
Qed.

Lemma date_le_ordinal a b :
  valid a = true -> valid b = true ->
  date_le a b = true <-> toordinal a <= toordinal b.
Proof.
  intros Ha Hb. unfold date_le. rewrite <- (toordinal_compare a b Ha Hb).
  destruct (Z.compare_spec (toordinal a) (toordinal b)); split; intros;
    try reflexivity; try discriminate; lia.
Qed.

Lemma date_lt_ordinal a b :
  valid a = true -> valid b = true ->
  date_lt a b = true <-> toordinal a < toordinal b.
Proof.
  intros Ha Hb. unfold date_lt. rewrite <- (toordinal_compare a b Ha Hb).
  destruct (Z.compare_spec (toordinal a) (toordinal b)); split; intros;
    try reflexivity; try discriminate; lia.
Qed.

(** What the parser returns is a valid date at midnight. *)
Lemma new_date_valid y m d dt : new_date y m d = Ok dt -> valid dt = true.
Proof.
  unfold new_date, valid.
  destruct (check_date_fields y m d) eqn:Hc; intros [= <-]; exact Hc.
Qed.

Lemma strptime_valid s dt :
  strptime s = Ok dt -> valid (dt_date dt) = true /\ dt_micro dt = 0.
Proof.
  unfold strptime, strptime_chars.
  destruct (String.list_ascii_of_string s) as [|y1 [|y2 [|y3 [|y4 [|c r]]]]];
    try discriminate.
  destruct (_ && _); try discriminate.
  destruct (match_month_day r) as [[[m d] [|? ?]]|]; try discriminate.
  destruct (new_date _ m d) as [dd|] eqn:Hn; cbn; try discriminate.
  intros [= <-]. cbn. split; [eapply new_date_valid; eassumption | reflexivity].
Qed.

Lemma safe_date_valid s dt :
  safe_date s = Some dt -> valid (dt_date dt) = true /\ dt_micro dt = 0.
Proof.
  unfold safe_date. destruct (strptime s) eqn:Hs; intros [= <-].
  now apply strptime_valid in Hs.
Qed.

End DateFacts.

(** ** Life calendar *)

Module LifeFacts.

Import PyDate PyFloat DateFacts LifeCalendarData Scenario.

(** On every admissible lifespan the binary64 product truncates to the
    floor of the exact product: the rounding error never crosses an
    integer. *)
Lemma total_days_exact lifespan :
  1 <= lifespan <= 150 ->
  total_days lifespan = Ok (lifespan * 3652425 / 10000).
Proof.
  intros H.
  assert (Hb : total_days_is lifespan = true).
  { apply (Zrange_forallb total_days_is 1 150);
      [vm_compute; reflexivity | lia]. }
  unfold total_days_is in Hb.
  destruct (total_days lifespan) as [n|]; [|discriminate].
  f_equal. lia.
Qed.

Lemma clamp_range lifespan : 1 <= Z.max 1 (Z.min lifespan 150) <= 150.
Proof. lia. Qed.

Lemma clamp_id lifespan :
  1 <= lifespan <= 150 -> Z.max 1 (Z.min lifespan 150) = lifespan.
Proof. lia. Qed.

(** floor(floor(x) / 7) = floor(x / 7) *)
Lemma weeks_of_days l : l * 3652425 / 10000 / 7 = l * 3652425 / 70000.
Proof. rewrite Z.div_div by lia. reflexivity. Qed.

Lemma total_weeks_lower l : 1 <= l -> 52 <= l * 3652425 / 70000.
Proof. intros H. apply Z.div_le_lower_bound; lia. Qed.

(** [calculate] never raises on an object built by [init]. *)
Lemma calculate_eq self now :
  1 <= lifespan self <= 150 ->
  calculate self now =
  Ok (lifespan self * 3652425 / 70000,
      Z.min (days_between (dt_date now) (dt_date (dob self)) / 7)
            (lifespan self * 3652425 / 70000)).
Proof.
  intros Hl. unfold calculate.
  pose proof (total_days_exact _ Hl) as Ht. unfold total_days in Ht.
  destruct (int_mul_float (lifespan self) days_per_year) as [p|e];
    cbn [rbind] in *; [|discriminate].
  rewrite Ht. cbn [rbind]. rewrite weeks_of_days. reflexivity.
Qed.

Lemma init_ok dob_str l d :
  safe_date dob_str = Some d ->
  init dob_str l = Ok (mk d (Z.max 1 (Z.min l 150))).
Proof. intros H. unfold init. rewrite H. reflexivity. Qed.

Lemma days_lived_nonneg (d today : date) :
  valid d = true -> valid today = true ->
  (0 <= days_between today d / 7 <-> date_le d today = true).
Proof.
  intros Hd Ht. rewrite (date_le_ordinal d today Hd Ht).
  unfold days_between. split; intros H.
  - destruct (Z_lt_le_dec (toordinal today - toordinal d) 0) as [Hneg|]; [|lia].
    exfalso. apply (Z.div_lt_upper_bound _ 7 0) in Hneg; lia.
  - apply Z.div_pos; lia.
Qed.

(** C1. For a date of birth that parses and is not after today, and a
    lifespan between 1 and 150, the calculator is built and [calculate]
    returns totalUnits = floor(lifespan * 365.2425 / 7) and
    filledUnits = min(floor(days(today - dob) / 7), totalUnits), with
    0 <= filledUnits <= totalUnits. *)
Theorem C1_life_calculate (dob_str : string) (lifespan : Z)
  (d now : datetime) :
  safe_date dob_str = Some d ->
  1 <= lifespan <= 150 ->
  valid (dt_date now) = true ->
  date_le (dt_date d) (dt_date now) = true ->
  let totalUnits := lifespan * 3652425 / 70000 in
  let filledUnits :=
    Z.min (days_between (dt_date now) (dt_date d) / 7) totalUnits in
  (self <- init dob_str lifespan ;; calculate self now)%result
  = Ok (totalUnits, filledUnits)
  /\ 0 <= filledUnits <= totalUnits.
Proof.
  intros Hparse Hl Hnow Hle. cbn zeta.
  rewrite (init_ok _ _ _ Hparse), clamp_id by exact Hl. cbn [rbind].
  rewrite calculate_eq by (cbn; exact Hl). cbn [dob LifeCalendarData.lifespan].
  split; [reflexivity|].
  pose proof (total_weeks_lower lifespan).
  apply safe_date_valid in Hparse as [Hd _].
  apply (days_lived_nonneg _ _ Hd Hnow) in Hle. lia.
Qed.

Lemma C1_life_calculate_witness :
  (self <- init birthday 90 ;; calculate self on_2024_05_15)%result
  = Ok (4695, 1774)
  /\ 0 <= 1774 <= 4695.
Proof.
  apply (C1_life_calculate birthday 90
           (mkdatetime (mkdate 1990 5 15) 0) on_2024_05_15);
    [reflexivity | lia | reflexivity | reflexivity].
Defined.

(** C8, as stated, fails: a date of birth after today parses, and the
    calculator then returns a negative filledUnits. *)
Lemma C8_future_dob_counterexample :
  (self <- init "2030-05-15" 90 ;; calculate self on_2024_05_15)%result
  = Ok (4695, -313)
  /\ ~ (0 <= -313 <= 4695).
Proof. split; [vm_compute; reflexivity | lia]. Qed.

(** C8, amended. For a date of birth that parses and any integer
    lifespan, [calculate] returns totalUnits > 0 and
    filledUnits <= totalUnits; filledUnits >= 0 exactly when the date of
    birth is not after today. *)
Theorem C8_life_any_lifespan (dob_str : string) (lifespan : Z)
  (d now : datetime) :
  safe_date dob_str = Some d ->
  valid (dt_date now) = true ->
  exists totalUnits filledUnits,
    (self <- init dob_str lifespan ;; calculate self now)%result
    = Ok (totalUnits, filledUnits)
    /\ 0 < totalUnits
    /\ filledUnits <= totalUnits
    /\ (0 <= filledUnits <-> date_le (dt_date d) (dt_date now) = true).
Proof.
  intros Hparse Hnow.
  pose proof (clamp_range lifespan) as Hc.
  set (l := Z.max 1 (Z.min lifespan 150)) in *.
  exists (l * 3652425 / 70000),
    (Z.min (days_between (dt_date now) (dt_date d) / 7) (l * 3652425 / 70000)).
  rewrite (init_ok _ _ _ Hparse). cbn [rbind]. fold l.
  rewrite calculate_eq by (cbn; exact Hc). cbn [dob LifeCalendarData.lifespan].
  pose proof (total_weeks_lower l).
  apply safe_date_valid in Hparse as [Hd _].
  pose proof (days_lived_nonneg _ _ Hd Hnow) as Hiff.
  repeat split; try lia.
  - intros H0. apply Hiff. lia.
  - intros Hle. apply Hiff in Hle. lia.
Qed.

Lemma C8_life_any_lifespan_witness :
  exists totalUnits filledUnits,
    (self <- init "2030-05-15" 1000 ;; calculate self on_2024_05_15)%result
    = Ok (totalUnits, filledUnits)
    /\ 0 < totalUnits
    /\ filledUnits <= totalUnits
    /\ (0 <= filledUnits <->
        date_le (mkdate 2030 5 15) (dt_date on_2024_05_15) = true).
Proof.
  apply (C8_life_any_lifespan "2030-05-15" 1000
           (mkdatetime (mkdate 2030 5 15) 0) on_2024_05_15);
    reflexivity.
Defined.

(** C9, as stated, fails: with lifespan 90 the total is 4695 weeks, not
    4698. *)
Lemma C9_total_weeks_counterexample :
  (self <- init birthday 90 ;; calculate self on_2024_05_15)%result
  = Ok (4695, 1774)
  /\ 4695 <> 4698
  /\ 90 * 3652425 / 70000 <> 4698.
Proof.
  split; [vm_compute; reflexivity | split; [lia | vm_compute; discriminate]].
Qed.

(** C9, amended. With lifespan 90 [calculate] returns
    totalWeeks = floor(90 * 365.2425 / 7) = 4695 whatever the dates; and
    for dob 1990-05-15 with today 2024-05-15 it returns
    weeksLived = floor(12419 / 7) = 1774, 12419 being the days between
    the two dates. *)
Theorem C9_scenario_life_90 :
  (forall (d now : datetime), exists weeksLived,
      calculate (mk d 90) now = Ok (4695, weeksLived))
  /\ (self <- init birthday 90 ;; calculate self on_2024_05_15)%result
     = Ok (4695, 1774)
  /\ 90 * 3652425 / 70000 = 4695
  /\ days_between (mkdate 2024 5 15) (mkdate 1990 5 15) = 12419
  /\ 12419 / 7 = 1774.
Proof.
  split; [|repeat split; vm_compute; reflexivity].
  intros d now. eexists.
  rewrite calculate_eq by (cbn; lia). reflexivity.
Qed.

End LifeFacts.

(** ** Year calendar *)

Module YearFacts.

Import PyDate DateFacts YearCalendarData Scenario.

Lemma january_first y :
  1 <= y <= 9999 -> new_date y 1 1 = Ok (mkdate y 1 1).
Proof.
  intros Hy. unfold new_date, check_date_fields.
  replace (days_in_month y 1) with 31 by reflexivity.
  repeat (rewrite (proj2 (Z.leb_le _ _)) by lia). reflexivity.
Qed.

(** Days elapsed since January 1st of the same year. *)
Lemma since_january_first d :
  days_between d (mkdate (year d) 1 1) + 1
  = dbm (isleap (year d)) (month d) + day d.
Proof.
  unfold days_between, toordinal, ymd2ord. cbn [year month day].
  rewrite !days_before_month_dbm, dbm_first. lia.
Qed.

(** C2. [calculate] returns totalUnits = 366 in a leap year and 365
    otherwise, and filledUnits = days(today - January 1st) + 1 clamped to
    totalUnits; the clamp never cuts, 1 <= filledUnits <= totalUnits, and
    on December 31st filledUnits = totalUnits. *)
Theorem C2_year_calculate (now : datetime) :
  valid (dt_date now) = true ->
  let today := dt_date now in
  let totalUnits := if isleap (year today) then 366 else 365 in
  let dayOfYear := days_between today (mkdate (year today) 1 1) + 1 in
  calculate now = Ok (totalUnits, Z.min dayOfYear totalUnits)
  /\ Z.min dayOfYear totalUnits = dayOfYear
  /\ 1 <= dayOfYear <= totalUnits
  /\ (month today = 12 -> day today = 31 -> dayOfYear = totalUnits).
Proof.
  intros Hv. cbn zeta.
  pose proof (day_of_year_bounds _ Hv) as Hb. unfold year_length in Hb.
  pose proof (valid_fields _ Hv) as (Hy & _ & _).
  unfold calculate. rewrite (january_first _ Hy). cbn [rbind].
  rewrite since_january_first.
  repeat split; try lia.
  intros Hm Hd. rewrite Hm, Hd, <- dbm_last. destruct (isleap _); reflexivity.
Qed.

Lemma C2_year_calculate_witness :
  calculate new_years_eve_2024 = Ok (366, 366).
Proof.
  destruct (C2_year_calculate new_years_eve_2024) as (Hc & _);
    [reflexivity | exact Hc].
Defined.

Example leap_day_scenario :
  calculate (mkdatetime (mkdate 2024 3 1) 0) = Ok (366, 61).
Proof. reflexivity. Qed.

Example common_year_end :
  calculate (mkdatetime (mkdate 2023 12 31) 0) = Ok (365, 365).
Proof. reflexivity. Qed.

End YearFacts.

(** ** Goal calendar *)

Module GoalFacts.

Import PyDate DateFacts GoalCalendarData Scenario.

Lemma midnight_le (s e : datetime) :
  valid (dt_date s) = true -> valid (dt_date e) = true ->
  datetime_le (midnight e) (midnight s) = true
  <-> toordinal (dt_date e) <= toordinal (dt_date s).
Proof.
  intros Hs He. rewrite <- (date_le_ordinal _ _ He Hs).
  unfold datetime_le, datetime_cmp, date_le, midnight. cbn.
  destruct (date_cmp (dt_date e) (dt_date s)); reflexivity.
Qed.

(** C3. Construction raises [ValueError] when a date does not parse or
    when end <= start; otherwise [calculate] returns
    totalUnits = days(end - start), and filledUnits = 0 before the start,
    totalUnits after the end, and days(today - start) in between. *)
Theorem C3_goal_calendar (start_str end_str : string) (now : datetime) :
  valid (dt_date now) = true ->
  let today := toordinal (dt_date now) in
  (safe_date start_str = None \/ safe_date end_str = None ->
   init start_str end_str = Raise ValueError)
  /\ (forall s e,
        safe_date start_str = Some s -> safe_date end_str = Some e ->
        let first := toordinal (dt_date s) in
        let last := toordinal (dt_date e) in
        (last <= first -> init start_str end_str = Raise ValueError)
        /\ (first < last ->
            exists self filledUnits,
              init start_str end_str = Ok self
              /\ calculate self now = Ok (last - first, filledUnits)
              /\ (today < first -> filledUnits = 0)
              /\ (last < today -> filledUnits = last - first)
              /\ (first <= today <= last -> filledUnits = today - first))).
Proof.
  intros Hnow. cbn zeta. split.
  - unfold init. intros [-> | He]; [reflexivity|].
    rewrite He. destruct (safe_date start_str); reflexivity.
  - intros s e Hs He.
    pose proof (safe_date_valid _ _ Hs) as [Hvs _].
    pose proof (safe_date_valid _ _ He) as [Hve _].
    pose proof (midnight_le s e Hvs Hve) as Hle.
    unfold init. rewrite Hs, He. split.
    + intros H. apply Hle in H. rewrite H. reflexivity.
    + intros H.
      assert (Hd : datetime_le (midnight e) (midnight s) = false)
        by (apply not_true_is_false; intros Hd; apply Hle in Hd; lia).
      rewrite Hd.
      eexists _, _. split; [reflexivity|].
      unfold calculate. cbn [start end_ midnight dt_date].
      split; [reflexivity|].
      pose proof (date_lt_ordinal _ _ Hnow Hvs) as Hlt.
      pose proof (date_lt_ordinal _ _ Hve Hnow) as Hgt.
      assert (Hoff : forall (b : bool) (P : Prop),
                 (b = true <-> P) -> ~ P -> b = false)
        by (intros b P Hiff Hn; apply not_true_is_false; tauto).
      unfold date_gt, days_between.
      split; [|split]; intros Hx.
      * apply Hlt in Hx. rewrite Hx. reflexivity.
      * rewrite (Hoff _ _ Hlt) by lia.
        apply Hgt in Hx. rewrite Hx. reflexivity.
      * rewrite (Hoff _ _ Hlt), (Hoff _ _ Hgt) by lia. reflexivity.
Qed.

Lemma C3_goal_calendar_witness :
  exists self,
    init "2024-01-01" "2024-12-31" = Ok self
    /\ calculate self mid_2024 = Ok (365, 182).
Proof.
  destruct (C3_goal_calendar "2024-01-01" "2024-12-31" mid_2024) as [_ H];
    [reflexivity|].
  destruct (H (mkdatetime (mkdate 2024 1 1) 0)
              (mkdatetime (mkdate 2024 12 31) 0)) as [_ Hok];
    [reflexivity | reflexivity |].
  destruct Hok as (self & filled & Hi & Hc & _ & _ & Hmid);
    [vm_compute; reflexivity|].
  exists self. split; [exact Hi|].
  rewrite Hc, Hmid by (vm_compute; split; discriminate). reflexivity.
Defined.

Example goal_rejects_empty_span :
  init "2024-05-01" "2024-05-01" = Raise ValueError.
Proof. reflexivity. Qed.

End GoalFacts.

(** ** Atomic save *)

Module SaveFacts.

Import OS WallpaperRenderer Scenario.

(** A path with a non-empty suffix is another path. *)
Lemma temp_path_fresh_gen path (c : ascii) (suffix : string) :
  path +:+ String c suffix <> path.
Proof.
  induction path as [|a p IH]; [discriminate|].
  intros H. apply IH.
  change (String a (p +:+ String c suffix) = String a p) in H. congruence.
Qed.


Lemma path_exists_true (fs : gmap string string) p :
  path_exists fs p = true <-> is_Some (fs !! p).
Proof. unfold path_exists. apply bool_decide_eq_true. Qed.

Lemma path_exists_false (fs : gmap string string) p :
  path_exists fs p = false <-> fs !! p = None.
Proof.
  unfold path_exists. rewrite bool_decide_eq_false.
  rewrite eq_None_not_Some. reflexivity.
Qed.





Example rename_refused :
  save (mkfaults None (Some OSError)) "new image" old_disk wallpaper
  = (old_disk, Raise OSError).
Proof.
  vm_compute. reflexivity.
Qed.

End SaveFacts.

(** ** Lock file *)

Module LockFacts.

Import OS Lock SaveFacts Scenario.

Lemma create_lock_free os (fs : gmap string string) :
  fs !! LOCK_FILE = None ->
  create_lock os fs = (<[LOCK_FILE := pretty (getpid os)]> fs, Ok tt).
Proof. intros H. unfold create_lock, create_exclusive. rewrite H. reflexivity. Qed.


Lemma py_int_error text e : py_int text = Raise e -> e = ValueError.
Proof.
  unfold py_int. cbv zeta.
  match goal with
  | |- match ?signed with _ => _ end = _ -> _ => destruct signed
  end; congruence.
Qed.

(** A marker whose owner answers the liveness probe stops the stale
    check with [RuntimeError]; the marker stays. *)
Lemma stale_check_live os (fs : gmap string string) text pid :
  fs !! LOCK_FILE = Some text -> py_int text = Ok pid ->
  _is_process_running os pid = true ->
  stale_check os fs = (fs, Raise RuntimeError).
Proof.
  intros Hf Hp Hr. unfold stale_check, check_existing, read_file.
  rewrite (proj2 (path_exists_true fs LOCK_FILE)) by (rewrite Hf; eauto).
  rewrite Hf. cbn [rbind]. rewrite Hp, Hr. reflexivity.
Qed.


Lemma stale_check_absent os (fs : gmap string string) :
  fs !! LOCK_FILE = None -> stale_check os fs = (fs, Ok tt).
Proof.
  intros Hf. unfold stale_check.
  rewrite (proj2 (path_exists_false fs LOCK_FILE)) by exact Hf. reflexivity.
Qed.



Example corrupted_marker_is_reclaimed :
  acquire_lock (unix (fun _ => true)) id {[ LOCK_FILE := "not a pid" ]}
  = ({[ LOCK_FILE := "777" ]}, Ok tt).
Proof. vm_compute. reflexivity. Qed.

Example creation_race_lost :
  acquire_lock (unix (fun _ => false)) (fun fs => <[LOCK_FILE := "888"]> fs)
    held_by_4242
  = ({[ LOCK_FILE := "888" ]}, Raise RuntimeError).
Proof. vm_compute. reflexivity. Qed.

(** Any error of the probe counts as a dead process. *)
Lemma probe_error_means_dead (alive : Z -> bool) (pid : Z) (e : exn) :
  _is_process_running
    (mkprocs Linux (fun _ => Raise OSError)
       (fun p => if alive p then Ok tt else Raise e) 777) pid
  = alive pid.
Proof. unfold _is_process_running. cbn. destruct (alive pid); reflexivity. Qed.

(** [release_lock] removes the marker whoever wrote it. *)
Lemma release_lock_spec (fs : gmap string string) :
  release_lock fs = delete LOCK_FILE fs.
Proof.
  unfold release_lock, remove.
  destruct (path_exists fs LOCK_FILE) eqn:He.
  - apply path_exists_true in He as [c Hc]. rewrite Hc. reflexivity.
  - apply path_exists_false in He. symmetry. now apply delete_id.
Qed.

(** Under contention [run_auto] fails and its [finally] clause deletes
    the marker of the live holder. *)
Lemma run_auto_contention
  (generate_wallpaper set_wallpaper
     : gmap string string -> gmap string string * bool)
  os others (fs : gmap string string) text pid :
  fs !! LOCK_FILE = Some text -> py_int text = Ok pid ->
  _is_process_running os pid = true ->
  WallpaperEngine.run_auto generate_wallpaper set_wallpaper os others fs
  = (delete LOCK_FILE fs, false).
Proof.
  intros Hf Hp Hr. unfold WallpaperEngine.run_auto, WallpaperEngine.run_body, acquire_lock.
  rewrite (stale_check_live os fs text pid Hf Hp Hr), release_lock_spec.
  reflexivity.
Qed.

(** C7 is violated: process 4242 is alive and holds the lock; a second
    run fails with contention, and afterwards the marker of 4242 is
    gone. *)
Theorem C7_failed_run_removes_live_lock
  (generate_wallpaper set_wallpaper
     : gmap string string -> gmap string string * bool) :
  held_by_4242 !! LOCK_FILE = Some "4242"
  /\ _is_process_running (unix (Z.eqb 4242)) 4242 = true
  /\ Lock.acquire_lock (unix (Z.eqb 4242)) id held_by_4242
     = (held_by_4242, Raise RuntimeError)
  /\ WallpaperEngine.run_auto generate_wallpaper set_wallpaper
       (unix (Z.eqb 4242)) id held_by_4242
     = (∅, false)
  /\ fst (WallpaperEngine.run_auto generate_wallpaper set_wallpaper
            (unix (Z.eqb 4242)) id held_by_4242) !! LOCK_FILE = None.
Proof.
  assert (Hrun : WallpaperEngine.run_auto generate_wallpaper set_wallpaper
                   (unix (Z.eqb 4242)) id held_by_4242 = (∅, false)).
  { rewrite (run_auto_contention _ _ _ _ held_by_4242 "4242" 4242)
      by reflexivity.
    f_equal. }
  rewrite Hrun. repeat split; vm_compute; reflexivity.
Qed.

End LockFacts.

(** ** Configuration round trip *)

Module ConfigFacts.

Import OS WallpaperEngine SaveFacts Scenario.





(** The previous document is kept as [.bak]. *)
Lemma save_config_backup json_dump (cfg : gmap string jvalue)
  (fs : gmap string string) config_file old :
  fs !! config_file = Some old ->
  save_config json_dump cfg fs config_file !! (config_file +:+ ".bak")
  = Some old.
Proof.
  intros Hold. unfold save_config. rewrite Hold.
  rewrite lookup_insert_ne, lookup_insert_eq; [reflexivity|].
  intros H. symmetry in H. revert H. apply temp_path_fresh_gen.
Qed.

End ConfigFacts.

(** ** Binary64 arithmetic: magnitudes of rounded results *)

Module FloatFacts.

Import PyFloat.

(** *** Binary digits *)

Lemma digits2_pos_bounds p :
  2 ^ (Zpos (digits2_pos p) - 1) <= Zpos p < 2 ^ Zpos (digits2_pos p).
Proof.
  induction p as [p IH|p IH|]; cbn [digits2_pos];
    rewrite ?Pos2Z.inj_succ.
  - replace (Z.succ (Zpos (digits2_pos p)) - 1)
      with (Z.succ (Zpos (digits2_pos p) - 1)) by lia.
    rewrite !Z.pow_succ_r by lia. lia.
  - replace (Z.succ (Zpos (digits2_pos p)) - 1)
      with (Z.succ (Zpos (digits2_pos p) - 1)) by lia.
    rewrite !Z.pow_succ_r by lia. lia.
  - cbn. lia.
Qed.

Lemma Zdigits2_nonneg m : 0 <= Zdigits2 m.
Proof. destruct m; cbn; lia. Qed.

Lemma Zdigits2_bounds m :
  0 < m -> 2 ^ (Zdigits2 m - 1) <= m < 2 ^ Zdigits2 m.
Proof. destruct m as [|p|p]; try lia. intros _. apply digits2_pos_bounds. Qed.

Lemma Zdigits2_pos m : 0 < m -> 0 < Zdigits2 m.
Proof. destruct m; cbn; lia. Qed.

(** Fewer than [k] digits below [2 ^ k]. *)
Lemma Zdigits2_le m k : 0 <= m -> 0 <= k -> m < 2 ^ k -> Zdigits2 m <= k.
Proof.
  intros Hm Hk Hlt.
  destruct (Z.eq_dec m 0) as [->|Hne]; [cbn; lia|].
  pose proof (Zdigits2_bounds m ltac:(lia)) as [Hlo _].
  pose proof (Zdigits2_pos m ltac:(lia)).
  destruct (Z_lt_le_dec k (Zdigits2 m)) as [Hgt|]; [|lia].
  exfalso.
  assert (2 ^ k <= 2 ^ (Zdigits2 m - 1)) by (apply Z.pow_le_mono_r; lia).
  lia.
Qed.

(** More than [k] digits from [2 ^ k] on. *)
Lemma Zdigits2_gt m k : 0 <= k -> 2 ^ k <= m -> k < Zdigits2 m.
Proof.
  intros Hk Hle.
  assert (0 < 2 ^ k) by (apply Z.pow_pos_nonneg; lia).
  pose proof (Zdigits2_bounds m ltac:(lia)) as [_ Hhi].
  apply (Z.pow_lt_mono_r_iff 2); [lia | apply Zdigits2_nonneg | lia].
Qed.

Lemma Zdigits2_mono a b : 0 <= a <= b -> Zdigits2 a <= Zdigits2 b.
Proof.
  intros [Ha Hab].
  destruct (Z.eq_dec b 0) as [->|Hb]; [replace a with 0 by lia; lia|].
  apply Zdigits2_le; [lia | apply Zdigits2_nonneg |].
  pose proof (Zdigits2_bounds b ltac:(lia)). lia.
Qed.

Lemma Zdigits2_mul_pow2 m k :
  0 < m -> 0 <= k -> Zdigits2 (m * 2 ^ k) = Zdigits2 m + k.
Proof.
  intros Hm Hk.
  pose proof (Zdigits2_bounds m Hm) as [Hlo Hhi].
  pose proof (Zdigits2_pos m Hm).
  assert (0 < 2 ^ k) by (apply Z.pow_pos_nonneg; lia).
  apply Z.le_antisymm.
  - apply Zdigits2_le; [nia | lia |].
    rewrite Z.pow_add_r by lia. nia.
  - enough (Zdigits2 m + k - 1 < Zdigits2 (m * 2 ^ k)) by lia.
    apply Zdigits2_gt; [lia|].
    replace (Zdigits2 m + k - 1) with (Zdigits2 m - 1 + k) by lia.
    rewrite Z.pow_add_r by lia. nia.
Qed.

Lemma Zdigits2_mul a b :
  0 < a -> 0 < b -> Zdigits2 (a * b) <= Zdigits2 a + Zdigits2 b.
Proof.
  intros Ha Hb.
  pose proof (Zdigits2_bounds a Ha). pose proof (Zdigits2_bounds b Hb).
  pose proof (Zdigits2_nonneg a). pose proof (Zdigits2_nonneg b).
  apply Zdigits2_le; [nia | lia |].
  rewrite Z.pow_add_r by lia. nia.
Qed.

(** Digits of a quotient by a power of two. *)
Lemma Zdigits2_div_pow2 m n :
  0 < m -> 0 <= n -> n < Zdigits2 m ->
  0 < m / 2 ^ n /\ Zdigits2 (m / 2 ^ n) = Zdigits2 m - n.
Proof.
  intros Hm Hn Hlt.
  pose proof (Zdigits2_bounds m Hm) as [Hlo Hhi].
  assert (Hp : 0 < 2 ^ n) by (apply Z.pow_pos_nonneg; lia).
  assert (Hq : 2 ^ (Zdigits2 m - 1 - n) <= m / 2 ^ n).
  { apply Z.div_le_lower_bound; [lia|].
    rewrite <- Z.pow_add_r by lia.
    replace (n + (Zdigits2 m - 1 - n)) with (Zdigits2 m - 1) by lia. lia. }
  assert (0 < 2 ^ (Zdigits2 m - 1 - n)) by (apply Z.pow_pos_nonneg; lia).
  split; [lia|].
  apply Z.le_antisymm.
  - apply Zdigits2_le; [lia | lia |].
    apply Z.div_lt_upper_bound; [lia|].
    rewrite <- Z.pow_add_r by lia.
    replace (n + (Zdigits2 m - n)) with (Zdigits2 m) by lia. lia.
  - enough (Zdigits2 m - 1 - n < Zdigits2 (m / 2 ^ n)) by lia.
    apply Zdigits2_gt; [lia | lia].
Qed.

Lemma div_pow2_small m n : 0 <= m -> Zdigits2 m <= n -> m / 2 ^ n = 0.
Proof.
  intros Hm Hn.
  destruct (Z.eq_dec m 0) as [->|Hne]; [apply Zdiv_0_l|].
  pose proof (Zdigits2_bounds m ltac:(lia)) as [_ Hhi].
  pose proof (Zdigits2_nonneg m).
  apply Z.div_small. split; [lia|].
  assert (2 ^ Zdigits2 m <= 2 ^ n) by (apply Z.pow_le_mono_r; lia). lia.
Qed.

(** *** Right shifts of the rounding record *)

Lemma shr_1_m mrs : 0 <= shr_m mrs -> shr_m (shr_1 mrs) = shr_m mrs / 2.
Proof.
  destruct mrs as [m r s]. cbn [shr_m shr_1]. intros Hm.
  rewrite <- Z.div2_div.
  destruct m as [|[p|p|]|p]; try reflexivity. lia.
Qed.

Lemma pow2_xO p : 2 ^ Zpos p~0 = 2 ^ Zpos p * 2 ^ Zpos p.
Proof.
  rewrite (Pos2Z.inj_xO p). replace (2 * Zpos p) with (Zpos p + Zpos p) by lia.
  now rewrite Z.pow_add_r by lia.
Qed.

Lemma pow2_xI p : 2 ^ Zpos p~1 = 2 * (2 ^ Zpos p * 2 ^ Zpos p).
Proof.
  rewrite (Pos2Z.inj_xI p).
  replace (2 * Zpos p + 1) with (Z.succ (Zpos p + Zpos p)) by lia.
  now rewrite Z.pow_succ_r, Z.pow_add_r by lia.
Qed.

Lemma iter_shr_1_m p : forall mrs,
  0 <= shr_m mrs ->
  shr_m (SpecFloat.iter_pos shr_1 p mrs) = shr_m mrs / 2 ^ Zpos p.
Proof.
  assert (Hdiv : forall a, 0 <= a -> 0 <= a / 2) by (intros; apply Z.div_pos; lia).
  assert (Hpow : forall q : positive, 0 < 2 ^ Zpos q)
    by (intros; apply Z.pow_pos_nonneg; lia).
  induction p as [p IH|p IH|]; intros mrs Hm; cbn [SpecFloat.iter_pos].
  - assert (H1 : shr_m (shr_1 mrs) = shr_m mrs / 2) by now apply shr_1_m.
    assert (H2 : shr_m (SpecFloat.iter_pos shr_1 p (shr_1 mrs))
                 = shr_m mrs / 2 / 2 ^ Zpos p)
      by (rewrite IH, H1; [reflexivity | rewrite H1; auto]).
    rewrite IH, H2 by (rewrite H2; apply Z.div_pos; auto).
    rewrite !Z.div_div by (try apply Hpow; lia).
    now rewrite pow2_xI.
  - assert (H2 : shr_m (SpecFloat.iter_pos shr_1 p mrs) = shr_m mrs / 2 ^ Zpos p)
      by now apply IH.
    rewrite IH, H2 by (rewrite H2; apply Z.div_pos; auto).
    rewrite !Z.div_div by (try apply Hpow; lia).
    now rewrite pow2_xO.
  - rewrite shr_1_m by exact Hm. reflexivity.
Qed.

Lemma shr_record_of_loc_m m l : shr_m (shr_record_of_loc m l) = m.
Proof. destruct l as [|[| |]]; reflexivity. Qed.

Lemma shr_fexp_spec m e l :
  0 <= m ->
  shr_m (fst (shr_fexp prec emax m e l))
  = (if 0 <? shift_of m e then m / 2 ^ shift_of m e else m)
  /\ snd (shr_fexp prec emax m e l)
     = (if 0 <? shift_of m e then e + shift_of m e else e).
Proof.
  intros Hm. unfold shr_fexp, shr. fold (shift_of m e).
  destruct (shift_of m e) as [|p|p]; cbn [fst snd Z.ltb Z.compare].
  - now rewrite shr_record_of_loc_m.
  - rewrite iter_shr_1_m by (rewrite shr_record_of_loc_m; exact Hm).
    now rewrite shr_record_of_loc_m.
  - now rewrite shr_record_of_loc_m.
Qed.

Lemma round_nearest_even_bounds m l :
  m <= round_nearest_even m l <= m + 1.
Proof.
  unfold round_nearest_even.
  destruct l as [|[| |]]; try lia. destruct (Z.even m); lia.
Qed.

(** *** What [binary_round_aux] returns *)

Lemma fin_le_weaken B B' x : B <= B' -> fin_le B x -> fin_le B' x.
Proof. destruct x; cbn; try tauto. lia. Qed.

Lemma fexp_eq g : fexp prec emax g = Z.max (g - 53) (-1074).
Proof. reflexivity. Qed.

(** The first shift: at most 53 bits are kept, and the magnitude with
    them unless everything is shifted out. *)
Lemma first_shift m e :
  0 <= m ->
  let n := shift_of m e in
  let m' := if 0 <? n then m / 2 ^ n else m in
  let e' := if 0 <? n then e + n else e in
  0 <= m' < 2 ^ 53
  /\ e' = Z.max e (fexp prec emax (Zdigits2 m + e))
  /\ (m' = 0 \/ Zdigits2 m' + e' = Zdigits2 m + e)
  /\ (0 < m -> -1021 <= Zdigits2 m + e -> 0 < m').
Proof.
  intros Hm. cbn zeta. unfold shift_of. rewrite fexp_eq.
  pose proof (Zdigits2_nonneg m) as Hd.
  destruct (Z.ltb_spec 0 (Z.max (Zdigits2 m + e - 53) (-1074) - e)) as [Hn|Hn].
  - set (n := Z.max (Zdigits2 m + e - 53) (-1074) - e) in *.
    destruct (Z_le_gt_dec (Zdigits2 m) n) as [Hsmall|Hbig].
    + rewrite (div_pow2_small m n Hm Hsmall).
      repeat split; lia.
    + assert (Hpos : 0 < m) by (destruct m; cbn in *; lia).
      destruct (Zdigits2_div_pow2 m n Hpos ltac:(lia) ltac:(lia)) as [Hq Hdq].
      pose proof (Zdigits2_bounds _ Hq) as [_ Hhi]. rewrite Hdq in Hhi.
      assert (2 ^ (Zdigits2 m - n) <= 2 ^ 53) by (apply Z.pow_le_mono_r; lia).
      repeat split; try lia.
  - assert (Hd53 : Zdigits2 m <= 53) by lia.
    assert (Hlt : m < 2 ^ 53).
    { destruct (Z.eq_dec m 0) as [->|Hne]; [reflexivity|].
      pose proof (Zdigits2_bounds m ltac:(lia)) as [_ Hhi].
      assert (2 ^ Zdigits2 m <= 2 ^ 53) by (apply Z.pow_le_mono_r; lia). lia. }
    repeat split; try lia.
Qed.

(** The second shift renormalises a mantissa that rounding carried to
    [2 ^ 53]. *)
Lemma second_shift m e :
  0 <= m <= 2 ^ 53 -> -1074 <= e ->
  let n := shift_of m e in
  let m' := if 0 <? n then m / 2 ^ n else m in
  let e' := if 0 <? n then e + n else e in
  (m < 2 ^ 53 /\ m' = m /\ e' = e)
  \/ (m = 2 ^ 53 /\ m' = 2 ^ 52 /\ e' = e + 1).
Proof.
  intros [Hm Hle] He. cbn zeta. unfold shift_of. rewrite fexp_eq.
  destruct (Z.eq_dec m (2 ^ 53)) as [->|Hne].
  - right. change (Zdigits2 (2 ^ 53)) with 54.
    replace (Z.max (54 + e - 53) (-1074) - e) with 1 by lia.
    repeat split; reflexivity.
  - left. assert (Hd : Zdigits2 m <= 53)
      by (apply Zdigits2_le; lia).
    assert (Hn : (0 <? Z.max (Zdigits2 m + e - 53) (-1074) - e) = false)
      by (apply Z.ltb_ge; lia).
    rewrite Hn. repeat split; lia.
Qed.

Lemma Zdigits2_succ m : 0 <= m -> Zdigits2 (m + 1) <= Zdigits2 m + 1.
Proof.
  intros Hm. destruct (Z.eq_dec m 0) as [->|Hne]; [now vm_compute|].
  rewrite <- (Zdigits2_mul_pow2 m 1) by lia.
  apply Zdigits2_mono. change (2 ^ 1) with 2. lia.
Qed.

(** Rounding to nearest even: for a mantissa [m >= 0] of magnitude at most
    [B], the result is zero or finite with the sign asked for, a mantissa
    below [2 ^ 53] and magnitude at most [B + 1]; in the normal range it is
    finite and no smaller in magnitude than the input. *)
Lemma binary_round_aux_spec s m e l B :
  0 <= m -> Zdigits2 m + e <= B -> -1074 <= B <= 970 ->
  fin_le (B + 1) (binary_round_aux prec emax s m e l)
  /\ sign_is s (binary_round_aux prec emax s m e l)
  /\ (0 < m -> -1021 <= Zdigits2 m + e ->
      mag_ge (Zdigits2 m + e) (binary_round_aux prec emax s m e l)).
Proof.
  intros Hm HB Hrange. unfold binary_round_aux.
  pose proof (Zdigits2_nonneg m) as Hd.
  pose proof (shr_fexp_spec m e l Hm) as [Hm1 He1].
  pose proof (first_shift m e Hm) as (Hb1 & Hmax & Hmag1 & Hpos1).
  cbn zeta in *. rewrite <- Hm1 in Hb1, Hmag1, Hpos1. rewrite <- He1 in Hmax, Hmag1.
  clear Hm1 He1.
  destruct (shr_fexp prec emax m e l) as [mrs1 e1]. cbn [fst snd] in *.
  pose proof (round_nearest_even_bounds (shr_m mrs1) (loc_of_shr_record mrs1))
    as Hr.
  set (m1 := round_nearest_even (shr_m mrs1) (loc_of_shr_record mrs1)) in *.
  rewrite fexp_eq in Hmax.
  assert (Hm1 : 0 <= m1 <= 2 ^ 53) by lia.
  assert (He1 : -1074 <= e1) by lia.
  pose proof (shr_fexp_spec m1 e1 loc_Exact (proj1 Hm1)) as [Hm2 He2].
  pose proof (second_shift m1 e1 Hm1 He1) as Hcase.
  cbn zeta in Hcase. rewrite <- Hm2, <- He2 in Hcase. clear Hm2 He2.
  destruct (shr_fexp prec emax m1 e1 loc_Exact) as [mrs2 e2]. cbn [fst snd] in *.
  assert (Hd1 : Zdigits2 m1 <= Zdigits2 (shr_m mrs1) + 1).
  { etransitivity; [apply Zdigits2_mono | apply Zdigits2_succ]; lia. }
  assert (Hd1' : Zdigits2 (shr_m mrs1) <= Zdigits2 m1)
    by (apply Zdigits2_mono; lia).
  assert (Hfacts : 0 <= shr_m mrs2 < 2 ^ 53
                   /\ e2 <= B + 1
                   /\ (shr_m mrs2 = 0 \/ Zdigits2 (shr_m mrs2) + e2 <= B + 1)
                   /\ (0 < m -> -1021 <= Zdigits2 m + e ->
                       0 < shr_m mrs2
                       /\ Zdigits2 m + e <= Zdigits2 (shr_m mrs2) + e2)).
  { destruct Hcase as [(Hlt & -> & ->) | (Heq & -> & ->)].
    - split; [lia|]. split; [lia|]. split.
      + destruct Hmag1 as [H0 | Hsame].
        * rewrite H0 in Hd1. cbn in Hd1. lia.
        * lia.
      + intros Hp Hn. specialize (Hpos1 Hp Hn).
        destruct Hmag1 as [H0 | Hsame]; lia.
    - assert (Hfull : shr_m mrs1 = 2 ^ 53 - 1) by lia.
      change (Zdigits2 (2 ^ 52)) with 53.
      rewrite Hfull in Hmag1. change (Zdigits2 (2 ^ 53 - 1)) with 53 in Hmag1.
      destruct Hmag1 as [H0 | Hsame]; [discriminate|].
      split; [lia|]. split; [lia|]. split; [right; lia|].
      intros _ _. lia. }
  destruct Hfacts as (Hb2 & He2 & Hmag2 & Hlow).
  destruct (shr_m mrs2) as [|p|p] eqn:Hp; [| |lia].
  - cbn. repeat split. intros H1 H2. destruct (Hlow H1 H2). lia.
  - rewrite (proj2 (Z.leb_le e2 (emax - prec))) by (unfold emax, prec; lia).
    cbn [fin_le sign_is mag_ge].
    repeat split; lia.
Qed.

(** *** Conversions, products and quotients *)

Lemma fin_le_mag_le B x : fin_le B x -> mag_le B x.
Proof. destruct x; cbn; tauto. Qed.

Lemma iter_xO_pow2 mx d : Zpos (Pos.iter xO mx d) = Zpos mx * 2 ^ Zpos d.
Proof.
  induction d as [|d IH] using Pos.peano_ind.
  - cbn. lia.
  - rewrite Pos.iter_succ, Pos2Z.inj_succ, Z.pow_succ_r by lia.
    rewrite (Pos2Z.inj_xO (Pos.iter xO mx d)), IH. lia.
Qed.

(** [shl_align] lowers the exponent to the target and keeps the value. *)
Lemma shl_align_spec mx ex ex' :
  Zpos (fst (shl_align mx ex ex')) = Zpos mx * 2 ^ (ex - Z.min ex ex')
  /\ snd (shl_align mx ex ex') = Z.min ex ex'.
Proof.
  unfold shl_align. destruct (ex' - ex) as [|d|d] eqn:Hd; cbn [fst snd].
  - replace (Z.min ex ex') with ex by lia. rewrite Z.sub_diag. cbn. lia.
  - replace (Z.min ex ex') with ex by lia. rewrite Z.sub_diag. cbn. lia.
  - replace (Z.min ex ex') with ex' by lia.
    replace (ex - ex') with (Zpos d) by lia.
    split; [apply iter_xO_pow2 | reflexivity].
Qed.

Lemma shl_align_mag mx ex ex' :
  Zdigits2 (Zpos (fst (shl_align mx ex ex'))) + snd (shl_align mx ex ex')
  = Zdigits2 (Zpos mx) + ex.
Proof.
  destruct (shl_align_spec mx ex ex') as [-> ->].
  rewrite Zdigits2_mul_pow2 by lia. lia.
Qed.

Lemma binary_round_spec s mx ex B :
  Zdigits2 (Zpos mx) + ex <= B -> -1074 <= B <= 970 ->
  fin_le (B + 1) (binary_round prec emax s mx ex)
  /\ sign_is s (binary_round prec emax s mx ex)
  /\ (-1021 <= Zdigits2 (Zpos mx) + ex ->
      mag_ge (Zdigits2 (Zpos mx) + ex) (binary_round prec emax s mx ex)).
Proof.
  intros HB Hrange. unfold binary_round.
  pose proof (shl_align_mag mx ex
                (fexp prec emax (Zpos (digits2_pos mx) + ex))) as Hmag.
  destruct (shl_align mx ex _) as [mz ez]. cbn [fst snd] in Hmag.
  destruct (binary_round_aux_spec s (Zpos mz) ez loc_Exact B)
    as (Hfin & Hsign & Hlow); [lia | lia | lia |].
  rewrite Hmag in Hlow. repeat split; auto; intros H; apply Hlow; lia.
Qed.

(** [int -> float] on a positive integer. *)
Lemma Z2SF_spec n B :
  0 < n -> Zdigits2 n <= B -> B <= 970 ->
  fin_le (B + 1) (Z2SF n) /\ sign_is false (Z2SF n)
  /\ mag_ge (Zdigits2 n) (Z2SF n).
Proof.
  intros Hn HB Hrange. destruct n as [|p|p]; try lia.
  unfold Z2SF, binary_normalize.
  pose proof (Zdigits2_nonneg (Zpos p)).
  destruct (binary_round_spec false p 0 B) as (Hfin & Hsign & Hlow);
    [lia | lia |].
  rewrite Z.add_0_r in Hlow. repeat split; auto; apply Hlow; lia.
Qed.

Lemma float_of_int_ok n B :
  0 < n -> Zdigits2 n <= B -> B <= 970 ->
  float_of_int n = Ok (Z2SF n).
Proof.
  intros Hn HB Hrange. unfold float_of_int.
  destruct (Z2SF_spec n B Hn HB Hrange) as (Hfin & _).
  destruct (Z2SF n); cbn in Hfin; tauto.
Qed.

Lemma Zdigits2_mul_lower a b :
  0 < a -> 0 < b -> Zdigits2 a + Zdigits2 b - 1 <= Zdigits2 (a * b).
Proof.
  intros Ha Hb.
  pose proof (Zdigits2_bounds a Ha) as [Hla _].
  pose proof (Zdigits2_bounds b Hb) as [Hlb _].
  pose proof (Zdigits2_pos a Ha). pose proof (Zdigits2_pos b Hb).
  enough (Zdigits2 a - 1 + (Zdigits2 b - 1) < Zdigits2 (a * b)) by lia.
  apply Zdigits2_gt; [lia|].
  rewrite Z.pow_add_r by lia.
  assert (0 < 2 ^ (Zdigits2 a - 1)) by (apply Z.pow_pos_nonneg; lia).
  assert (0 < 2 ^ (Zdigits2 b - 1)) by (apply Z.pow_pos_nonneg; lia).
  nia.
Qed.

(** A product: magnitudes add, up to one either way. *)
Lemma fmul_spec x y sx sy Bx By Lx Ly :
  mag_le Bx x -> mag_le By y -> sign_is sx x -> sign_is sy y ->
  -1074 <= Bx + By <= 970 ->
  fin_le (Bx + By + 1) (fmul x y)
  /\ sign_is (xorb sx sy) (fmul x y)
  /\ (mag_ge Lx x -> mag_ge Ly y -> -1021 <= Lx + Ly - 1 ->
      mag_ge (Lx + Ly - 1) (fmul x y)).
Proof.
  intros Hx Hy Hsx Hsy Hrange. unfold fmul.
  destruct x as [s1|s1| |s1 m1 e1], y as [s2|s2| |s2 m2 e2];
    cbn [mag_le sign_is] in Hx, Hy, Hsx, Hsy; try tauto; subst sx sy;
    cbn [SFmul fin_le sign_is mag_ge]; try tauto.
  pose proof (Zdigits2_mul (Zpos m1) (Zpos m2) ltac:(lia) ltac:(lia)) as Hup.
  pose proof (Zdigits2_mul_lower (Zpos m1) (Zpos m2) ltac:(lia) ltac:(lia))
    as Hlo.
  change (Zpos (m1 * m2)) with (Zpos m1 * Zpos m2).
  destruct (binary_round_aux_spec (xorb s1 s2) (Zpos m1 * Zpos m2) (e1 + e2)
              loc_Exact (Bx + By)) as (Hfin & Hsign & Hlow);
    [apply Z.mul_nonneg_nonneg; lia | lia | lia |].
  repeat split; auto.
  intros H1 H2 Hn.
  specialize (Hlow ltac:(apply Z.mul_pos_pos; lia) ltac:(lia)).
  destruct (binary_round_aux prec emax _ _ _ _); cbn [mag_ge] in *;
    try tauto. lia.
Qed.

(** Digits of a quotient. *)
Lemma div_digits_upper a b A M :
  0 <= A < 2 ^ a -> 0 <= a -> 0 <= b -> 2 ^ b <= M ->
  0 <= A / M /\ Zdigits2 (A / M) <= Z.max (a - b) 0.
Proof.
  intros [HA Ha] Ha0 Hb0 HM.
  assert (0 < 2 ^ b) by (apply Z.pow_pos_nonneg; lia).
  assert (Hq : 0 <= A / M) by (apply Z.div_pos; lia).
  split; [exact Hq|].
  apply Zdigits2_le; [exact Hq | lia |].
  apply Z.div_lt_upper_bound; [lia|].
  destruct (Z_le_gt_dec b a) as [Hle|Hgt].
  - replace (Z.max (a - b) 0) with (a - b) by lia.
    assert (2 ^ a = 2 ^ b * 2 ^ (a - b)).
    { rewrite <- Z.pow_add_r by lia. f_equal. lia. }
    assert (0 < 2 ^ (a - b)) by (apply Z.pow_pos_nonneg; lia). nia.
  - replace (Z.max (a - b) 0) with 0 by lia.
    assert (2 ^ a <= 2 ^ b) by (apply Z.pow_le_mono_r; lia).
    change (2 ^ 0) with 1. lia.
Qed.

(** The quotient mantissa and exponent handed to the rounding. *)
Lemma SFdiv_core_binary_spec m1 e1 m2 e2 :
  let g := Zdigits2 (Zpos m1) + e1 - (Zdigits2 (Zpos m2) + e2) in
  let e' := Z.min (fexp prec emax g) (e1 - e2) in
  exists l,
    SFdiv_core_binary prec emax (Zpos m1) e1 (Zpos m2) e2
    = (Zpos m1 * 2 ^ (e1 - e2 - e') / Zpos m2, e', l).
Proof.
  cbn zeta. unfold SFdiv_core_binary.
  set (e' := Z.min _ (e1 - e2)).
  assert (Hs : 0 <= e1 - e2 - e') by lia.
  assert (Hm' : match e1 - e2 - e' with
                | 0 => Zpos m1
                | Zpos _ => Z.shiftl (Zpos m1) (e1 - e2 - e')
                | Zneg _ => 0
                end = Zpos m1 * 2 ^ (e1 - e2 - e')).
  { destruct (e1 - e2 - e') as [|p|p] eqn:Hp; [cbn; lia | | lia].
    apply Z.shiftl_mul_pow2. lia. }
  rewrite Hm'. unfold Z.div.
  destruct (Z.div_eucl _ (Zpos m2)) as [q r]. eexists. reflexivity.
Qed.

(** A quotient by a finite non-zero float of magnitude at least [Ly]. *)
Lemma fdiv_spec x y sx sy Bx Ly :
  mag_le Bx x -> mag_ge Ly y -> sign_is sx x -> sign_is sy y ->
  -1074 <= Bx - Ly + 1 <= 970 ->
  fin_le (Bx - Ly + 2) (fdiv x y) /\ sign_is (xorb sx sy) (fdiv x y).
Proof.
  intros Hx Hy Hsx Hsy Hrange. unfold fdiv.
  destruct y as [s2|s2| |s2 m2 e2]; cbn [mag_ge sign_is] in Hy, Hsy; try tauto.
  destruct x as [s1|s1| |s1 m1 e1]; cbn [mag_le sign_is] in Hx, Hsx;
    try tauto; subst sx sy;
    cbn [SFdiv fin_le sign_is]; try tauto.
  destruct (SFdiv_core_binary_spec m1 e1 m2 e2) as [l Hcore].
  cbn zeta in Hcore. rewrite Hcore. clear Hcore.
  set (g := Zdigits2 (Zpos m1) + e1 - (Zdigits2 (Zpos m2) + e2)) in *.
  set (e' := Z.min (fexp prec emax g) (e1 - e2)) in *.
  assert (He' : e' <= Z.max (g - 53) (-1074) /\ e' <= e1 - e2)
    by (unfold e'; rewrite fexp_eq; lia).
  pose proof (Zdigits2_bounds (Zpos m1) ltac:(lia)) as [_ Hm1].
  pose proof (Zdigits2_bounds (Zpos m2) ltac:(lia)) as [Hm2 _].
  pose proof (Zdigits2_pos (Zpos m1) ltac:(lia)).
  pose proof (Zdigits2_pos (Zpos m2) ltac:(lia)).
  assert (Hp : 0 < 2 ^ (e1 - e2 - e')) by (apply Z.pow_pos_nonneg; lia).
  destruct (div_digits_upper (Zdigits2 (Zpos m1) + (e1 - e2 - e'))
              (Zdigits2 (Zpos m2) - 1)
              (Zpos m1 * 2 ^ (e1 - e2 - e')) (Zpos m2)) as [Hq Hdq];
    [ rewrite Z.pow_add_r by lia; nia | lia | lia | lia | ].
  destruct (binary_round_aux_spec (xorb s1 s2)
              (Zpos m1 * 2 ^ (e1 - e2 - e') / Zpos m2) e' l (Bx - Ly + 1))
    as (Hfin & Hsign & _); [exact Hq | lia | lia |].
  replace (Bx - Ly + 2) with (Bx - Ly + 1 + 1) by lia. auto.
Qed.

(** *** Lower bounds on quotients *)

Lemma mag_ge_weaken L L' x : L' <= L -> mag_ge L x -> mag_ge L' x.
Proof. destruct x; cbn [mag_ge]; try tauto. lia. Qed.






(** *** Values kept by the rounding *)




(** *** Sums, integer quotients and truncation *)

Lemma Zdigits2_add a b :
  0 <= a -> 0 <= b -> Zdigits2 (a + b) <= Z.max (Zdigits2 a) (Zdigits2 b) + 1.
Proof.
  intros Ha Hb.
  pose proof (Zdigits2_nonneg a). pose proof (Zdigits2_nonneg b).
  assert (Hlt : forall c, 0 <= c -> c < 2 ^ Z.max (Zdigits2 a) (Zdigits2 b)
                          \/ Zdigits2 c > Z.max (Zdigits2 a) (Zdigits2 b)).
  { intros c Hc. destruct (Z.eq_dec c 0) as [->|Hne].
    - left. apply Z.pow_pos_nonneg; lia.
    - destruct (Z_le_gt_dec (Zdigits2 c) (Z.max (Zdigits2 a) (Zdigits2 b)));
        [left | right; lia].
      pose proof (Zdigits2_bounds c ltac:(lia)) as [_ Hhi].
      assert (2 ^ Zdigits2 c <= 2 ^ Z.max (Zdigits2 a) (Zdigits2 b))
        by (apply Z.pow_le_mono_r; lia).
      lia. }
  apply Zdigits2_le; [lia | lia |].
  rewrite Z.pow_add_r by lia. change (2 ^ 1) with 2.
  destruct (Hlt a Ha), (Hlt b Hb); lia.
Qed.

(** A sum of two finite floats is finite while the magnitudes are small. *)
Lemma SFadd_spec x y Bx By :
  mag_le Bx x -> mag_le By y -> fin_le Bx x -> fin_le By y ->
  -1074 <= Z.max Bx By + 1 <= 970 ->
  fin_le (Z.max Bx By + 2) (SFadd prec emax x y).
Proof.
  intros Hx Hy Hfx Hfy Hrange.
  destruct x as [s1|s1| |s1 m1 e1], y as [s2|s2| |s2 m2 e2];
    cbn [mag_le] in Hx, Hy; try tauto; cbn [SFadd].
  - destruct s1, s2; exact I.
  - eapply fin_le_weaken; [|exact Hfy]. lia.
  - eapply fin_le_weaken; [|exact Hfx]. lia.
  - pose proof (shl_align_spec m1 e1 (Z.min e1 e2)) as [Ha _].
    pose proof (shl_align_spec m2 e2 (Z.min e1 e2)) as [Hb _].
    pose proof (shl_align_mag m1 e1 (Z.min e1 e2)) as Hma.
    pose proof (shl_align_mag m2 e2 (Z.min e1 e2)) as Hmb.
    rewrite (proj2 (shl_align_spec m1 e1 (Z.min e1 e2))) in Hma.
    rewrite (proj2 (shl_align_spec m2 e2 (Z.min e1 e2))) in Hmb.
    replace (Z.min e1 (Z.min e1 e2)) with (Z.min e1 e2) in Hma by lia.
    replace (Z.min e2 (Z.min e1 e2)) with (Z.min e1 e2) in Hmb by lia.
    set (a := Zpos (fst (shl_align m1 e1 (Z.min e1 e2)))) in *.
    set (b := Zpos (fst (shl_align m2 e2 (Z.min e1 e2)))) in *.
    assert (Hapos : 0 < a) by (unfold a; lia).
    assert (Hbpos : 0 < b) by (unfold b; lia).
    pose proof (Zdigits2_add a b ltac:(lia) ltac:(lia)) as Hsum.
    set (sum := cond_Zopp s1 a + cond_Zopp s2 b).
    assert (Habs : Z.abs sum <= a + b)
      by (unfold sum, cond_Zopp; destruct s1, s2; lia).
    assert (Hdig : Zdigits2 (Z.abs sum) + Z.min e1 e2 <= Z.max Bx By + 1).
    { pose proof (Zdigits2_mono (Z.abs sum) (a + b) ltac:(lia)). lia. }
    unfold binary_normalize.
    destruct sum as [|q|q] eqn:Hq; [exact I | |];
      cbn [Z.abs] in Hdig;
      (destruct (binary_round_spec (match sum with Zneg _ => true | _ => false end)
                   q (Z.min e1 e2) (Z.max Bx By + 1)) as (Hfin & _);
       [exact Hdig | lia |]);
      rewrite Hq in Hfin;
      (replace (Z.max Bx By + 2) with (Z.max Bx By + 1 + 1) by lia); exact Hfin.
Qed.

Lemma int_of_float_finite B x : fin_le B x -> exists v, int_of_float x = Ok v.
Proof. destruct x; cbn; try tauto; eauto. Qed.

Lemma raw_int_mag a :
  a <> 0 -> mag_le (Zdigits2 (Z.abs a)) (GridLayout.raw_int a)
            /\ mag_ge (Zdigits2 (Z.abs a)) (GridLayout.raw_int a)
            /\ sign_is (a <? 0) (GridLayout.raw_int a).
Proof.
  destruct a; cbn; try tauto; intros _; repeat split; (reflexivity || lia).
Qed.

(** [a / 2] on integers of moderate size, then [int(...)]. *)
Lemma int_truediv_2 a :
  Zdigits2 (Z.abs a) <= 960 ->
  exists q, GridLayout.int_truediv a 2 = Ok q /\ fin_le (Zdigits2 (Z.abs a)) q.
Proof.
  intros Ha. unfold GridLayout.int_truediv.
  pose proof (Zdigits2_nonneg (Z.abs a)).
  destruct (Z.eq_dec a 0) as [->|Hne]; [eexists; split; [reflexivity|exact I]|].
  destruct (raw_int_mag a Hne) as (Hmag & _ & Hs).
  destruct (fdiv_spec (GridLayout.raw_int a) (GridLayout.raw_int 2)
              (a <? 0) false (Zdigits2 (Z.abs a)) 2)
    as [Hfin _]; [exact Hmag | cbn; lia | exact Hs | reflexivity | lia |].
  replace (Zdigits2 (Z.abs a) - 2 + 2) with (Zdigits2 (Z.abs a)) in Hfin by lia.
  destruct (fdiv _ _); cbn [fin_le] in Hfin; try tauto; eauto.
Qed.

(** *** Comparison with the cap *)

Example twenty : Z2SF 20 = S754_finite false 5629499534213120 (-48).
Proof. reflexivity. Qed.

Lemma trunc_ge_one m p :
  1 <= Zdigits2 (Zpos m) - Zpos p -> 1 <= Zpos m / 2 ^ Zpos p.
Proof.
  intros Hd.
  pose proof (Zdigits2_bounds (Zpos m) ltac:(lia)) as [Hlo _].
  apply Z.div_le_lower_bound; [apply Z.pow_pos_nonneg; lia|].
  assert (2 ^ Zpos p <= 2 ^ (Zdigits2 (Zpos m) - 1))
    by (apply Z.pow_le_mono_r; lia).
  lia.
Qed.

(** [int(r)] for a non-negative [r] that is not above 20.0; it is at least
    1 when [r] is. *)
Lemma capped_at_20 B r :
  fin_le B r -> sign_is false r ->
  exists c,
    GridLayout.int_of_num
      (if GridLayout.int_lt_float 20 r then GridLayout.NInt 20
       else GridLayout.NFloat r) = Ok c
    /\ 0 <= c <= 20
    /\ (mag_ge 1 r -> 1 <= c).
Proof.
  intros Hfin Hs. unfold GridLayout.int_lt_float, flt. rewrite twenty.
  destruct r as [s|s| |s m e]; cbn [fin_le sign_is] in Hfin, Hs; try tauto.
  - destruct s; cbn; exists 0; repeat split; (reflexivity || lia || tauto).
  - subst s. destruct Hfin as [Hm _].
    unfold SFltb, SFcompare. cbn [mag_ge].
    destruct (Z.compare_spec (-48) e) as [He|He|He].
    + subst e.
      change (Pos.compare_cont Eq 5629499534213120 m)
        with (5629499534213120 ?= Zpos m).
      destruct (Z.compare_spec 5629499534213120 (Zpos m)) as [Hc|Hc|Hc];
        [ | exists 20; split; [reflexivity | lia] | ];
        (cbn [GridLayout.int_of_num int_of_float];
         eexists; split; [reflexivity|];
         rewrite Z.shiftr_div_pow2 by lia;
         split; [|intros Hge; apply trunc_ge_one; lia];
         split; [apply Z.div_pos; lia|];
         apply Z.div_le_upper_bound; [lia|];
         change (2 ^ 48 * 20) with 5629499534213120; lia).
    + exists 20. split; [reflexivity | lia].
    + destruct e as [|p|p]; try lia.
      cbn [GridLayout.int_of_num int_of_float].
      eexists. split; [reflexivity|].
      rewrite Z.shiftr_div_pow2 by lia.
      split; [|intros Hge; apply trunc_ge_one; lia].
      split; [apply Z.div_pos; [lia | apply Z.pow_pos_nonneg; lia]|].
      enough (Zpos m / 2 ^ Zpos p < 16) by lia.
      apply Z.div_lt_upper_bound; [apply Z.pow_pos_nonneg; lia|].
      assert (2 ^ 49 <= 2 ^ Zpos p) by (apply Z.pow_le_mono_r; lia).
      change (2 ^ 53) with (2 ^ 49 * 16) in Hm. lia.
Qed.

End FloatFacts.

(** ** Grid layout *)

Module LayoutFacts.

Import PyFloat FloatFacts GridLayout.

(** The literals are the doubles nearest to the decimals: the distance is
    at most half a unit in the last place. *)
Example days_per_year_nearest :
  LifeCalendarData.days_per_year = S754_finite false 6425414011327611 (-44)
  /\ 2 * Z.abs (6425414011327611 * 10000 - 3652425 * 2 ^ 44) <= 10000.
Proof. split; [reflexivity | vm_compute; discriminate]. Qed.

Example nine_tenths_nearest :
  2 * Z.abs (8106479329266893 * 10 - 9 * 2 ^ 53) <= 10.
Proof. vm_compute; discriminate. Qed.

Example fifteen_hundredths_nearest :
  2 * Z.abs (5404319552844595 * 100 - 15 * 2 ^ 55) <= 100.
Proof. vm_compute; discriminate. Qed.

Example nine_tenths : literal_0_9 = S754_finite false 8106479329266893 (-53).
Proof. reflexivity. Qed.


Example fifteen_hundredths :
  literal_0_15 = S754_finite false 5404319552844595 (-55).
Proof. reflexivity. Qed.

(** [n * literal] for a positive [n] and a literal in (0, 1). *)
Lemma scaled_by_literal n lit B :
  0 < n -> Zdigits2 n <= B -> 0 <= B <= 900 ->
  mag_le 0 lit -> sign_is false lit ->
  int_mul_float n lit = Ok (fmul (Z2SF n) lit)
  /\ fin_le (B + 2) (fmul (Z2SF n) lit)
  /\ sign_is false (fmul (Z2SF n) lit).
Proof.
  intros Hn HB Hrange Hlit Hs. unfold int_mul_float.
  rewrite (float_of_int_ok n B) by lia. cbn [rbind].
  destruct (Z2SF_spec n B) as (Hfin & Hsign & _); [lia | lia | lia |].
  destruct (fmul_spec (Z2SF n) lit false false (B + 1) 0 0 0)
    as (Hf & Hsg & _);
    [apply fin_le_mag_le; exact Hfin | exact Hlit | exact Hsign | exact Hs
    | lia |].
  split; [reflexivity|].
  replace (B + 2) with (B + 1 + 0 + 1) by lia. auto.
Qed.

(** [x / n] for a non-negative float and a positive integer. *)
Lemma divided_by_int x n Bx Bn :
  fin_le Bx x -> sign_is false x ->
  0 < n -> Zdigits2 n <= Bn -> Bn <= 900 -> -1074 <= Bx <= 900 ->
  float_div_int x n = Ok (fdiv x (Z2SF n))
  /\ fin_le (Bx + 1) (fdiv x (Z2SF n))
  /\ sign_is false (fdiv x (Z2SF n)).
Proof.
  intros Hx Hs Hn HBn Hr1 Hr2. unfold float_div_int.
  pose proof (Zdigits2_nonneg n).
  rewrite (float_of_int_ok n Bn) by lia. cbn [rbind].
  destruct (Z2SF_spec n Bn) as (_ & Hsign & Hge); [lia | lia | lia |].
  apply (mag_ge_weaken _ 1) in Hge; [|pose proof (Zdigits2_pos n Hn); lia].
  destruct (fdiv_spec x (Z2SF n) false false Bx 1) as (Hf & Hsg);
    [apply fin_le_mag_le; exact Hx | exact Hge | exact Hs | exact Hsign
    | lia |].
  split; [reflexivity|].
  replace (Bx + 1) with (Bx - 1 + 2) by lia. auto.
Qed.

(** [int(min(a, b, 20))] lies between 0 and 20, and is at least 1 when
    both quotients are. *)
Lemma cell_size_range a b Ba Bb :
  fin_le Ba a -> sign_is false a -> fin_le Bb b -> sign_is false b ->
  exists c, int_of_num (min_capped a b 20) = Ok c /\ 0 <= c <= 20
            /\ (mag_ge 1 a -> mag_ge 1 b -> 1 <= c).
Proof.
  intros Ha Hsa Hb Hsb. unfold min_capped. cbn zeta.
  destruct (flt b a).
  - destruct (capped_at_20 Bb b Hb Hsb) as (c & Hc & Hr & Hone). eauto 6.
  - destruct (capped_at_20 Ba a Ha Hsa) as (c & Hc & Hr & Hone). eauto 6.
Qed.

Lemma digits_below m k : 0 <= m < 2 ^ k -> 0 <= k -> Zdigits2 m <= k.
Proof. intros [H0 H1] Hk. now apply Zdigits2_le. Qed.



Lemma gap_range c :
  0 <= c <= 20 -> exists g, gap_of c = Ok g /\ 2 <= g <= 3.
Proof.
  intros Hc.
  assert (Hb : gap_in_range c = true)
    by (apply (Zrange_forallb gap_in_range 0 21);
        [vm_compute; reflexivity | lia]).
  unfold gap_in_range in Hb.
  destruct (gap_of c) as [g|]; [|discriminate].
  exists g. split; [reflexivity | lia].
Qed.

Lemma columns_range mode total :
  1 <= total -> 1 <= _get_columns mode total <= 60.
Proof.
  intros Ht. unfold _get_columns.
  destruct (String.eqb mode "life"); [lia|].
  destruct (String.eqb mode "year"); [lia|].
  destruct (String.eqb mode "goal"); [|lia].
  destruct (total <=? 365); lia.
Qed.

Lemma rows_range total columns :
  1 <= total -> 1 <= columns ->
  1 <= (total + columns - 1) / columns <= total.
Proof.
  intros Ht Hc. split.
  - apply Z.div_le_lower_bound; lia.
  - enough ((total + columns - 1) / columns < total + 1) by lia.
    apply Z.div_lt_upper_bound; nia.
Qed.

(** [int((n - g) / 2)] succeeds. *)
Lemma start_x_ok a :
  Z.abs a < 2 ^ 60 ->
  exists half v, int_truediv a 2 = Ok half /\ int_of_float half = Ok v.
Proof.
  intros Ha.
  destruct (int_truediv_2 a) as (half & Hq & Hfin).
  { pose proof (digits_below (Z.abs a) 60 ltac:(lia) ltac:(lia)). lia. }
  destruct (int_of_float_finite _ _ Hfin) as [v Hv]. eauto.
Qed.

(** [int((n - g) / 2 + 60)] succeeds. *)
Lemma start_y_ok a :
  Z.abs a < 2 ^ 60 ->
  exists half shifted v,
    int_truediv a 2 = Ok half
    /\ float_add_int half 60 = Ok shifted
    /\ int_of_float shifted = Ok v.
Proof.
  intros Ha.
  pose proof (digits_below (Z.abs a) 60 ltac:(lia) ltac:(lia)) as Hd.
  pose proof (Zdigits2_nonneg (Z.abs a)).
  destruct (int_truediv_2 a) as (half & Hq & Hfin); [lia|].
  unfold float_add_int.
  change (float_of_int 60)
    with (Ok (S754_finite false 8444249301319680 (-47))).
  cbn [rbind].
  destruct (int_of_float_finite _ _
              (SFadd_spec half (S754_finite false 8444249301319680 (-47))
                 60 6
                 (fin_le_mag_le _ _ (fin_le_weaken _ 60 _ Hd Hfin))
                 ltac:(now vm_compute)
                 (fin_le_weaken _ 60 _ Hd Hfin)
                 ltac:(now vm_compute)
                 ltac:(lia))) as [v Hv].
  eauto 6.
Qed.


(** The default configuration (life mode, lifespan 90, 1920 x 1080): the
    cells alone fit, the grid with its gaps is 908 pixels high. *)
Example default_layout :
  exists L,
    init "life" 4695 1920 1080 = Ok L
    /\ rows L = 91 /\ cell_size L = 8 /\ gap L = 2
    /\ grid_width L = 518 /\ grid_height L = 908.
Proof. eexists. split; [vm_compute; reflexivity|]. repeat split. Qed.



End LayoutFacts.

(** ** Binary64 arithmetic: results that are exact *)

Module ExactFacts.

Import PyFloat FloatFacts Halves.

Lemma shr_1_even n :
  0 <= n ->
  shr_1 (Build_shr_record (2 * n) false false) = Build_shr_record n false false.
Proof. intros Hn. destruct n as [|p|p]; [reflexivity | reflexivity | lia]. Qed.

(** Shifting out bits that are zero leaves no rounding information. *)
Lemma iter_shr_1_exact p : forall k,
  0 <= k ->
  SpecFloat.iter_pos shr_1 p (Build_shr_record (k * 2 ^ Zpos p) false false)
  = Build_shr_record k false false.
Proof.
  assert (Hpow : forall q : positive, 0 < 2 ^ Zpos q)
    by (intros; apply Z.pow_pos_nonneg; lia).
  induction p as [p IH|p IH|]; intros k Hk; cbn [SpecFloat.iter_pos].
  - rewrite pow2_xI.
    replace (k * (2 * (2 ^ Zpos p * 2 ^ Zpos p)))
      with (2 * (k * 2 ^ Zpos p * 2 ^ Zpos p)) by ring.
    pose proof (Hpow p).
    rewrite shr_1_even by nia.
    rewrite IH by nia. apply IH. exact Hk.
  - rewrite pow2_xO.
    replace (k * (2 ^ Zpos p * 2 ^ Zpos p))
      with (k * 2 ^ Zpos p * 2 ^ Zpos p) by ring.
    pose proof (Hpow p).
    rewrite IH by nia. apply IH. exact Hk.
  - change (2 ^ 1) with 2. rewrite Z.mul_comm. apply shr_1_even. exact Hk.
Qed.

Lemma shr_fexp_exact k N e :
  0 < k -> 0 <= N -> Z.max 0 (shift_of (k * 2 ^ N) e) = N ->
  shr_fexp prec emax (k * 2 ^ N) e loc_Exact
  = (Build_shr_record k false false, e + N).
Proof.
  intros Hk HN Hshift. unfold shr_fexp, shr. fold (shift_of (k * 2 ^ N) e).
  destruct (shift_of (k * 2 ^ N) e) as [|p|p] eqn:Hs.
  - assert (N = 0) by lia. subst N.
    cbn [shr_record_of_loc]. rewrite Z.mul_1_r, Z.add_0_r. reflexivity.
  - assert (N = Zpos p) by lia. subst N.
    cbn [shr_record_of_loc]. rewrite iter_shr_1_exact by lia. reflexivity.
  - assert (N = 0) by lia. subst N.
    cbn [shr_record_of_loc]. rewrite Z.mul_1_r, Z.add_0_r. reflexivity.
Qed.

(** A mantissa that ends in the zeros the rounding drops is rounded to
    itself. *)
Lemma binary_round_aux_exact_shift s k N e :
  0 < k -> 0 <= N -> Z.max 0 (shift_of (k * 2 ^ N) e) = N ->
  shift_of k (e + N) <= 0 -> e + N <= 971 ->
  binary_round_aux prec emax s (k * 2 ^ N) e loc_Exact
  = S754_finite s (Z.to_pos k) (e + N).
Proof.
  intros Hk HN Hshift Hsecond Hmax. unfold binary_round_aux.
  rewrite (shr_fexp_exact k N e Hk HN Hshift).
  cbn [shr_m loc_of_shr_record round_nearest_even].
  replace k with (k * 2 ^ 0) at 1 by (rewrite Z.mul_1_r; reflexivity).
  rewrite (shr_fexp_exact k 0 (e + N) Hk ltac:(lia))
    by (rewrite Z.mul_1_r; lia).
  cbn [shr_m]. rewrite Z.add_0_r.
  destruct k as [|p|p]; [lia | | lia].
  rewrite (proj2 (Z.leb_le (e + N) (emax - prec))) by (unfold emax, prec; lia).
  reflexivity.
Qed.

(** The value [B / 2], held as a mantissa at any exponent that is low
    enough, is rounded to the double of that value. *)
Lemma round_half s B E :
  0 < B < 2 ^ 53 -> -1000 <= E <= Zdigits2 B - 54 ->
  binary_round_aux prec emax s (B * 2 ^ (-1 - E)) E loc_Exact
  = S754_finite s (Z.to_pos (B * 2 ^ (53 - Zdigits2 B))) (Zdigits2 B - 54).
Proof.
  intros HB HE.
  pose proof (Zdigits2_pos B ltac:(lia)) as Hd0.
  pose proof (Zdigits2_le B 53 ltac:(lia) ltac:(lia) ltac:(lia)) as Hd53.
  set (D := Zdigits2 B) in *.
  set (k := B * 2 ^ (53 - D)).
  set (N := D - 54 - E).
  assert (Hpos : 0 < 2 ^ (53 - D)) by (apply Z.pow_pos_nonneg; lia).
  assert (Hk : 0 < k) by (unfold k; nia).
  assert (Hdk : Zdigits2 k = 53)
    by (unfold k; rewrite Zdigits2_mul_pow2 by lia; fold D; lia).
  assert (Hm : B * 2 ^ (-1 - E) = k * 2 ^ N).
  { unfold k, N. rewrite <- Z.mul_assoc, <- Z.pow_add_r by lia.
    do 2 f_equal. lia. }
  assert (HdkN : Zdigits2 (k * 2 ^ N) = 53 + N)
    by (rewrite Zdigits2_mul_pow2 by (unfold N; lia); lia).
  rewrite Hm.
  replace (D - 54) with (E + N) by (unfold N; lia).
  apply binary_round_aux_exact_shift.
  - exact Hk.
  - unfold N. lia.
  - unfold shift_of. rewrite HdkN, fexp_eq. unfold N. lia.
  - unfold shift_of. rewrite Hdk, fexp_eq. unfold N. lia.
  - unfold N. lia.
Qed.

(** [a / 2] on integers is exact. *)
Lemma int_truediv_half a :
  Z.abs a < 2 ^ 53 -> GridLayout.int_truediv a 2 = Ok (half_float a).
Proof.
  intros Ha. unfold GridLayout.int_truediv, fdiv.
  destruct a as [|p|p]; [reflexivity | |].
  all: cbn [GridLayout.raw_int SFdiv half_float Z.abs].
  all: change (Zpos p < 2 ^ 53) in Ha.
  all: pose proof (Zdigits2_pos (Zpos p) ltac:(lia)) as Hd0.
  all: pose proof (Zdigits2_le (Zpos p) 53 ltac:(lia) ltac:(lia) Ha) as Hd53.
  all: destruct (SFdiv_core_binary prec emax (Zpos p) 0 2 0)
         as [[mz ez] lz] eqn:Hcore.
  all: assert (Hc : (mz, ez, lz)
                    = (Zpos p * 2 ^ (-1 - (Zdigits2 (Zpos p) - 55)),
                       Zdigits2 (Zpos p) - 55, loc_Exact)).
  1,3: rewrite <- Hcore; unfold SFdiv_core_binary;
       change (Zdigits2 2) with 2;
       replace (Z.min (fexp prec emax (Zdigits2 (Zpos p) + 0 - (2 + 0))) (0 - 0))
         with (Zdigits2 (Zpos p) - 55) by (rewrite fexp_eq; lia);
       cbv zeta;
       replace (0 - 0 - (Zdigits2 (Zpos p) - 55))
         with (55 - Zdigits2 (Zpos p)) by lia;
       destruct (55 - Zdigits2 (Zpos p)) as [|q|q] eqn:Hq; try lia;
       rewrite Z.shiftl_mul_pow2 by lia;
       replace (-1 - (Zdigits2 (Zpos p) - 55)) with (Zpos q - 1) by lia;
       replace (Zpos p * 2 ^ Zpos q)
         with (Zpos p * 2 ^ (Zpos q - 1) * 2)
         by (replace (Zpos q) with (Z.succ (Zpos q - 1)) at 2 by lia;
             rewrite Z.pow_succ_r by lia; ring);
       (assert (Heucl : forall x, Z.div_eucl (x * 2) 2 = (x, 0));
        [intros x; pose proof (Z.div_mul x 2 ltac:(lia)) as Hdiv;
         pose proof (Z.mod_mul x 2 ltac:(lia)) as Hmod;
         unfold Z.div, Z.modulo in Hdiv, Hmod;
         destruct (Z.div_eucl (x * 2) 2); cbn in *; congruence|]);
       rewrite Heucl; reflexivity.
  all: injection Hc as -> -> ->.
  all: rewrite (round_half _ (Zpos p))
         by (change (Zpos (digits2_pos p)) with (Zdigits2 (Zpos p)); lia).
  all: reflexivity.
Qed.

(** A value [B / 2] held at an exponent below zero is normalised to the
    double of that value. *)
Lemma binary_round_half s mx ez B :
  0 < B < 2 ^ 53 -> -1000 <= ez <= -1 -> Zpos mx = B * 2 ^ (-1 - ez) ->
  binary_round prec emax s mx ez
  = S754_finite s (Z.to_pos (B * 2 ^ (53 - Zdigits2 B))) (Zdigits2 B - 54).
Proof.
  intros HB Hez Hmx.
  pose proof (Zdigits2_pos B ltac:(lia)) as Hd0.
  pose proof (Zdigits2_le B 53 ltac:(lia) ltac:(lia) ltac:(lia)) as Hd53.
  unfold binary_round.
  pose proof (shl_align_spec mx ez (fexp prec emax (Zpos (digits2_pos mx) + ez)))
    as [Hm He].
  change (Zpos (digits2_pos mx)) with (Zdigits2 (Zpos mx)) in *.
  rewrite Hmx, Zdigits2_mul_pow2, fexp_eq in Hm, He by lia.
  rewrite Hmx, Zdigits2_mul_pow2, fexp_eq by lia.
  destruct (shl_align mx ez _) as [mz ez']. cbn [fst snd] in Hm, He.
  rewrite Hm, He.
  set (E := Z.min ez (Z.max (Zdigits2 B + (-1 - ez) + ez - 53) (-1074))).
  assert (HE : E <= ez /\ E <= Zdigits2 B - 54 /\ -1000 <= E) by (unfold E; lia).
  rewrite <- Z.mul_assoc, <- Z.pow_add_r by lia.
  replace (-1 - ez + (ez - E)) with (-1 - E) by lia.
  apply round_half; lia.
Qed.

(** [int(x)] of a half is the quotient truncated toward zero. *)
Lemma int_of_half b :
  Z.abs b < 2 ^ 53 -> int_of_float (half_float b) = Ok (Z.quot b 2).
Proof.
  intros Hb. destruct b as [|p|p]; [reflexivity | |].
  all: change (Zpos p < 2 ^ 53) in Hb.
  all: pose proof (Zdigits2_pos (Zpos p) ltac:(lia)) as Hd0.
  all: pose proof (Zdigits2_le (Zpos p) 53 ltac:(lia) ltac:(lia) Hb) as Hd53.
  all: assert (Hpos : 0 < 2 ^ (53 - Zdigits2 (Zpos p)))
         by (apply Z.pow_pos_nonneg; lia).
  all: assert (Hshift : forall q,
         Zdigits2 (Zpos p) - 54 = Zneg q ->
         Z.shiftr (Zpos (Z.to_pos (Zpos p * 2 ^ (53 - Zdigits2 (Zpos p)))))
                  (Zpos q) = Zpos p / 2).
  1,3: intros q Hq; rewrite Z2Pos.id by nia;
       rewrite Z.shiftr_div_pow2 by lia;
       replace (Zpos q) with (Z.succ (53 - Zdigits2 (Zpos p))) by lia;
       rewrite Z.pow_succ_r by lia;
       apply Z.div_mul_cancel_r; lia.
  all: unfold half_float; cbn [Z.ltb Z.compare int_of_float].
  all: change (Z.abs _) with (Zpos p).
  all: destruct (Zdigits2 (Zpos p) - 54) as [|q|q] eqn:He; try lia.
  all: rewrite (Hshift q eq_refl).
  - rewrite Z.quot_div_nonneg by lia. reflexivity.
  - change (Zneg p) with (- Zpos p).
    rewrite Z.quot_opp_l, Z.quot_div_nonneg by lia. reflexivity.
Qed.

(** Adding 60 to a half is exact. *)
Lemma half_plus_60 a :
  Z.abs a < 2 ^ 52 ->
  GridLayout.float_add_int (half_float a) 60 = Ok (half_float (a + 120)).
Proof.
  intros Ha. unfold GridLayout.float_add_int.
  change (float_of_int 60)
    with (Ok (S754_finite false 8444249301319680 (-47))).
  cbn [rbind]. f_equal.
  destruct (Z.eq_dec a 0) as [->|Hne]; [reflexivity|].
  set (B := Z.abs a).
  assert (HB : 0 < B < 2 ^ 52) by (unfold B; lia).
  pose proof (Zdigits2_pos B ltac:(lia)) as Hd0.
  pose proof (Zdigits2_le B 52 ltac:(lia) ltac:(lia) ltac:(lia)) as Hd52.
  assert (Hpos : 0 < 2 ^ (53 - Zdigits2 B)) by (apply Z.pow_pos_nonneg; lia).
  assert (Hhalf : half_float a
                  = S754_finite (a <? 0)
                      (Z.to_pos (B * 2 ^ (53 - Zdigits2 B)))
                      (Zdigits2 B - 54))
    by (destruct a; [lia | reflexivity | reflexivity]).
  rewrite Hhalf. cbn [SFadd].
  set (ex := Zdigits2 B - 54).
  set (ez := Z.min ex (-47)).
  pose proof (shl_align_spec (Z.to_pos (B * 2 ^ (53 - Zdigits2 B))) ex ez)
    as [Hx _].
  pose proof (shl_align_spec 8444249301319680 (-47) ez) as [Hy _].
  rewrite Z2Pos.id in Hx by nia.
  replace (Z.min ex ez) with ez in Hx by (unfold ez; lia).
  replace (Z.min (-47) ez) with ez in Hy by (unfold ez; lia).
  rewrite Hx, Hy.
  assert (Hez : -1000 <= ez <= -47) by (unfold ez, ex; lia).
  assert (HT : 0 < 2 ^ (-1 - ez)) by (apply Z.pow_pos_nonneg; lia).
  assert (Hxv : B * 2 ^ (53 - Zdigits2 B) * 2 ^ (ex - ez) = B * 2 ^ (-1 - ez)).
  { rewrite <- Z.mul_assoc, <- Z.pow_add_r by (unfold ex; lia).
    do 2 f_equal. unfold ex. lia. }
  assert (Hyv : 8444249301319680 * 2 ^ (-47 - ez) = 120 * 2 ^ (-1 - ez)).
  { replace (-1 - ez) with (46 + (-47 - ez)) by lia.
    rewrite Z.pow_add_r by lia. change (2 ^ 46) with 70368744177664. lia. }
  rewrite Hxv, Hyv. cbn [cond_Zopp].
  assert (Hsum : cond_Zopp (a <? 0) (B * 2 ^ (-1 - ez)) + 120 * 2 ^ (-1 - ez)
                 = (a + 120) * 2 ^ (-1 - ez)).
  { unfold B. destruct (Z.ltb_spec a 0); cbn [cond_Zopp].
    - rewrite Z.abs_neq by lia. ring.
    - rewrite Z.abs_eq by lia. ring. }
  rewrite Hsum.
  assert (Hlim : Z.abs (a + 120) < 2 ^ 53)
    by (change (2 ^ 53) with (2 ^ 52 * 2);
        assert (120 < 2 ^ 52) by reflexivity; lia).
  unfold binary_normalize.
  destruct ((a + 120) * 2 ^ (-1 - ez)) as [|m|m] eqn:Hm.
  - assert (a + 120 = 0) by nia.
    replace (a + 120) with 0 by lia. reflexivity.
  - assert (Hb : 0 < a + 120) by nia.
    rewrite (binary_round_half false m ez (a + 120)) by lia.
    destruct (a + 120) as [|q|q]; [lia | reflexivity | lia].
  - assert (Hb : a + 120 < 0) by nia.
    rewrite (binary_round_half true m ez (- (a + 120))) by lia.
    destruct (a + 120) as [|q|q]; [lia | lia | reflexivity].
Qed.

End ExactFacts.

(** ** Parsing dates *)

Module ParseFacts.

Import PyDate DateFacts DateText.

Lemma digit_char_code n :
  nat_of_ascii (digit_char n) = Z.to_nat (48 + n mod 10).
Proof.
  unfold digit_char. apply nat_ascii_embedding.
  pose proof (Z.mod_pos_bound n 10 ltac:(lia)). lia.
Qed.

Lemma is_digit_digit_char n : is_digit (digit_char n) = true.
Proof.
  unfold is_digit. rewrite digit_char_code.
  pose proof (Z.mod_pos_bound n 10 ltac:(lia)).
  rewrite Z2Nat.id by lia. cbv zeta.
  apply andb_true_intro. split; apply Z.leb_le; lia.
Qed.

Lemma digit_digit_char n : digit (digit_char n) = n mod 10.
Proof.
  unfold digit. rewrite digit_char_code.
  pose proof (Z.mod_pos_bound n 10 ltac:(lia)).
  rewrite Z2Nat.id by lia. lia.
Qed.

Lemma month_day_ok m d :
  1 <= m <= 12 -> 1 <= d <= 31 -> month_day_reads_back m d = true.
Proof.
  intros Hm Hd.
  assert (Hall : month_reads_back m = true).
  { apply (Zrange_forallb month_reads_back 1 12);
      [vm_compute; reflexivity | lia]. }
  unfold month_reads_back in Hall.
  apply (Zrange_forallb (month_day_reads_back m) 1 31); [exact Hall | lia].
Qed.

Lemma year_digits y :
  0 <= y <= 9999 ->
  1000 * ((y / 1000) mod 10) + 100 * ((y / 100) mod 10)
  + 10 * ((y / 10) mod 10) + y mod 10 = y.
Proof.
  intros Hy.
  replace (y / 100) with (y / 10 / 10) by (rewrite Z.div_div by lia; reflexivity).
  replace (y / 1000) with (y / 10 / 10 / 10)
    by (rewrite !Z.div_div by lia; reflexivity).
  pose proof (Z.div_mod y 10 ltac:(lia)).
  pose proof (Z.div_mod (y / 10) 10 ltac:(lia)).
  pose proof (Z.div_mod (y / 10 / 10) 10 ltac:(lia)).
  pose proof (Z.mod_pos_bound y 10 ltac:(lia)).
  pose proof (Z.mod_pos_bound (y / 10) 10 ltac:(lia)).
  pose proof (Z.mod_pos_bound (y / 10 / 10) 10 ltac:(lia)).
  assert (0 <= y / 10 / 10 / 10 < 10)
    by (rewrite !Z.div_div by lia; split;
        [apply Z.div_pos | apply Z.div_lt_upper_bound]; lia).
  rewrite (Z.mod_small (y / 10 / 10 / 10)) by lia. lia.
Qed.

(** X1. Every calendar date, written the ISO way (zero-padded
    YYYY-MM-DD), is accepted by [safe_date] and read back as that date at
    midnight. *)
Theorem safe_date_isoformat (d : date) :
  valid d = true ->
  safe_date (isoformat d) = Some (mkdatetime d 0).
Proof.
  intros Hv. pose proof (valid_fields d Hv) as (Hy & Hm & Hd).
  pose proof (dim_pos (isleap (year d)) (month d) Hm) as Hdim.
  unfold safe_date, strptime, isoformat.
  rewrite String.list_ascii_of_string_of_list_ascii.
  unfold isoformat_chars, strptime_chars.
  rewrite !is_digit_digit_char.
  change (is_dash dash) with true. cbn [andb].
  pose proof (month_day_ok (month d) (day d) Hm ltac:(lia)) as Hmd.
  unfold month_day_reads_back in Hmd.
  destruct (match_month_day _) as [[[m' d'] [|c r]]|]; try discriminate.
  apply andb_true_iff in Hmd as [Hm' Hd'].
  apply Z.eqb_eq in Hm', Hd'. subst m' d'.
  rewrite !digit_digit_char, year_digits by lia.
  unfold new_date. unfold valid in Hv. rewrite Hv. cbn [rbind].
  destruct d; reflexivity.
Qed.

Lemma safe_date_isoformat_witness :
  safe_date "2024-02-29" = Some (mkdatetime (mkdate 2024 2 29) 0).
Proof.
  apply (safe_date_isoformat (mkdate 2024 2 29)). reflexivity.
Defined.

End ParseFacts.

(** ** Progress of the calendars as the clock advances *)

Module ProgressFacts.

Import PyDate DateFacts.

(** X2. [safe_date] only returns calendar dates: the fields are in range,
    the day exists in that month of that year (leap years included), and
    the time of day is midnight. *)
Theorem safe_date_calendar_date (s : string) (dt : datetime) :
  safe_date s = Some dt ->
  1 <= year (dt_date dt) <= 9999
  /\ 1 <= month (dt_date dt) <= 12
  /\ 1 <= day (dt_date dt)
          <= days_in_month (year (dt_date dt)) (month (dt_date dt))
  /\ dt_micro dt = 0.
Proof.
  intros H. apply safe_date_valid in H as [Hv Hm].
  apply valid_fields in Hv as (Hy & Hmo & Hd).
  rewrite days_in_month_dim. auto.
Qed.

Lemma safe_date_calendar_date_witness :
  1 <= 2024 <= 9999 /\ 1 <= 2 <= 12
  /\ 1 <= 29 <= days_in_month 2024 2 /\ 0 = 0.
Proof.
  apply (safe_date_calendar_date "2024-02-29"
           (mkdatetime (mkdate 2024 2 29) 0)).
  reflexivity.
Defined.

(** The ordinal of a calendar date. *)
Lemma toordinal_range d : valid d = true -> 1 <= toordinal d <= 3652060.
Proof.
  intros Hv.
  pose proof (valid_fields d Hv) as (Hy & _ & _).
  pose proof (day_of_year_bounds d Hv) as Hb.
  pose proof (year_length_pos (year d)).
  pose proof (days_before_year_mono 1 (year d) ltac:(lia)) as Hlo.
  pose proof (days_before_year_mono (year d) 9999 ltac:(lia)) as Hhi.
  change (days_before_year 1) with 0 in Hlo.
  change (days_before_year 9999) with 3651694 in Hhi.
  unfold toordinal, ymd2ord. rewrite days_before_month_dbm. lia.
Qed.

(** The year calendar on any calendar date. *)
Lemma year_calculate_eq now :
  valid (dt_date now) = true ->
  let today := dt_date now in
  YearCalendarData.calculate now
  = Ok (year_length (year today),
        dbm (isleap (year today)) (month today) + day today).
Proof.
  intros Hv. cbn zeta.
  pose proof (day_of_year_bounds _ Hv) as Hb.
  pose proof (valid_fields _ Hv) as (Hy & _ & _).
  unfold YearCalendarData.calculate.
  rewrite (YearFacts.january_first _ Hy). cbn [rbind].
  rewrite YearFacts.since_january_first. unfold year_length in *.
  rewrite Z.min_l by lia. reflexivity.
Qed.

(** X3. The life calendar never loses a week: with the same object, a
    later clock reading gives the same total and at least as many weeks
    lived. *)
Theorem life_progress_monotone (dob_str : string) (lifespan : Z)
  (self : LifeCalendarData.t) (now1 now2 : datetime) :
  LifeCalendarData.init dob_str lifespan = Ok self ->
  valid (dt_date now1) = true -> valid (dt_date now2) = true ->
  date_le (dt_date now1) (dt_date now2) = true ->
  exists total filled1 filled2,
    LifeCalendarData.calculate self now1 = Ok (total, filled1)
    /\ LifeCalendarData.calculate self now2 = Ok (total, filled2)
    /\ filled1 <= filled2.
Proof.
  intros Hinit Hv1 Hv2 Hle.
  unfold LifeCalendarData.init in Hinit.
  destruct (safe_date dob_str) as [d|]; [|discriminate].
  injection Hinit as <-.
  pose proof (LifeFacts.clamp_range lifespan) as Hc.
  rewrite !LifeFacts.calculate_eq by exact Hc.
  eexists _, _, _. split; [reflexivity|]. split; [reflexivity|].
  apply (date_le_ordinal _ _ Hv1 Hv2) in Hle.
  cbn [LifeCalendarData.dob]. unfold days_between.
  apply Z.min_le_compat_r. apply Z.div_le_mono; lia.
Qed.

Lemma life_progress_monotone_witness :
  exists total filled1 filled2,
    LifeCalendarData.calculate
      (LifeCalendarData.mk (mkdatetime (mkdate 1990 5 15) 0) 90)
      Scenario.mid_2024 = Ok (total, filled1)
    /\ LifeCalendarData.calculate
         (LifeCalendarData.mk (mkdatetime (mkdate 1990 5 15) 0) 90)
         Scenario.new_years_eve_2024 = Ok (total, filled2)
    /\ filled1 <= filled2.
Proof.
  apply (life_progress_monotone Scenario.birthday 90); reflexivity.
Defined.

(** The total of the life calendar depends on the lifespan only
    through its clamp to 1 .. 150 years: it lies between 52 and 7826
    weeks, and a longer lifespan never gives a shorter calendar. *)
Theorem life_total_clamped (dob_str : string) (l1 l2 : Z)
  (s1 s2 : LifeCalendarData.t) (now : datetime) :
  LifeCalendarData.init dob_str l1 = Ok s1 ->
  LifeCalendarData.init dob_str l2 = Ok s2 ->
  l1 <= l2 ->
  exists t1 t2 f1 f2,
    LifeCalendarData.calculate s1 now = Ok (t1, f1)
    /\ LifeCalendarData.calculate s2 now = Ok (t2, f2)
    /\ 52 <= t1 /\ t1 <= t2 /\ t2 <= 7826
    /\ (150 <= l1 -> t1 = 7826)
    /\ (l2 <= 1 -> t2 = 52).
Proof.
  intros H1 H2 Hle.
  unfold LifeCalendarData.init in H1, H2.
  destruct (safe_date dob_str) as [d|]; [|discriminate].
  injection H1 as <-. injection H2 as <-.
  pose proof (LifeFacts.clamp_range l1) as Hc1.
  pose proof (LifeFacts.clamp_range l2) as Hc2.
  rewrite !LifeFacts.calculate_eq by assumption.
  cbn [LifeCalendarData.lifespan].
  eexists _, _, _, _. split; [reflexivity|]. split; [reflexivity|].
  split; [apply LifeFacts.total_weeks_lower; lia|].
  split; [apply Z.div_le_mono; lia|].
  split; [apply Z.lt_succ_r, Z.div_lt_upper_bound; lia|].
  split; intros H.
  - rewrite Z.min_r, Z.max_r by lia. reflexivity.
  - rewrite Z.min_l, Z.max_l by lia. reflexivity.
Qed.

Lemma life_total_clamped_witness :
  exists t1 t2 f1 f2,
    LifeCalendarData.calculate
      (LifeCalendarData.mk (mkdatetime (mkdate 1990 5 15) 0) 150)
      Scenario.mid_2024 = Ok (t1, f1)
    /\ LifeCalendarData.calculate
         (LifeCalendarData.mk (mkdatetime (mkdate 1990 5 15) 0) 150)
         Scenario.mid_2024 = Ok (t2, f2)
    /\ 52 <= t1 /\ t1 <= t2 /\ t2 <= 7826
    /\ (150 <= 200 -> t1 = 7826)
    /\ (1000 <= 1 -> t2 = 52).
Proof.
  apply (life_total_clamped Scenario.birthday 200 1000);
    [reflexivity | reflexivity | lia].
Defined.

(** What [GoalCalendarData.init] has checked when it returns. *)
Lemma goal_init_inv start_str end_str self :
  GoalCalendarData.init start_str end_str = Ok self ->
  exists s e,
    safe_date start_str = Some s /\ safe_date end_str = Some e
    /\ self = GoalCalendarData.mk (midnight s) (midnight e)
    /\ toordinal (dt_date s) < toordinal (dt_date e).
Proof.
  intros Hinit. unfold GoalCalendarData.init in Hinit.
  destruct (safe_date start_str) as [s|] eqn:Hs; [|discriminate].
  destruct (safe_date end_str) as [e|] eqn:He; [|discriminate].
  destruct (datetime_le (midnight e) (midnight s)) eqn:Hle; [discriminate|].
  injection Hinit as <-.
  pose proof (safe_date_valid _ _ Hs) as [Hvs _].
  pose proof (safe_date_valid _ _ He) as [Hve _].
  exists s, e. repeat split.
  destruct (Z_lt_le_dec (toordinal (dt_date s)) (toordinal (dt_date e)))
    as [|Hge]; [assumption|].
  apply (GoalFacts.midnight_le s e Hvs Hve) in Hge. congruence.
Qed.

(** The days passed of a goal, by the position of today. *)
Lemma goal_calculate_cases (s e now : datetime) :
  valid (dt_date s) = true -> valid (dt_date e) = true ->
  valid (dt_date now) = true ->
  toordinal (dt_date s) < toordinal (dt_date e) ->
  let first := toordinal (dt_date s) in
  let last := toordinal (dt_date e) in
  let today := toordinal (dt_date now) in
  GoalCalendarData.calculate
    (GoalCalendarData.mk (midnight s) (midnight e)) now
  = Ok (last - first, Z.max 0 (Z.min (today - first) (last - first))).
Proof.
  intros Hvs Hve Hnow Hlt. cbn zeta.
  unfold GoalCalendarData.calculate.
  cbn [GoalCalendarData.start GoalCalendarData.end_ midnight dt_date].
  unfold days_between, date_gt. do 2 f_equal.
  pose proof (date_lt_ordinal _ _ Hnow Hvs) as A.
  pose proof (date_lt_ordinal _ _ Hve Hnow) as B.
  destruct (date_lt (dt_date now) (dt_date s)).
  - apply proj1 in A. specialize (A eq_refl). lia.
  - assert (~ toordinal (dt_date now) < toordinal (dt_date s))
      by (intros Hx; apply A in Hx; discriminate).
    destruct (date_lt (dt_date e) (dt_date now)).
    + apply proj1 in B. specialize (B eq_refl). lia.
    + assert (~ toordinal (dt_date e) < toordinal (dt_date now))
        by (intros Hx; apply B in Hx; discriminate).
      lia.
Qed.

(** X4. A goal calendar that was constructed always has at least one day
    in total and reports between 0 and all of them as passed, whatever
    the clock says. *)
Theorem goal_progress_bounds (start_str end_str : string)
  (self : GoalCalendarData.t) (now : datetime) :
  GoalCalendarData.init start_str end_str = Ok self ->
  valid (dt_date now) = true ->
  exists total filled,
    GoalCalendarData.calculate self now = Ok (total, filled)
    /\ 1 <= total /\ 0 <= filled <= total.
Proof.
  intros Hinit Hnow.
  apply goal_init_inv in Hinit as (s & e & Hs & He & -> & Hlt).
  pose proof (safe_date_valid _ _ Hs) as [Hvs _].
  pose proof (safe_date_valid _ _ He) as [Hve _].
  rewrite (goal_calculate_cases s e now Hvs Hve Hnow Hlt).
  eexists _, _. split; [reflexivity | lia].
Qed.

Lemma goal_progress_bounds_witness :
  exists total filled,
    GoalCalendarData.calculate
      (GoalCalendarData.mk (mkdatetime (mkdate 2024 1 1) 0)
                           (mkdatetime (mkdate 2024 12 31) 0))
      Scenario.mid_2024 = Ok (total, filled)
    /\ 1 <= total /\ 0 <= filled <= total.
Proof.
  apply (goal_progress_bounds "2024-01-01" "2024-12-31"); reflexivity.
Defined.

(** X5. The goal calendar never moves backwards: a later clock reading
    gives the same total and at least as many days passed. *)
Theorem goal_progress_monotone (start_str end_str : string)
  (self : GoalCalendarData.t) (now1 now2 : datetime) :
  GoalCalendarData.init start_str end_str = Ok self ->
  valid (dt_date now1) = true -> valid (dt_date now2) = true ->
  date_le (dt_date now1) (dt_date now2) = true ->
  exists total filled1 filled2,
    GoalCalendarData.calculate self now1 = Ok (total, filled1)
    /\ GoalCalendarData.calculate self now2 = Ok (total, filled2)
    /\ filled1 <= filled2.
Proof.
  intros Hinit Hv1 Hv2 H12.
  apply goal_init_inv in Hinit as (s & e & Hs & He & -> & Hlt).
  pose proof (safe_date_valid _ _ Hs) as [Hvs _].
  pose proof (safe_date_valid _ _ He) as [Hve _].
  apply (date_le_ordinal _ _ Hv1 Hv2) in H12.
  rewrite (goal_calculate_cases s e now1 Hvs Hve Hv1 Hlt).
  rewrite (goal_calculate_cases s e now2 Hvs Hve Hv2 Hlt).
  eexists _, _, _. split; [reflexivity|]. split; [reflexivity | lia].
Qed.

Lemma goal_progress_monotone_witness :
  exists total filled1 filled2,
    GoalCalendarData.calculate
      (GoalCalendarData.mk (mkdatetime (mkdate 2024 1 1) 0)
                           (mkdatetime (mkdate 2024 12 31) 0))
      Scenario.mid_2024 = Ok (total, filled1)
    /\ GoalCalendarData.calculate
         (GoalCalendarData.mk (mkdatetime (mkdate 2024 1 1) 0)
                              (mkdatetime (mkdate 2024 12 31) 0))
         Scenario.new_years_eve_2024 = Ok (total, filled2)
    /\ filled1 <= filled2.
Proof.
  apply (goal_progress_monotone "2024-01-01" "2024-12-31"); reflexivity.
Defined.

(** X6. Within one year the year calendar counts days: between two
    readings of the clock in the same year the day number grows by
    exactly the days elapsed, and it is 1 on January 1st. *)
Theorem year_progress_elapsed (now1 now2 : datetime) :
  valid (dt_date now1) = true -> valid (dt_date now2) = true ->
  year (dt_date now1) = year (dt_date now2) ->
  exists total filled1 filled2,
    YearCalendarData.calculate now1 = Ok (total, filled1)
    /\ YearCalendarData.calculate now2 = Ok (total, filled2)
    /\ filled2 - filled1 = days_between (dt_date now2) (dt_date now1)
    /\ (month (dt_date now1) = 1 -> day (dt_date now1) = 1 -> filled1 = 1).
Proof.
  intros Hv1 Hv2 Hy.
  pose proof (day_of_year_bounds _ Hv1) as Hb1.
  pose proof (day_of_year_bounds _ Hv2) as Hb2.
  pose proof (valid_fields _ Hv1) as (Hy1 & _ & _).
  pose proof (valid_fields _ Hv2) as (Hy2 & _ & _).
  unfold year_length in Hb1, Hb2.
  unfold YearCalendarData.calculate.
  rewrite !(YearFacts.january_first _) by assumption. cbn [rbind].
  rewrite !YearFacts.since_january_first. rewrite <- Hy.
  eexists _, _, _. split; [reflexivity|]. split; [reflexivity|].
  rewrite Hy in *.
  split.
  - rewrite !Z.min_l by (destruct (isleap _); lia).
    unfold days_between, toordinal, ymd2ord.
    rewrite !days_before_month_dbm, Hy. lia.
  - intros Hm Hd. rewrite Hm, Hd, dbm_first.
    destruct (isleap _); reflexivity.
Qed.

Lemma year_progress_elapsed_witness :
  exists total filled1 filled2,
    YearCalendarData.calculate Scenario.mid_2024 = Ok (total, filled1)
    /\ YearCalendarData.calculate Scenario.new_years_eve_2024
       = Ok (total, filled2)
    /\ filled2 - filled1
       = days_between (mkdate 2024 12 31) (mkdate 2024 7 1)
    /\ (7 = 1 -> 1 = 1 -> filled1 = 1).
Proof.
  apply (year_progress_elapsed Scenario.mid_2024 Scenario.new_years_eve_2024);
    reflexivity.
Defined.

End ProgressFacts.

(** ** Cells of the grid *)

Module GridFacts.

Import PyFloat FloatFacts GridLayout LayoutFacts Drawing.

(** The layout of a canvas of at least 800 x 600 is constructed, with the
    fields [__init__] and [_calculate_dimensions] give it. *)
Lemma init_fields (mode : string) (total canvas_w canvas_h : Z) :
  1 <= total < 2 ^ 51 ->
  800 <= canvas_w < 2 ^ 51 ->
  600 <= canvas_h < 2 ^ 51 ->
  exists L,
    init mode total canvas_w canvas_h = Ok L
    /\ total_units L = total
    /\ columns L = _get_columns mode total
    /\ rows L = (total + columns L - 1) / columns L
    /\ 0 <= cell_size L <= 20
    /\ 2 <= gap L <= 3
    /\ grid_width L = columns L * cell_size L + (columns L - 1) * gap L
    /\ grid_height L = rows L * cell_size L + (rows L - 1) * gap L.
Proof.
  intros Ht Hw Hh.
  pose proof (columns_range mode total ltac:(lia)) as Hcols.
  set (cols := _get_columns mode total) in *.
  pose proof (rows_range total cols ltac:(lia) ltac:(lia)) as Hrows.
  set (nrows := (total + cols - 1) / cols) in *.
  destruct (scaled_by_literal canvas_w literal_0_9 51)
    as (Haw & Hfaw & Hsaw);
    [lia | apply digits_below; lia | lia | now vm_compute | reflexivity |].
  destruct (scaled_by_literal canvas_h literal_0_75 51)
    as (Hah & Hfah & Hsah);
    [lia | apply digits_below; lia | lia | now vm_compute | reflexivity |].
  set (aw := fmul (Z2SF canvas_w) literal_0_9) in *.
  set (ah := fmul (Z2SF canvas_h) literal_0_75) in *.
  destruct (divided_by_int aw cols 53 6) as (Hmw & Hfmw & Hsmw);
    [exact Hfaw | exact Hsaw | lia
    | apply digits_below; [change (2 ^ 6) with 64|]; lia | lia | lia |].
  destruct (divided_by_int ah nrows 53 51) as (Hmh & Hfmh & Hsmh);
    [exact Hfah | exact Hsah | lia | apply digits_below; lia | lia | lia |].
  destruct (cell_size_range _ _ _ _ Hfmw Hsmw Hfmh Hsmh)
    as (c & Hc & Hcr & _).
  destruct (gap_range c Hcr) as (g & Hg & Hgr). unfold gap_of in Hg.
  destruct (int_mul_float c literal_0_15) as [scaled|] eqn:Hscaled;
    cbn [rbind] in Hg; [|discriminate].
  set (gw := cols * c + (cols - 1) * g).
  set (gh := nrows * c + (nrows - 1) * g).
  assert (Hgw : 0 <= gw <= 1377) by (unfold gw; nia).
  assert (Hgh : 0 <= gh <= 23 * nrows) by (unfold gh; nia).
  destruct (start_x_ok (canvas_w - gw)) as (hx & sx & Hhx & Hsx);
    [change (2 ^ 60) with (2 ^ 51 * 512); lia|].
  destruct (start_y_ok (canvas_h - gh))
    as (hy & shifted & sy & Hhy & Hsh & Hsy);
    [change (2 ^ 60) with (2 ^ 51 * 512); lia|].
  exists (mk mode total canvas_w canvas_h cols nrows c g gw gh sx sy).
  split.
  - unfold init. cbn zeta.
    rewrite Z.max_r by lia. fold cols. fold nrows.
    rewrite Haw. cbn [rbind]. rewrite Hah. cbn [rbind].
    rewrite Hmw. cbn [rbind]. rewrite Hmh. cbn [rbind].
    rewrite Hc. cbn [rbind]. rewrite Hscaled. cbn [rbind].
    rewrite Hg. cbn [rbind]. fold gw. fold gh.
    rewrite Hhx. cbn [rbind]. rewrite Hsx. cbn [rbind].
    rewrite Hhy. cbn [rbind]. rewrite Hsh. cbn [rbind].
    rewrite Hsy. cbn [rbind]. reflexivity.
  - cbn [total_units columns rows cell_size gap grid_width grid_height].
    repeat split; try reflexivity; lia.
Qed.

(** Row and column of a cell. *)
Lemma cell_row_col cols index :
  0 < cols -> 0 <= index ->
  0 <= index mod cols < cols /\ 0 <= index / cols
  /\ index = cols * (index / cols) + index mod cols.
Proof.
  intros Hc Hi.
  pose proof (Z.mod_pos_bound index cols Hc).
  pose proof (Z.div_pos index cols Hi Hc).
  pose proof (Z.div_mod index cols ltac:(lia)). lia.
Qed.

(** X7. The grid has a slot for every unit and no empty row: the cells
    fill the rows from the top, and the last row holds at least one. *)
Theorem grid_capacity (mode : string) (total canvas_w canvas_h : Z) :
  1 <= total < 2 ^ 51 ->
  800 <= canvas_w < 2 ^ 51 ->
  600 <= canvas_h < 2 ^ 51 ->
  exists L,
    init mode total canvas_w canvas_h = Ok L
    /\ 1 <= columns L <= 60
    /\ (rows L - 1) * columns L < total <= rows L * columns L
    /\ (String.eqb mode "goal" = true -> total <= 52 ->
        columns L = total /\ rows L = 1).
Proof.
  intros Ht Hw Hh.
  destruct (init_fields mode total canvas_w canvas_h Ht Hw Hh)
    as (L & HL & _ & Hc & Hr & _).
  exists L. split; [exact HL|].
  pose proof (columns_range mode total ltac:(lia)) as Hcols.
  rewrite <- Hc in Hcols. split; [exact Hcols|].
  rewrite Hr. split.
  - pose proof (Z.div_mod (total + columns L - 1) (columns L) ltac:(lia)).
    pose proof (Z.mod_pos_bound (total + columns L - 1) (columns L) ltac:(lia)).
    nia.
  - intros Hmode Hsmall. rewrite Hc. unfold _get_columns.
    assert (Hl : String.eqb mode "life" = false).
    { apply String.eqb_eq in Hmode. subst mode. reflexivity. }
    assert (Hy : String.eqb mode "year" = false).
    { apply String.eqb_eq in Hmode. subst mode. reflexivity. }
    rewrite Hl, Hy, Hmode.
    rewrite (proj2 (Z.leb_le total 365)) by lia.
    rewrite Z.min_r by lia. split; [reflexivity|].
    replace (total + total - 1) with (1 * total + (total - 1)) by lia.
    rewrite Z.div_add_l by lia. rewrite Z.div_small by lia. lia.
Qed.

Lemma grid_capacity_witness :
  exists L,
    init "goal" 30 1920 1080 = Ok L
    /\ 1 <= columns L <= 60
    /\ (rows L - 1) * columns L < 30 <= rows L * columns L
    /\ (String.eqb "goal" "goal" = true -> 30 <= 52 ->
        columns L = 30 /\ rows L = 1).
Proof.
  apply (grid_capacity "goal" 30 1920 1080); vm_compute; split; congruence.
Defined.

(** X8. Every cell of the calendar lies inside the box of the grid:
    between [start_x] and [start_x + grid_width] horizontally and between
    [start_y] and [start_y + grid_height] vertically. *)
Theorem cell_inside_grid (mode : string) (total canvas_w canvas_h : Z) :
  1 <= total < 2 ^ 51 ->
  800 <= canvas_w < 2 ^ 51 ->
  600 <= canvas_h < 2 ^ 51 ->
  exists L,
    init mode total canvas_w canvas_h = Ok L
    /\ forall index, 0 <= index < total ->
         let '(x, y) := get_cell_position L index in
         start_x L <= x /\ x + cell_size L <= start_x L + grid_width L
         /\ start_y L <= y /\ y + cell_size L <= start_y L + grid_height L.
Proof.
  intros Ht Hw Hh.
  destruct (init_fields mode total canvas_w canvas_h Ht Hw Hh)
    as (L & HL & _ & Hc & Hr & Hcell & Hgap & Hgw & Hgh).
  exists L. split; [exact HL|]. intros index Hi.
  pose proof (columns_range mode total ltac:(lia)) as Hcols.
  rewrite <- Hc in Hcols.
  destruct (cell_row_col (columns L) index ltac:(lia) ltac:(lia))
    as (Hcol & Hrow & Hidx).
  assert (Hrows : index / columns L < rows L).
  { rewrite Hr. apply Z.div_lt_upper_bound; [lia|].
    pose proof (Z.div_mod (total + columns L - 1) (columns L) ltac:(lia)).
    pose proof (Z.mod_pos_bound (total + columns L - 1) (columns L) ltac:(lia)).
    nia. }
  unfold get_cell_position. rewrite Hgw, Hgh.
  set (c := index mod columns L) in *. set (r := index / columns L) in *.
  repeat split; nia.
Qed.

Lemma cell_inside_grid_witness :
  exists L,
    init "year" 366 1366 768 = Ok L
    /\ forall index, 0 <= index < 366 ->
         let '(x, y) := get_cell_position L index in
         start_x L <= x /\ x + cell_size L <= start_x L + grid_width L
         /\ start_y L <= y /\ y + cell_size L <= start_y L + grid_height L.
Proof.
  apply (cell_inside_grid "year" 366 1366 768); vm_compute; split; congruence.
Defined.

(** The rectangle drawn for the cell of a given index. *)
Lemma draw_grid_lookup L total filled (i : nat) r :
  draw_grid L total filled !! i = Some r ->
  Z.of_nat i < total
  /\ r = let '(x, y) := get_cell_position L (Z.of_nat i) in
         mkrect x y (x + cell_size L) (y + cell_size L)
                (cell_color total filled (Z.of_nat i)).
Proof.
  unfold draw_grid, range.
  rewrite !map_map.
  change (map ?f ?l) with (f <$> l).
  rewrite list_lookup_fmap.
  destruct (seq 0 (Z.to_nat total) !! i) as [k|] eqn:Hk; [|discriminate].
  apply lookup_seq in Hk as [-> Hlt]. cbn. intros [= <-].
  split; [lia | reflexivity].
Qed.

(** X9. No two cells of the drawn grid share a pixel: the rectangles of
    different cells are disjoint, their corners included. *)
Theorem cells_do_not_overlap (mode : string)
  (total canvas_w canvas_h filled : Z) :
  1 <= total < 2 ^ 51 ->
  800 <= canvas_w < 2 ^ 51 ->
  600 <= canvas_h < 2 ^ 51 ->
  exists L,
    init mode total canvas_w canvas_h = Ok L
    /\ forall (i j : nat) (a b : rectangle),
         i <> j ->
         draw_grid L total filled !! i = Some a ->
         draw_grid L total filled !! j = Some b ->
         ~ overlap a b.
Proof.
  intros Ht Hw Hh.
  destruct (init_fields mode total canvas_w canvas_h Ht Hw Hh)
    as (L & HL & _ & Hc & _ & Hcell & Hgap & _).
  exists L. split; [exact HL|]. intros i j a b Hij Ha Hb.
  apply draw_grid_lookup in Ha as [_ ->], Hb as [_ ->].
  pose proof (columns_range mode total ltac:(lia)) as Hcols.
  rewrite <- Hc in Hcols.
  destruct (cell_row_col (columns L) (Z.of_nat i) ltac:(lia) ltac:(lia))
    as (Hci & Hri & Hi).
  destruct (cell_row_col (columns L) (Z.of_nat j) ltac:(lia) ltac:(lia))
    as (Hcj & Hrj & Hj).
  unfold get_cell_position, overlap. cbn [x0 y0 x1 y1].
  set (ci := Z.of_nat i mod columns L) in *.
  set (ri := Z.of_nat i / columns L) in *.
  set (cj := Z.of_nat j mod columns L) in *.
  set (rj := Z.of_nat j / columns L) in *.
  intros (H1 & H2 & H3 & H4).
  assert (Hcol : ci = cj) by nia.
  assert (Hrow : ri = rj) by nia.
  apply Hij. apply Nat2Z.inj. rewrite Hi, Hj, Hcol, Hrow. reflexivity.
Qed.

Lemma cells_do_not_overlap_witness :
  exists L,
    init "life" 4695 1920 1080 = Ok L
    /\ forall (i j : nat) (a b : rectangle),
         i <> j ->
         draw_grid L 4695 1774 !! i = Some a ->
         draw_grid L 4695 1774 !! j = Some b ->
         ~ overlap a b.
Proof.
  apply (cells_do_not_overlap "life" 4695 1920 1080 1774);
    vm_compute; split; congruence.
Defined.

(** *** Colours *)










End GridFacts.

(** ** Printing and reading integers: [int(str(n)) == n] *)

Module IntTextFacts.

Import PyDate Lock.




Lemma lstrip_id l :
  match l with c :: _ => is_space c = false | [] => True end ->
  lstrip l = l.
Proof. destruct l as [|c l]; [reflexivity|]. cbn. intros ->. reflexivity. Qed.

(** Text that neither starts nor ends with white space is its own
    [strip]. *)
Lemma strip_id l :
  match l with c :: _ => is_space c = false | [] => True end ->
  match rev l with c :: _ => is_space c = false | [] => True end ->
  strip l = l.
Proof.
  intros Hh Ht. unfold strip.
  rewrite (lstrip_id l Hh), (lstrip_id (rev l) Ht). apply rev_involutive.
Qed.






End IntTextFacts.

(** ** The lock over several runs *)

Module LockCycleFacts.

Import OS Lock SaveFacts LockFacts IntTextFacts.

(** X11. On a file system without a marker, and with no other process
    interfering, [acquire_lock] succeeds, writes the decimal pid of the
    caller into the marker and touches no other file; [release_lock]
    then gives back the file system as it was. *)
Theorem lock_round_trip (os : procs) (fs : gmap string string) :
  fs !! LOCK_FILE = None ->
  exists fs1,
    acquire_lock os id fs = (fs1, Ok tt)
    /\ fs1 !! LOCK_FILE = Some (pretty (getpid os))
    /\ (forall p, p <> LOCK_FILE -> fs1 !! p = fs !! p)
    /\ release_lock fs1 = fs.
Proof.
  intros Hfree. exists (<[LOCK_FILE := pretty (getpid os)]> fs).
  unfold acquire_lock. rewrite (stale_check_absent os fs Hfree).
  split; [apply create_lock_free; exact Hfree|].
  split; [apply lookup_insert_eq|].
  split; [intros p Hp; apply lookup_insert_ne; congruence|].
  rewrite release_lock_spec. apply delete_insert_id. exact Hfree.
Qed.

Lemma lock_round_trip_witness :
  exists fs1,
    acquire_lock (Scenario.unix (fun _ => false)) id Scenario.old_disk
    = (fs1, Ok tt)
    /\ fs1 !! LOCK_FILE = Some "777"
    /\ (forall p, p <> LOCK_FILE -> fs1 !! p = Scenario.old_disk !! p)
    /\ release_lock fs1 = Scenario.old_disk.
Proof.
  apply (lock_round_trip (Scenario.unix (fun _ => false)) Scenario.old_disk).
  reflexivity.
Defined.



(** X13. A run that starts without a marker and without interference:
    [run_auto] returns [True] exactly when generation and setting both
    succeed, generation runs with the marker of this process in place,
    [set_wallpaper] is not run after a failed generation, and no marker
    is left behind on any path. *)
Theorem run_auto_outcome
  (generate_wallpaper set_wallpaper
     : gmap string string -> gmap string string * bool)
  (os : procs) (fs : gmap string string) :
  fs !! LOCK_FILE = None ->
  let locked := <[LOCK_FILE := pretty (getpid os)]> fs in
  let generated := generate_wallpaper locked in
  let shown := set_wallpaper (fst generated) in
  let run := WallpaperEngine.run_auto generate_wallpaper set_wallpaper
               os id fs in
  snd run = snd generated && snd shown
  /\ fst run !! LOCK_FILE = None
  /\ (snd generated = false -> fst run = delete LOCK_FILE (fst generated))
  /\ (snd generated = true -> fst run = delete LOCK_FILE (fst shown)).
Proof.
  intros Hfree. cbn zeta.
  unfold WallpaperEngine.run_auto, WallpaperEngine.run_body, acquire_lock.
  rewrite (stale_check_absent os fs Hfree). cbn [id].
  rewrite (create_lock_free os fs Hfree).
  destruct (generate_wallpaper _) as [fs2 [|]]; cbn [fst snd].
  - destruct (set_wallpaper fs2) as [fs3 [|]]; cbn [fst snd andb];
      rewrite release_lock_spec;
      (split; [reflexivity|]); (split; [apply lookup_delete_eq|]);
      (split; [discriminate | reflexivity]).
  - rewrite release_lock_spec.
    split; [reflexivity|]. split; [apply lookup_delete_eq|].
    split; [reflexivity | discriminate].
Qed.

Lemma run_auto_outcome_witness :
  let generate := fun fs : gmap string string =>
                    (<[Scenario.wallpaper := "new image"]> fs, true) in
  let shown := fun fs : gmap string string => (fs, true) in
  let run := WallpaperEngine.run_auto generate shown
               (Scenario.unix (fun _ => false)) id Scenario.old_disk in
  snd run = true /\ fst run !! LOCK_FILE = None.
Proof.
  cbn zeta.
  destruct (run_auto_outcome
              (fun fs : gmap string string =>
                 (<[Scenario.wallpaper := "new image"]> fs, true))
              (fun fs : gmap string string => (fs, true))
              (Scenario.unix (fun _ => false)) Scenario.old_disk)
    as (Hres & Hlock & _); [reflexivity|].
  split; [exact Hres | exact Hlock].
Defined.

End LockCycleFacts.

(** ** Loading and saving the configuration *)

Module ConfigMoreFacts.

Import OS WallpaperEngine SaveFacts ConfigFacts.

(** [load_config] fails loudly: a missing file raises
    [FileNotFoundError], and a file that is not valid JSON raises
    [ValueError]; no default configuration is substituted. *)
Theorem load_config_errors
  (json_load : string -> result (gmap string jvalue))
  (fs : gmap string string) (config_file : string) :
  (fs !! config_file = None ->
   load_config json_load fs config_file = Raise FileNotFoundError)
  /\ (forall text,
        fs !! config_file = Some text ->
        json_load text = Raise JSONDecodeError ->
        load_config json_load fs config_file = Raise ValueError).
Proof.
  split.
  - intros Hnone. unfold load_config.
    rewrite (proj2 (path_exists_false fs config_file)) by exact Hnone.
    reflexivity.
  - intros text Hsome Hbad. unfold load_config, read_file.
    rewrite (proj2 (path_exists_true fs config_file)) by (rewrite Hsome; eauto).
    rewrite Hsome. cbn [rbind]. rewrite Hbad. reflexivity.
Qed.

Lemma load_config_errors_witness :
  load_config MiniJson.load ∅ "life_calendar_config.json"
  = Raise FileNotFoundError
  /\ load_config MiniJson.load
       {[ "life_calendar_config.json" := "{not json" ]}
       "life_calendar_config.json"
     = Raise ValueError.
Proof.
  split.
  - apply (load_config_errors MiniJson.load ∅ "life_calendar_config.json").
    reflexivity.
  - apply (load_config_errors MiniJson.load
             {[ "life_calendar_config.json" := "{not json" ]}
             "life_calendar_config.json" ) with (text := "{not json");
      [reflexivity | vm_compute; reflexivity].
Defined.

(** X14. A configuration that loads has every key of [DEFAULT_CONFIG]:
    the keys of the file keep the values of the file (unknown keys
    included), and the keys the file lacks take their defaults. *)
Theorem load_config_merge
  (json_load : string -> result (gmap string jvalue))
  (fs : gmap string string) (config_file text : string)
  (loaded : gmap string jvalue) :
  fs !! config_file = Some text ->
  json_load text = Ok loaded ->
  exists config,
    load_config json_load fs config_file = Ok config
    /\ dom DEFAULT_CONFIG ⊆ dom config
    /\ (forall k v, loaded !! k = Some v -> config !! k = Some v)
    /\ (forall k, loaded !! k = None -> config !! k = DEFAULT_CONFIG !! k).
Proof.
  intros Hsome Hok. exists (loaded ∪ DEFAULT_CONFIG).
  split.
  - unfold load_config, read_file.
    rewrite (proj2 (path_exists_true fs config_file)) by (rewrite Hsome; eauto).
    rewrite Hsome. cbn [rbind]. rewrite Hok. reflexivity.
  - split; [rewrite dom_union; apply union_subseteq_r|]. split.
    + intros k v Hk. apply lookup_union_Some_l. exact Hk.
    + intros k Hk. apply lookup_union_r. exact Hk.
Qed.

Lemma load_config_merge_witness :
  exists config,
    load_config MiniJson.load
      {[ "life_calendar_config.json" := MiniJson.dump {[ "mode" := JStr "year" ]} ]}
      "life_calendar_config.json" = Ok config
    /\ dom DEFAULT_CONFIG ⊆ dom config
    /\ (forall k v, ({[ "mode" := JStr "year" ]} : gmap string jvalue) !! k
                    = Some v -> config !! k = Some v)
    /\ (forall k, ({[ "mode" := JStr "year" ]} : gmap string jvalue) !! k
                  = None -> config !! k = DEFAULT_CONFIG !! k).
Proof.
  apply (load_config_merge MiniJson.load _ _
           (MiniJson.dump {[ "mode" := JStr "year" ]}));
    vm_compute; reflexivity.
Defined.

(** X15. [save_config] keeps one step of history and touches nothing
    else: after two saves the backup file holds the first document, which
    loads as the first configuration, and every file other than the
    configuration and its backup is as before. *)
Theorem save_config_history
  (json_dump : gmap string jvalue -> string)
  (json_load : string -> result (gmap string jvalue))
  (first second : gmap string jvalue) (fs : gmap string string)
  (config_file : string) :
  json_load (json_dump first) = Ok first ->
  let fs2 := save_config json_dump second
               (save_config json_dump first fs config_file) config_file in
  fs2 !! config_file = Some (json_dump second)
  /\ fs2 !! (config_file +:+ ".bak") = Some (json_dump first)
  /\ load_config json_load fs2 (config_file +:+ ".bak")
     = Ok (first ∪ DEFAULT_CONFIG)
  /\ (forall p, p <> config_file -> p <> config_file +:+ ".bak" ->
        fs2 !! p = fs !! p).
Proof.
  intros Hjson. cbn zeta.
  set (fs1 := save_config json_dump first fs config_file).
  assert (H1 : fs1 !! config_file = Some (json_dump first))
    by (unfold fs1, save_config; apply lookup_insert_eq).
  assert (Hbak : save_config json_dump second fs1 config_file
                   !! (config_file +:+ ".bak") = Some (json_dump first))
    by (apply save_config_backup; exact H1).
  split; [unfold save_config; apply lookup_insert_eq|].
  split; [exact Hbak|]. split.
  - unfold load_config, read_file.
    rewrite (proj2 (path_exists_true _ _)) by (rewrite Hbak; eauto).
    rewrite Hbak. cbn [rbind]. rewrite Hjson. reflexivity.
  - intros p Hp Hpb.
    assert (Hstep : forall cfg (g : gmap string string),
               save_config json_dump cfg g config_file !! p = g !! p).
    { intros cfg g. unfold save_config.
      rewrite lookup_insert_ne by congruence.
      destruct (g !! config_file); [|reflexivity].
      apply lookup_insert_ne. congruence. }
    unfold fs1. rewrite !Hstep. reflexivity.
Qed.

Lemma save_config_history_witness :
  let fs2 := save_config MiniJson.dump DEFAULT_CONFIG
               (save_config MiniJson.dump Scenario.goal_config ∅
                  "life_calendar_config.json")
               "life_calendar_config.json" in
  load_config MiniJson.load fs2 "life_calendar_config.json.bak"
  = Ok (Scenario.goal_config ∪ DEFAULT_CONFIG).
Proof.
  cbn zeta.
  destruct (save_config_history MiniJson.dump MiniJson.load
              Scenario.goal_config DEFAULT_CONFIG ∅
              "life_calendar_config.json") as (_ & _ & H & _);
    [vm_compute; reflexivity|].
  exact H.
Defined.

End ConfigMoreFacts.

(** ** Validation *)

Module ValidateFacts.

Import PyDate DateFacts WallpaperEngine PyValue Engine.

Lemma safe_date_nonempty s d : safe_date s = Some d -> Str.is_empty s = false.
Proof. destruct s; [discriminate | reflexivity]. Qed.

Lemma safe_date_value_str v d :
  safe_date_value v = Some d -> exists s, v = JStr s /\ safe_date s = Some d.
Proof. destruct v; try discriminate. eauto. Qed.

(** Two parsed dates compare as datetimes the way their days compare. *)
Lemma parsed_le (a b : datetime) sa sb :
  safe_date sa = Some a -> safe_date sb = Some b ->
  datetime_le a b = true <-> toordinal (dt_date a) <= toordinal (dt_date b).
Proof.
  intros Ha Hb.
  apply safe_date_valid in Ha as [Hva Hma], Hb as [Hvb Hmb].
  rewrite <- (date_le_ordinal _ _ Hva Hvb).
  unfold datetime_le, datetime_cmp, date_le. rewrite Hma, Hmb.
  destruct (date_cmp (dt_date a) (dt_date b)); reflexivity.
Qed.

Lemma get_lookup (config : gmap string jvalue) key dflt v :
  get config key dflt = v ->
  v <> dflt -> config !! key = Some v.
Proof.
  unfold get. destruct (config !! key); intros <-; congruence.
Qed.

Lemma accepted (config : gmap string jvalue) (now : datetime) :
  validate_config config now = Return tt ->
  (exists width height,
      int_item config "resolution_width" = Some width
      /\ int_item config "resolution_height" = Some height
      /\ 800 <= width /\ 600 <= height)
  /\ (get config "mode" (JStr "life") = JStr "life" ->
      exists dob_str dob lifespan,
        config !! "dob" = Some (JStr dob_str)
        /\ safe_date dob_str = Some dob
        /\ datetime_le dob now = true
        /\ int_item config "lifespan" = Some lifespan
        /\ 1 <= lifespan <= 150)
  /\ (get config "mode" (JStr "life") = JStr "goal" ->
      exists start_str end_str title s e,
        config !! "goal_start" = Some (JStr start_str)
        /\ config !! "goal_end" = Some (JStr end_str)
        /\ config !! "goal_title" = Some (JStr title)
        /\ Str.strip title <> EmptyString
        /\ safe_date start_str = Some s
        /\ safe_date end_str = Some e
        /\ toordinal (dt_date s) < toordinal (dt_date e)).
Proof.
  unfold validate_config. cbv zeta.
  set (mode := get config "mode" (JStr "life")).
  intros H.
  destruct (int_item config "resolution_width") as [w|]; [|discriminate].
  destruct (int_item config "resolution_height") as [h|]; [|discriminate].
  destruct (Z.ltb_spec w 800); [discriminate|].
  destruct (Z.ltb_spec h 600); [discriminate|]. cbn [orb] in H.
  split; [exists w, h; auto|].
  destruct (eq_str mode "life") eqn:Hlife.
  + assert (Hm : mode = JStr "life").
    { destruct mode; try discriminate. cbn in Hlife.
      apply String.eqb_eq in Hlife. congruence. }
    split; [|rewrite Hm; discriminate]. intros _.
    destruct (truthy (get config "dob" (JStr EmptyString))) eqn:Ht;
      [|discriminate].
    cbn [negb] in H.
    destruct (safe_date_value _) as [d|] eqn:Hd; [|discriminate].
    destruct (datetime_gt d now) eqn:Hgt; [discriminate|].
    destruct (int_item config "lifespan") as [l|]; [|discriminate].
    destruct (Z.ltb_spec l 1); [discriminate|].
    destruct (Z.ltb_spec 150 l); [discriminate|].
    apply safe_date_value_str in Hd as (dob_str & Hv & Hs).
    exists dob_str, d, l.
    split.
    { apply get_lookup in Hv; [exact Hv|].
      intros [= ->]. discriminate. }
    split; [exact Hs|]. split.
    { unfold datetime_gt in Hgt. now apply negb_false_iff in Hgt. }
    split; [reflexivity | lia].
  + destruct (eq_str mode "goal") eqn:Hgoal.
    * assert (Hm : mode = JStr "goal").
      { destruct mode; try discriminate. cbn in Hgoal.
        apply String.eqb_eq in Hgoal. congruence. }
      split; [rewrite Hm; discriminate|]. intros _.
      destruct (truthy (get config "goal_start" (JStr EmptyString)));
        [|discriminate].
      destruct (truthy (get config "goal_end" (JStr EmptyString)));
        [|discriminate].
      cbn [negb orb] in H.
      destruct (strip_ (get config "goal_title" (JStr EmptyString)))
        as [stripped|] eqn:Hstrip; [|discriminate].
      destruct (Str.is_empty stripped) eqn:Hempty; [discriminate|].
      destruct (safe_date_value (get config "goal_start" _))
        as [s|] eqn:Hs; [|discriminate].
      destruct (safe_date_value (get config "goal_end" _))
        as [e|] eqn:He; [|discriminate].
      destruct (datetime_le e s) eqn:Hle; [discriminate|].
      apply safe_date_value_str in Hs as (start_str & Hvs & Hss).
      apply safe_date_value_str in He as (end_str & Hve & Hse).
      destruct (get config "goal_title" (JStr EmptyString))
        as [| | |title] eqn:Htitle; try discriminate.
      cbn in Hstrip. injection Hstrip as <-.
      exists start_str, end_str, title, s, e.
      split; [apply get_lookup in Hvs; [exact Hvs|];
              intros [= ->]; discriminate|].
      split; [apply get_lookup in Hve; [exact Hve|];
              intros [= ->]; discriminate|].
      split; [apply get_lookup in Htitle; [exact Htitle|];
              intros [= ->]; discriminate|].
      split; [intros Hnil; rewrite Hnil in Hempty; discriminate|].
      split; [exact Hss|]. split; [exact Hse|].
      destruct (Z_lt_le_dec (toordinal (dt_date s)) (toordinal (dt_date e)))
        as [|Hge]; [assumption|].
      apply (parsed_le e s _ _ Hse Hss) in Hge. congruence.
    * split; intros Hm; rewrite Hm in *; discriminate.
Qed.

Lemma accepts (config : gmap string jvalue) (now : datetime) :
  (exists width height,
      int_item config "resolution_width" = Some width
      /\ int_item config "resolution_height" = Some height
      /\ 800 <= width /\ 600 <= height)
  /\ (get config "mode" (JStr "life") = JStr "life" ->
      exists dob_str dob lifespan,
        config !! "dob" = Some (JStr dob_str)
        /\ safe_date dob_str = Some dob
        /\ datetime_le dob now = true
        /\ int_item config "lifespan" = Some lifespan
        /\ 1 <= lifespan <= 150)
  /\ (get config "mode" (JStr "life") = JStr "goal" ->
      exists start_str end_str title s e,
        config !! "goal_start" = Some (JStr start_str)
        /\ config !! "goal_end" = Some (JStr end_str)
        /\ config !! "goal_title" = Some (JStr title)
        /\ Str.strip title <> EmptyString
        /\ safe_date start_str = Some s
        /\ safe_date end_str = Some e
        /\ toordinal (dt_date s) < toordinal (dt_date e)) ->
  validate_config config now = Return tt.
Proof.
  unfold validate_config. cbv zeta.
  set (mode := get config "mode" (JStr "life")).
  intros ((w & h & Hw & Hh & Hw800 & Hh600) & Hlife & Hgoal).
  rewrite Hw, Hh.
  destruct (Z.ltb_spec w 800); [lia|].
  destruct (Z.ltb_spec h 600); [lia|]. cbn [orb].
  destruct (eq_str mode "life") eqn:Hl.
  + assert (Hm : mode = JStr "life").
    { destruct mode; try discriminate. cbn in Hl.
      apply String.eqb_eq in Hl. congruence. }
    destruct (Hlife Hm) as (dob_str & d & l & Hdob & Hs & Hle & Hlif & Hr).
    unfold get at 1 2. rewrite Hdob. cbn [truthy safe_date_value].
    rewrite (safe_date_nonempty _ _ Hs), Hs. cbn [negb].
    unfold datetime_gt. rewrite Hle, Hlif. cbn [negb].
    destruct (Z.ltb_spec l 1); [lia|].
    destruct (Z.ltb_spec 150 l); [lia|]. reflexivity.
  + destruct (eq_str mode "goal") eqn:Hg; [|reflexivity].
    assert (Hm : mode = JStr "goal").
    { destruct mode; try discriminate. cbn in Hg.
      apply String.eqb_eq in Hg. congruence. }
    destruct (Hgoal Hm)
      as (start_str & end_str & title & s & e
          & Hstart & Hend & Htitle & Hblank & Hs & He & Hlt).
    unfold get. rewrite Hstart, Hend, Htitle.
    cbn [truthy safe_date_value strip_].
    rewrite (safe_date_nonempty _ _ Hs), (safe_date_nonempty _ _ He).
    cbn [negb orb].
    destruct (Str.strip title) eqn:Hst; [congruence|]. cbn [Str.is_empty].
    rewrite Hs, He.
    destruct (datetime_le e s) eqn:Hle; [|reflexivity].
    apply (parsed_le e s _ _ He Hs) in Hle. lia.
Qed.


End ValidateFacts.

(** ** Generation *)

Module GenerateFacts.

Import PyDate DateFacts WallpaperEngine PyValue Engine.
Import OS SaveFacts ValidateFacts.

Lemma int_item_getitem (config : gmap string jvalue) key n :
  int_item config key = Some n ->
  obind (getitem config key) int_ = Return n.
Proof.
  unfold int_item, getitem. destruct (config !! key) as [v|]; [|discriminate].
  cbn [obind]. destruct (int_ v); congruence.
Qed.

Lemma datetime_le_date a b :
  datetime_le a b = true -> date_le (dt_date a) (dt_date b) = true.
Proof.
  unfold datetime_le, datetime_cmp, date_le.
  destruct (date_cmp (dt_date a) (dt_date b)); congruence.
Qed.

Lemma strip_nonempty title :
  Str.strip title <> EmptyString -> Str.is_empty title = false.
Proof. destruct title; [intros H; now contradiction H | reflexivity]. Qed.

Lemma known_mode_dispatch m :
  m = "life" \/ m = "year" \/ m = "goal" ->
  (String.eqb m "life" = true /\ m = "life")
  \/ (String.eqb m "life" = false /\ String.eqb m "year" = true /\ m = "year")
  \/ (String.eqb m "life" = false /\ String.eqb m "year" = false
      /\ String.eqb m "goal" = true /\ m = "goal").
Proof. intros [-> | [-> | ->]]; auto 10. Qed.

Section Generate.

Variable percentage : Z -> Z -> string.
Variable render : Z -> Z -> list call -> result string.

(** A validated configuration of a known mode, with a subtitle that is a
    string and a clock that does not run backwards, is taken up to the
    drawing: the data are in range and the layout is constructed. *)
Lemma prepare_runs (config : gmap string jvalue) (t : clock)
  (m : string) (w h : Z) :
  validate_config config (at_validate t) = Return tt ->
  config !! "mode" = Some (JStr m) ->
  m = "life" \/ m = "year" \/ m = "goal" ->
  (forall v, config !! "goal_subtitle" = Some v -> exists sub, v = JStr sub) ->
  int_item config "resolution_width" = Some w -> w < 2 ^ 51 ->
  int_item config "resolution_height" = Some h -> h < 2 ^ 51 ->
  valid (dt_date (at_validate t)) = true ->
  valid (dt_date (at_calculate t)) = true ->
  datetime_le (at_validate t) (at_calculate t) = true ->
  exists p stats,
    prepare percentage config t = Return p
    /\ width p = w /\ height p = h
    /\ calculate percentage (data p) (at_calculate t)
       = Ok (total_units p, filled_units p, stats)
    /\ 1 <= total_units p < 2 ^ 51
    /\ 0 <= filled_units p <= total_units p
    /\ GridLayout.init m (total_units p) w h = Ok (layout p)
    /\ In (draw_grid (layout p) (total_units p) (filled_units p)) (calls p).
Proof.
  intros Hval Hmode Hknown Hsub Hw Hwb Hh Hhb Hvv Hvc Hclock.
  pose proof (accepted _ _ Hval) as ((w' & h' & Hw' & Hh' & Hw800 & Hh600)
                                     & Hlife & Hgoal).
  rewrite Hw in Hw'. rewrite Hh in Hh'.
  injection Hw' as <-. injection Hh' as <-.
  assert (Hget : get config "mode" (JStr "life") = JStr m)
    by (unfold get; rewrite Hmode; reflexivity).
  rewrite Hget in Hlife, Hgoal.
  (* what remains once the calendar object is built *)
  assert (Hrest : forall calendar total filled stats,
             calculate percentage calendar (at_calculate t)
             = Ok (total, filled, stats) ->
             1 <= total < 2 ^ 51 -> 0 <= filled <= total ->
             exists p,
               obind (lift (calculate percentage calendar (at_calculate t)))
                 (fun '(total_units, filled_units, stats_text) =>
                    obind (lift (GridLayout.init m total_units w h))
                      (fun layout =>
                         let start_y := GridLayout.start_y layout in
                         let title :=
                           draw_title (get_title calendar (at_title t))
                                      (start_y - 110) in
                         let subtitle := get_subtitle calendar in
                         let texts :=
                           if negb (Str.is_empty subtitle)
                           then [draw_subtitle subtitle (start_y - 75);
                                 draw_stats stats_text (start_y - 45)]
                           else [draw_stats stats_text (start_y - 65)] in
                         Return
                           (mkplan w h calendar total_units filled_units
                              layout
                              (title :: texts
                               ++ [draw_grid layout total_units filled_units;
                                   draw_legend (get_legend calendar)
                                     (start_y + GridLayout.grid_height layout
                                      + 50)]))))
               = Return p
               /\ width p = w /\ height p = h
               /\ data p = calendar
               /\ total_units p = total /\ filled_units p = filled
               /\ GridLayout.init m total w h = Ok (layout p)
               /\ In (draw_grid (layout p) total filled) (calls p)).
  { intros calendar total filled stats Hcalc Ht Hf.
    rewrite Hcalc. cbn [lift obind].
    destruct (GridFacts.init_fields m total w h) as (L & HL & _);
      [lia | lia | lia |].
    rewrite HL. cbn [lift obind].
    eexists. split; [reflexivity|]. cbn [width height data total_units
                                          filled_units layout calls].
    repeat split; try reflexivity; try exact HL.
    right. apply in_or_app. right. left. reflexivity. }
  unfold prepare. rewrite Hval. cbn [obind].
  unfold getitem at 1. rewrite Hmode. cbn [obind].
  rewrite (int_item_getitem _ _ _ Hw). cbn [obind].
  rewrite (int_item_getitem _ _ _ Hh). cbn [obind].
  destruct (known_mode_dispatch m Hknown)
    as [[E1 ->] | [(E1 & E2 & ->) | (E1 & E2 & E3 & ->)]].
  - (* life *)
    rewrite E1.
    destruct (Hlife eq_refl) as (dob_str & d & l & Hdob & Hs & Hle & Hl & Hr).
    unfold getitem at 1. rewrite Hdob. cbn [obind].
    rewrite (int_item_getitem _ _ _ Hl). cbn [obind].
    unfold life_init. rewrite (LifeFacts.init_ok _ _ _ Hs). cbn [lift obind].
    rewrite LifeFacts.clamp_id by exact Hr.
    pose proof (safe_date_valid _ _ Hs) as [Hvd _].
    assert (Hdle : date_le (dt_date d) (dt_date (at_calculate t)) = true).
    { apply datetime_le_date in Hle, Hclock.
      apply (date_le_ordinal _ _ Hvd Hvv) in Hle.
      apply (date_le_ordinal _ _ Hvv Hvc) in Hclock.
      apply (date_le_ordinal _ _ Hvd Hvc). lia. }
    apply (LifeFacts.days_lived_nonneg _ _ Hvd Hvc) in Hdle.
    pose proof (LifeFacts.total_weeks_lower l ltac:(lia)) as Hlow.
    assert (Hup : l * 3652425 / 70000 < 7827)
      by (apply Z.div_lt_upper_bound; lia).
    destruct (Hrest (Life (LifeCalendarData.mk d l))
                (l * 3652425 / 70000)
                (Z.min (days_between (dt_date (at_calculate t)) (dt_date d) / 7)
                       (l * 3652425 / 70000))
                ("Weeks Lived: "
                 +:+ pretty (Z.min (days_between (dt_date (at_calculate t))
                                      (dt_date d) / 7)
                               (l * 3652425 / 70000))
                 +:+ " | Remaining: "
                 +:+ pretty (l * 3652425 / 70000
                             - Z.min (days_between (dt_date (at_calculate t))
                                        (dt_date d) / 7)
                                 (l * 3652425 / 70000))
                 +:+ " | Total: " +:+ pretty (l * 3652425 / 70000)))
      as (p & Hp & Hpw & Hph & Hpd & Hpt & Hpf & Hpl & Hpc).
    { unfold calculate. rewrite LifeFacts.calculate_eq by (cbn; exact Hr).
      reflexivity. }
    { change (2 ^ 51) with 2251799813685248. lia. }
    { cbn [LifeCalendarData.dob] in *. lia. }
    exists p. eexists. split; [exact Hp|].
    rewrite Hpd, Hpt, Hpf.
    split; [exact Hpw|]. split; [exact Hph|].
    split.
    { unfold calculate. rewrite LifeFacts.calculate_eq by (cbn; exact Hr).
      reflexivity. }
    cbn [LifeCalendarData.dob] in *.
    change (2 ^ 51) with 2251799813685248.
    repeat split; try assumption; lia.
  - (* year *)
    rewrite E1, E2.
    pose proof (ProgressFacts.year_calculate_eq _ Hvc) as Hy. cbv zeta in Hy.
    pose proof (day_of_year_bounds _ Hvc) as Hb.
    pose proof (year_length_pos (year (dt_date (at_calculate t)))) as Hyl.
    destruct (Hrest Year _ _ _ ltac:(unfold calculate; rewrite Hy; reflexivity))
      as (p & Hp & Hpw & Hph & Hpd & Hpt & Hpf & Hpl & Hpc).
    { change (2 ^ 51) with 2251799813685248. lia. }
    { lia. }
    exists p. eexists. split; [exact Hp|].
    rewrite Hpd, Hpt, Hpf.
    split; [exact Hpw|]. split; [exact Hph|].
    split; [unfold calculate; rewrite Hy; reflexivity|].
    change (2 ^ 51) with 2251799813685248.
    repeat split; try assumption; lia.
  - (* goal *)
    rewrite E1, E2, E3.
    destruct (Hgoal eq_refl)
      as (start_str & end_str & title & s & e
          & Hstart & Hend & Htitle & Hblank & Hs & He & Hlt).
    unfold getitem at 1. rewrite Hstart. cbn [obind].
    unfold getitem at 1. rewrite Hend. cbn [obind].
    unfold goal_init. cbn [safe_date_value]. rewrite Hs, He.
    assert (Hgt : get config "goal_title" (JStr EmptyString) = JStr title)
      by (unfold get; rewrite Htitle; reflexivity).
    rewrite Hgt. cbn [truthy strip_].
    rewrite (strip_nonempty _ Hblank). cbn [negb obind].
    assert (Hsubtitle : exists sub,
               get config "goal_subtitle" (JStr EmptyString) = JStr sub).
    { unfold get. destruct (config !! "goal_subtitle") as [v|] eqn:Hv; eauto. }
    destruct Hsubtitle as [sub Hsubtitle]. rewrite Hsubtitle.
    cbn [strip_ obind].
    pose proof (safe_date_valid _ _ Hs) as [Hvs _].
    pose proof (safe_date_valid _ _ He) as [Hve _].
    assert (Hmid : datetime_le (midnight e) (midnight s) = false).
    { apply not_true_is_false. intros Hmid.
      apply (GoalFacts.midnight_le s e Hvs Hve) in Hmid. lia. }
    rewrite Hmid. cbn [obind].
    pose proof (ProgressFacts.goal_calculate_cases s e (at_calculate t)
                  Hvs Hve Hvc Hlt) as Hcalc. cbv zeta in Hcalc.
    pose proof (ProgressFacts.toordinal_range _ Hvs).
    pose proof (ProgressFacts.toordinal_range _ Hve).
    destruct (Hrest (Goal (GoalCalendarData.mk (midnight s) (midnight e))
                       (Str.strip title) (Str.strip sub)) _ _ _
                ltac:(unfold calculate; rewrite Hcalc; reflexivity))
      as (p & Hp & Hpw & Hph & Hpd & Hpt & Hpf & Hpl & Hpc).
    { change (2 ^ 51) with 2251799813685248. lia. }
    { lia. }
    exists p. eexists. split; [exact Hp|].
    rewrite Hpd, Hpt, Hpf.
    split; [exact Hpw|]. split; [exact Hph|].
    split; [unfold calculate; rewrite Hcalc; reflexivity|].
    change (2 ^ 51) with 2251799813685248.
    repeat split; try assumption; lia.
Qed.

(** X17. A configuration that passed [validate_config], in one of the
    three modes, reaches the drawing stage with sound data: the total is
    at least 1, the filled units lie between 0 and the total, the grid
    layout is constructed for exactly these units, and [draw_grid] is
    called with them. *)
Theorem validated_run_data (config : gmap string jvalue) (t : clock)
  (m : string) (w h : Z) :
  validate_config config (at_validate t) = Return tt ->
  config !! "mode" = Some (JStr m) ->
  m = "life" \/ m = "year" \/ m = "goal" ->
  (forall v, config !! "goal_subtitle" = Some v -> exists sub, v = JStr sub) ->
  int_item config "resolution_width" = Some w -> w < 2 ^ 51 ->
  int_item config "resolution_height" = Some h -> h < 2 ^ 51 ->
  valid (dt_date (at_validate t)) = true ->
  valid (dt_date (at_calculate t)) = true ->
  datetime_le (at_validate t) (at_calculate t) = true ->
  exists p,
    prepare percentage config t = Return p
    /\ 1 <= total_units p
    /\ 0 <= filled_units p <= total_units p
    /\ GridLayout.init m (total_units p) w h = Ok (layout p)
    /\ In (draw_grid (layout p) (total_units p) (filled_units p)) (calls p).
Proof.
  intros Hval Hmode Hknown Hsub Hw Hwb Hh Hhb Hvv Hvc Hclock.
  destruct (prepare_runs config t m w h Hval Hmode Hknown Hsub Hw Hwb Hh Hhb
              Hvv Hvc Hclock)
    as (p & stats & Hp & _ & _ & _ & Ht & Hf & HL & Hc).
  exists p. repeat split; try assumption; lia.
Qed.





End Generate.

End GenerateFacts.

(** ** Examples of runs *)

Module RunExamples.

Import WallpaperEngine PyValue Engine GenerateFacts Runs.

Lemma validated_run_data_witness :
  exists p,
    prepare percent_stub Scenario.goal_config july_first = Return p
    /\ 1 <= total_units p
    /\ 0 <= filled_units p <= total_units p
    /\ GridLayout.init "goal" (total_units p) 2560 1440 = Ok (layout p)
    /\ In (draw_grid (layout p) (total_units p) (filled_units p)) (calls p).
Proof.
  apply (validated_run_data percent_stub Scenario.goal_config july_first
           "goal" 2560 1440);
    try (vm_compute; reflexivity).
  - right. right. reflexivity.
  - intros v. vm_compute. intros [= <-]. eexists. reflexivity.
Defined.



End RunExamples.

(** ** Text helpers *)

Module StrFacts.

Import Lock IntTextFacts.

(** [lstrip] drops a run of white space and nothing else. *)
Lemma lstrip_suffix l :
  exists pre, l = pre ++ lstrip l
              /\ match lstrip l with
                 | c :: _ => is_space c = false
                 | [] => True
                 end.
Proof.
  induction l as [|c l (pre & Hl & Hh)]; [exists []; split; [reflexivity | exact I]|].
  cbn [lstrip]. destruct (is_space c) eqn:Hc.
  - exists (c :: pre). split; [cbn; congruence | exact Hh].
  - exists []. split; [reflexivity | exact Hc].
Qed.

Lemma head_rev_app {A} (pre l : list A) a r :
  rev l = a :: r -> exists r', rev (pre ++ l) = a :: r'.
Proof. intros H. rewrite rev_app_distr, H. cbn. eauto. Qed.

(** Stripped text neither starts nor ends with white space. *)
Lemma strip_ends l :
  match strip l with c :: _ => is_space c = false | [] => True end
  /\ match rev (strip l) with c :: _ => is_space c = false | [] => True end.
Proof.
  unfold strip.
  destruct (lstrip_suffix l) as (pre1 & H1 & Hh1).
  destruct (lstrip_suffix (rev (lstrip l))) as (pre2 & H2 & Hh2).
  set (a := lstrip l) in *. set (b := lstrip (rev a)) in *.
  split; [|rewrite rev_involutive; exact Hh2].
  destruct (rev b) as [|c r] eqn:Hb; [exact I|].
  destruct (head_rev_app pre2 b c r Hb) as [r' Hr'].
  rewrite <- H2, rev_involutive in Hr'.
  rewrite Hr' in Hh1. exact Hh1.
Qed.

Lemma strip_idempotent l : strip (strip l) = strip l.
Proof. destruct (strip_ends l). now apply strip_id. Qed.

Lemma Str_strip_idempotent s : Str.strip (Str.strip s) = Str.strip s.
Proof.
  unfold Str.strip.
  rewrite String.list_ascii_of_string_of_list_ascii, strip_idempotent.
  reflexivity.
Qed.

End StrFacts.

(** ** The configuration form and the engine *)

Module FormFacts.

Import PyDate DateFacts WallpaperEngine PyValue Engine GUI.
Import ValidateFacts StrFacts.

Lemma sync_resolution_true ui (config config' : gmap string jvalue) :
  sync_resolution ui config = (config', Ok true) ->
  exists width height,
    config' = <["resolution_height" := JInt height]>
                (<["resolution_width" := JInt width]> config)
    /\ 800 <= width /\ 600 <= height.
Proof.
  unfold sync_resolution. cbv zeta.
  destruct (Z.ltb_spec (safe_int (width_entry ui) 1920) 800);
    [intros [= _ ?]; discriminate|].
  destruct (Z.ltb_spec (safe_int (height_entry ui) 1080) 600);
    [intros [= _ ?]; discriminate|].
  cbn [orb]. intros [= <-]. eauto.
Qed.

(** What the resolution part leaves of a configuration. *)
Lemma resolution_frame (config : gmap string jvalue) width height :
  let config' := <["resolution_height" := JInt height]>
                   (<["resolution_width" := JInt width]> config) in
  int_item config' "resolution_width" = Some width
  /\ int_item config' "resolution_height" = Some height
  /\ (forall k, k <> "resolution_width" -> k <> "resolution_height" ->
        config' !! k = config !! k).
Proof.
  cbv zeta. unfold int_item. split; [|split].
  - rewrite lookup_insert_ne, lookup_insert_eq by discriminate. reflexivity.
  - rewrite lookup_insert_eq. reflexivity.
  - intros k H1 H2. rewrite !lookup_insert_ne by congruence. reflexivity.
Qed.

(** X21. A form that [_sync_config_from_ui] accepts leaves a
    configuration that [validate_config] accepts too, with one
    exception: the form does not compare the date of birth with today,
    so in life mode the date of birth must not lie in the future. *)
Theorem synced_form_validates (ui : form)
  (config config' : gmap string jvalue) (now : datetime) :
  _sync_config_from_ui ui config = (config', Ok true) ->
  (mode_var ui = "life" ->
   forall dob, safe_date (Str.strip (dob_entry ui)) = Some dob ->
               datetime_le dob now = true) ->
  validate_config config' now = Return tt.
Proof.
  unfold _sync_config_from_ui. cbv zeta. intros Hsync Hdob.
  apply accepts.
  destruct (String.eqb (mode_var ui) "life") eqn:Hlife.
  - apply String.eqb_eq in Hlife.
    destruct (Str.is_empty (Str.strip (dob_entry ui))); [discriminate|].
    destruct (safe_date (Str.strip (dob_entry ui))) as [d|] eqn:Hd;
      [|discriminate].
    destruct (Str.is_empty (Str.strip (lifespan_entry ui))); [discriminate|].
    destruct (Str.isdigit (Str.strip (lifespan_entry ui))); [|discriminate].
    cbn [negb orb] in Hsync.
    destruct (Lock.py_int (Str.strip (lifespan_entry ui))) as [l|]; [|discriminate].
    destruct (Z.ltb_spec l 1); [discriminate|].
    destruct (Z.ltb_spec 150 l); [discriminate|]. cbn [orb] in Hsync.
    apply sync_resolution_true in Hsync as (w & h & -> & Hw & Hh).
    destruct (resolution_frame
                (<["lifespan" := JInt l]>
                   (<["dob" := JStr (Str.strip (dob_entry ui))]>
                      (<["mode" := JStr (mode_var ui)]> config))) w h)
      as (Hrw & Hrh & Hframe).
    cbv zeta in Hrw, Hrh, Hframe.
    split; [exists w, h; auto|].
    assert (Hmode : get (<["resolution_height" := JInt h]>
                           (<["resolution_width" := JInt w]>
                              (<["lifespan" := JInt l]>
                                 (<["dob" := JStr (Str.strip (dob_entry ui))]>
                                    (<["mode" := JStr (mode_var ui)]> config)))))
                      "mode" (JStr "life") = JStr "life").
    { unfold get. rewrite Hframe by discriminate.
      rewrite !lookup_insert_ne, lookup_insert_eq by discriminate.
      rewrite Hlife. reflexivity. }
    rewrite Hmode. split; [|discriminate]. intros _.
    exists (Str.strip (dob_entry ui)), d, l.
    split.
    { rewrite Hframe by discriminate.
      rewrite lookup_insert_ne, lookup_insert_eq by discriminate. reflexivity. }
    split; [exact Hd|]. split; [apply (Hdob Hlife d eq_refl)|].
    split; [|lia].
    unfold int_item. rewrite Hframe by discriminate.
    rewrite lookup_insert_eq. reflexivity.
  - destruct (String.eqb (mode_var ui) "goal") eqn:Hgoal.
    + apply String.eqb_eq in Hgoal.
      destruct (Str.is_empty (Str.strip (goal_title_entry ui))) eqn:Htitle;
        [discriminate|].
      destruct (Str.is_empty (Str.strip (goal_start_entry ui)));
        [discriminate|].
      destruct (Str.is_empty (Str.strip (goal_end_entry ui)));
        [discriminate|].
      cbn [orb] in Hsync.
      destruct (safe_date (Str.strip (goal_start_entry ui))) as [s|] eqn:Hs;
        [|discriminate].
      destruct (safe_date (Str.strip (goal_end_entry ui))) as [e|] eqn:He;
        [|discriminate].
      destruct (datetime_le e s) eqn:Hle; [discriminate|].
      apply sync_resolution_true in Hsync as (w & h & -> & Hw & Hh).
      match goal with
      | |- context [<["resolution_width" := JInt w]> ?c] =>
          destruct (resolution_frame c w h) as (Hrw & Hrh & Hframe)
      end.
      cbv zeta in Hrw, Hrh, Hframe.
      split; [exists w, h; auto|].
      unfold get. rewrite (Hframe "mode") by discriminate.
      rewrite !lookup_insert_ne, lookup_insert_eq by discriminate.
      rewrite Hgoal. split; [discriminate|]. intros _.
      exists (Str.strip (goal_start_entry ui)),
        (Str.strip (goal_end_entry ui)),
        (Str.strip (goal_title_entry ui)), s, e.
      split; [repeat (rewrite lookup_insert_ne by discriminate);
              apply lookup_insert_eq|].
      split; [repeat (rewrite lookup_insert_ne by discriminate);
              apply lookup_insert_eq|].
      split; [repeat (rewrite lookup_insert_ne by discriminate);
              apply lookup_insert_eq|].
      split.
      { rewrite Str_strip_idempotent. intros Hnil.
        rewrite Hnil in Htitle. discriminate. }
      split; [exact Hs|]. split; [exact He|].
      destruct (Z_lt_le_dec (toordinal (dt_date s)) (toordinal (dt_date e)))
        as [|Hge]; [assumption|].
      apply (parsed_le e s _ _ He Hs) in Hge. congruence.
    + apply sync_resolution_true in Hsync as (w & h & -> & Hw & Hh).
      match goal with
      | |- context [<["resolution_width" := JInt w]> ?c] =>
          destruct (resolution_frame c w h) as (Hrw & Hrh & Hframe)
      end.
      cbv zeta in Hrw, Hrh, Hframe.
      split; [exists w, h; auto|].
      unfold get. rewrite (Hframe "mode") by discriminate.
      rewrite lookup_insert_eq.
      apply String.eqb_neq in Hlife, Hgoal.
      split; intros [= Hm]; congruence.
Qed.

Lemma synced_form_validates_witness :
  validate_config
    (fst (_sync_config_from_ui Forms.life_form DEFAULT_CONFIG))
    Scenario.mid_2024 = Return tt.
Proof.
  apply (synced_form_validates Forms.life_form DEFAULT_CONFIG).
  - vm_compute. reflexivity.
  - intros _ dob. vm_compute. intros [= <-]. reflexivity.
Defined.

(** *** Presets *)

Lemma find_preset_cases presets cw ch dflt :
  match find_preset presets cw ch dflt with
  | Return name =>
      (exists pw ph, In (name, Some (pw, ph)) presets
                     /\ eq_int cw pw = true /\ eq_int ch ph = true)
      \/ (name = dflt /\ forall n r, In (n, r) presets ->
                                    exists pw ph, r = Some (pw, ph))
  | Raised e =>
      e = TypeError /\ exists n, In (n, None) presets
  end.
Proof.
  induction presets as [|[name [[pw ph]|]] rest IH]; cbn [find_preset].
  - right. split; [reflexivity|]. intros n r [].
  - destruct (eq_int cw pw && eq_int ch ph) eqn:Hm.
    + apply andb_true_iff in Hm as [H1 H2].
      left. exists pw, ph. split; [left; reflexivity | auto].
    + destruct (find_preset rest cw ch dflt) as [n|e].
      * destruct IH as [(pw' & ph' & Hin & H1 & H2) | [-> Hall]].
        -- left. exists pw', ph'. split; [right; exact Hin | auto].
        -- right. split; [reflexivity|]. intros n r [[= <- <-] | Hin]; eauto.
      * destruct IH as [-> [n Hn]]. split; [reflexivity|].
        exists n. right. exact Hn.
  - split; [reflexivity|]. exists name. left. reflexivity.
Qed.

(** X22. The preset shown for a configured resolution: when the
    resolution is one of the five fixed presets, the search returns that
    preset's name; for any other resolution the loop reaches the entry
    [Auto-detect], whose value [None] cannot be unpacked, and raises
    [TypeError]. It never settles on [Custom]. *)
Theorem current_preset_cases (config : gmap string jvalue) :
  let cw := get config "resolution_width" (JInt 1920) in
  let ch := get config "resolution_height" (JInt 1080) in
  (forall name pw ph,
      In (name, Some (pw, ph)) RESOLUTION_PRESETS ->
      eq_int cw pw = true -> eq_int ch ph = true ->
      current_preset config = Return name)
  /\ ((forall name pw ph,
         In (name, Some (pw, ph)) RESOLUTION_PRESETS ->
         eq_int cw pw && eq_int ch ph = false) ->
      current_preset config = Raised TypeError)
  /\ current_preset config <> Return "Custom".
Proof.
  cbv zeta. unfold current_preset.
  set (cw := get config "resolution_width" (JInt 1920)).
  set (ch := get config "resolution_height" (JInt 1080)).
  assert (Hmiss : (forall name pw ph,
                      In (name, Some (pw, ph)) RESOLUTION_PRESETS ->
                      eq_int cw pw && eq_int ch ph = false) ->
                  find_preset RESOLUTION_PRESETS cw ch "Custom"
                  = Raised TypeError).
  { intros Hnone. unfold RESOLUTION_PRESETS in *. cbn [find_preset].
    rewrite (Hnone "1920x1080 (Full HD)" 1920 1080) by (cbn; auto 10).
    rewrite (Hnone "2560x1440 (2K QHD)" 2560 1440) by (cbn; auto 10).
    rewrite (Hnone "3840x2160 (4K UHD)" 3840 2160) by (cbn; auto 10).
    rewrite (Hnone "1366x768 (HD)" 1366 768) by (cbn; auto 10).
    rewrite (Hnone "1280x720 (720p)" 1280 720) by (cbn; auto 10).
    reflexivity. }
  split; [|split; [exact Hmiss|]].
  - intros name pw ph Hin Hw Hh.
    assert (Hint : forall v a b, eq_int v a = true -> eq_int v b = true ->
                                 a = b).
    { intros v a b H1 H2. destruct v as [|bb|k|s]; unfold eq_int in *;
        try discriminate; apply Z.eqb_eq in H1, H2; congruence. }
    unfold RESOLUTION_PRESETS in *. cbn [find_preset].
    cbn [In] in Hin.
    repeat match type of Hin with
           | _ \/ _ => destruct Hin as [Hin | Hin]
           end;
      try discriminate; try contradiction;
      injection Hin as <- <- <-;
      repeat match goal with
             | |- (if eq_int cw ?a && eq_int ch ?b then _ else _) = _ =>
                 first
                   [ rewrite Hw, Hh; reflexivity
                   | let E := fresh in
                     destruct (eq_int cw a && eq_int ch b) eqn:E;
                     [ apply andb_true_iff in E as [E1 E2];
                       pose proof (Hint _ _ _ Hw E1);
                       pose proof (Hint _ _ _ Hh E2); lia
                     | ] ]
             end.
  - pose proof (find_preset_cases RESOLUTION_PRESETS cw ch "Custom") as Hc.
    destruct (find_preset RESOLUTION_PRESETS cw ch "Custom") as [name|e];
      [|discriminate].
    intros [= ->].
    destruct Hc as [(pw & ph & Hin & _) | [_ Hall]].
    + unfold RESOLUTION_PRESETS in Hin. cbn [In] in Hin.
      repeat match type of Hin with
             | _ \/ _ => destruct Hin as [Hin | Hin]
             end; try discriminate; contradiction.
    + destruct (Hall "Auto-detect" None) as (pw & ph & Hx);
        [cbn; auto 10 | discriminate].
Qed.

Example custom_resolution_breaks_the_form :
  current_preset
    (<["resolution_height" := JInt 900]>
       (<["resolution_width" := JInt 1600]> DEFAULT_CONFIG))
  = Raised TypeError.
Proof. vm_compute. reflexivity. Qed.

End FormFacts.

(** ** The configuration as the form loads it *)

Module FormConfigFacts.

Import OS WallpaperEngine PyValue GUI SaveFacts.

Lemma defaults_agree : _default_config = DEFAULT_CONFIG.
Proof. vm_compute. reflexivity. Qed.

(** X23. Where the engine raises, the form falls back: a missing
    configuration file, and a file that is not valid JSON, both load as
    the default configuration, which is the engine's [DEFAULT_CONFIG]. *)
Theorem form_load_config_fallback
  (json_load : string -> result (gmap string jvalue))
  (fs : gmap string string) (config_file : string) :
  (fs !! config_file = None ->
   GUI.load_config json_load fs config_file = Return DEFAULT_CONFIG
   /\ WallpaperEngine.load_config json_load fs config_file
      = Raise FileNotFoundError)
  /\ (forall text,
        fs !! config_file = Some text ->
        json_load text = Raise JSONDecodeError ->
        GUI.load_config json_load fs config_file = Return DEFAULT_CONFIG
        /\ WallpaperEngine.load_config json_load fs config_file
           = Raise ValueError).
Proof.
  split.
  - intros Hnone. unfold GUI.load_config, WallpaperEngine.load_config.
    rewrite (proj2 (path_exists_false fs config_file)) by exact Hnone.
    rewrite defaults_agree. split; reflexivity.
  - intros text Hsome Hbad.
    unfold GUI.load_config, WallpaperEngine.load_config, read_file.
    rewrite (proj2 (path_exists_true fs config_file)) by (rewrite Hsome; eauto).
    rewrite Hsome. cbn [rbind]. rewrite Hbad, defaults_agree.
    split; reflexivity.
Qed.

Lemma form_load_config_fallback_witness :
  GUI.load_config MiniJson.load ∅ "life_calendar_config.json"
  = Return DEFAULT_CONFIG
  /\ WallpaperEngine.load_config MiniJson.load ∅ "life_calendar_config.json"
     = Raise FileNotFoundError.
Proof.
  apply (form_load_config_fallback MiniJson.load ∅
           "life_calendar_config.json").
  reflexivity.
Defined.

(** X24. The form and the engine read a configuration file alike when
    the file carries an integer [config_version] of at least 2; a lower
    integer version is raised to 2 by the form, a version that is a
    string or [None] makes the form's [load_config] raise [TypeError],
    and a file without the key gets the default version 2. *)
Theorem form_load_config_version
  (json_load : string -> result (gmap string jvalue))
  (fs : gmap string string) (config_file text : string)
  (loaded : gmap string jvalue) :
  fs !! config_file = Some text ->
  json_load text = Ok loaded ->
  let merged := loaded ∪ DEFAULT_CONFIG in
  WallpaperEngine.load_config json_load fs config_file = Ok merged
  /\ (loaded !! "config_version" = None ->
      GUI.load_config json_load fs config_file = Return merged)
  /\ (forall n, loaded !! "config_version" = Some (JInt n) ->
        GUI.load_config json_load fs config_file
        = Return (if n <? 2 then <["config_version" := JInt 2]> merged
                  else merged))
  /\ (forall v, loaded !! "config_version" = Some v ->
        (v = JNull \/ exists s, v = JStr s) ->
        GUI.load_config json_load fs config_file = Raised TypeError).
Proof.
  intros Hsome Hok. cbv zeta.
  assert (Hengine : WallpaperEngine.load_config json_load fs config_file
                    = Ok (loaded ∪ DEFAULT_CONFIG)).
  { unfold WallpaperEngine.load_config, read_file.
    rewrite (proj2 (path_exists_true fs config_file)) by (rewrite Hsome; eauto).
    rewrite Hsome. cbn [rbind]. rewrite Hok. reflexivity. }
  assert (Hform : GUI.load_config json_load fs config_file
                  = obind (lt_2 (get (loaded ∪ DEFAULT_CONFIG)
                                     "config_version" (JInt 1)))
                      (fun old =>
                         if old
                         then Return (<["config_version" := JInt 2]>
                                        (loaded ∪ DEFAULT_CONFIG))
                         else Return (loaded ∪ DEFAULT_CONFIG))).
  { unfold GUI.load_config, read_file.
    rewrite (proj2 (path_exists_true fs config_file)) by (rewrite Hsome; eauto).
    rewrite Hsome. cbn [rbind]. rewrite Hok, defaults_agree. reflexivity. }
  split; [exact Hengine|]. rewrite Hform. unfold get.
  split; [|split].
  - intros Hnone. rewrite (lookup_union_r _ _ _ Hnone). reflexivity.
  - intros n Hn. rewrite (lookup_union_Some_l _ _ _ _ Hn). cbn [lt_2 obind].
    destruct (n <? 2); reflexivity.
  - intros v Hv Hbad. rewrite (lookup_union_Some_l _ _ _ _ Hv).
    destruct Hbad as [-> | [s ->]]; reflexivity.
Qed.

Lemma form_load_config_version_witness :
  let fs : gmap string string :=
    {[ "life_calendar_config.json"
       := MiniJson.dump {[ "config_version" := JInt 1 ]} ]} in
  let merged :=
    ({[ "config_version" := JInt 1 ]} : gmap string jvalue) ∪ DEFAULT_CONFIG in
  WallpaperEngine.load_config MiniJson.load fs "life_calendar_config.json"
  = Ok merged
  /\ GUI.load_config MiniJson.load fs "life_calendar_config.json"
     = Return (<["config_version" := JInt 2]> merged).
Proof.
  cbv zeta.
  destruct (form_load_config_version MiniJson.load
              {[ "life_calendar_config.json"
                 := MiniJson.dump {[ "config_version" := JInt 1 ]} ]}
              "life_calendar_config.json"
              (MiniJson.dump {[ "config_version" := JInt 1 ]})
              {[ "config_version" := JInt 1 ]})
    as (He & _ & Hn & _); [vm_compute; reflexivity | vm_compute; reflexivity|].
  split; [exact He|].
  apply (Hn 1). reflexivity.
Defined.

End FormConfigFacts.

(** ** The scheduler entry point *)

Module AutoUpdateFacts.

Import OS WallpaperEngine AutoUpdate SaveFacts.


Section Main.

Variable json_load : string -> result (gmap string jvalue).
Variable run_auto :
  gmap string jvalue -> gmap string string -> gmap string string * bool.

(** X26. The exit code of the scheduler entry point is 0 or 1, and it is 0
    exactly when the working directory could be entered, the engine
    could be imported, the configuration file exists and loads, and
    [run_auto] returned [True]. *)
Theorem main_exit_code (e : env) (fs : gmap string string) :
  (snd (main json_load run_auto e fs) = 0
   \/ snd (main json_load run_auto e fs) = 1)
  /\ (snd (main json_load run_auto e fs) = 0
      <->
      (exists u, chdir e = Ok u)
      /\ import_engine e = true
      /\ is_Some (fs !! CONFIG_FILE)
      /\ exists config,
          load_config json_load fs CONFIG_FILE = Ok config
          /\ snd (run_auto config fs) = true).
Proof.
  unfold main.
  destruct (chdir e) as [u|ex].
  2:{ cbn [snd]. split; [right; reflexivity|].
      split; [discriminate | intros ([u Hu] & _); discriminate]. }
  destruct (import_engine e).
  2:{ cbn [negb snd]. split; [right; reflexivity|].
      split; [discriminate | intros (_ & H & _); discriminate]. }
  cbn [negb].
  destruct (path_exists fs CONFIG_FILE) eqn:Hex.
  2:{ cbn [negb snd]. split; [right; reflexivity|].
      split; [discriminate|]. intros (_ & _ & Hsome & _).
      apply path_exists_true in Hsome. congruence. }
  cbn [negb]. apply path_exists_true in Hex.
  destruct (load_config json_load fs CONFIG_FILE) as [config|ex].
  2:{ cbn [snd]. split; [right; reflexivity|].
      split; [discriminate | intros (_ & _ & _ & c & Hc & _); discriminate]. }
  destruct (run_auto config fs) as [fs1 [|]] eqn:Hrun; cbn [snd].
  - split; [left; reflexivity|]. split; [|reflexivity].
    intros _. split; [eauto|]. split; [reflexivity|]. split; [exact Hex|].
    exists config. rewrite Hrun. split; reflexivity.
  - split; [right; reflexivity|]. split; [discriminate|].
    intros (_ & _ & _ & c & [= <-] & Hc). rewrite Hrun in Hc. discriminate.
Qed.


End Main.

Example corrupt_configuration_is_silent :
  main MiniJson.load (fun _ fs => (fs, true))
    (mkenv (Ok tt) true None (fun _ => false)) {[ CONFIG_FILE := "{oops" ]}
  = ({[ CONFIG_FILE := "{oops" ]}, 1).
Proof. vm_compute. reflexivity. Qed.

End AutoUpdateFacts.

(** ** The uninstaller *)

Module UninstallFacts.

Import OS Uninstall SaveFacts.

Lemma remove_file_spec locked (fs : gmap string string) file :
  remove_file locked fs file
  = (if locked file then fs else delete file fs,
     negb (path_exists fs file && locked file)).
Proof.
  unfold remove_file. destruct (path_exists fs file) eqn:He.
  - destruct (locked file); reflexivity.
  - apply path_exists_false in He. rewrite delete_id by exact He.
    destruct (locked file); reflexivity.
Qed.

(** Removing a list of files: the unlocked ones are gone, everything
    else stays, and the result tells whether a locked one was met. *)
Lemma remove_all_fold locked files : forall (fs : gmap string string) ok,
  let '(fs', ok') :=
    fold_left
      (fun '(fs, success) file =>
         let '(fs', removed) := remove_file locked fs file in
         (fs', removed && success))
      files (fs, ok) in
  (forall name,
      fs' !! name = if existsb (String.eqb name) files && negb (locked name)
                    then None else fs !! name)
  /\ (ok' = true <->
      ok = true
      /\ forall name, In name files -> is_Some (fs !! name) ->
                      locked name = false).
Proof.
  induction files as [|file files IH]; intros fs ok.
  - cbn [fold_left]. split; [intros name; reflexivity|].
    split; [intros ->; split; [reflexivity | intros name []] | tauto].
  - cbn [fold_left]. rewrite remove_file_spec.
    set (fs1 := if locked file then fs else delete file fs).
    assert (Hne : forall name, name <> file -> fs1 !! name = fs !! name).
    { intros name Hn. unfold fs1. destruct (locked file); [reflexivity|].
      apply lookup_delete_ne. congruence. }
    assert (Hsub : forall name, is_Some (fs1 !! name) -> is_Some (fs !! name)).
    { intros name. unfold fs1. destruct (locked file); [tauto|].
      destruct (decide (name = file)) as [-> | Hn].
      - rewrite lookup_delete_eq. intros [c Hc]. discriminate.
      - rewrite lookup_delete_ne by congruence. tauto. }
    specialize (IH fs1 (negb (path_exists fs file && locked file) && ok)).
    destruct (fold_left _ files _) as [fs' ok'].
    destruct IH as [Hlook Hok]. split.
    + intros name. rewrite Hlook. cbn [existsb].
      destruct (String.eqb_spec name file) as [-> | Hn]; cbn [orb].
      * unfold fs1. destruct (locked file) eqn:Hl.
        -- rewrite andb_false_r. reflexivity.
        -- cbn [negb]. rewrite !andb_true_r, lookup_delete_eq.
           destruct (existsb _ files); reflexivity.
      * rewrite (Hne name Hn). reflexivity.
    + rewrite Hok. clear Hok Hlook. split.
      * intros [Hb Hall].
        apply andb_true_iff in Hb as [Hb ->].
        apply negb_true_iff, andb_false_iff in Hb.
        assert (Hfile : is_Some (fs !! file) -> locked file = false).
        { intros Hsome. destruct Hb as [Hb | Hb]; [|exact Hb].
          apply path_exists_false in Hb. destruct Hsome as [c Hc]. congruence. }
        split; [reflexivity|].
        intros name [<- | Hin] Hsome; [exact (Hfile Hsome)|].
        destruct (decide (name = file)) as [-> | Hn]; [exact (Hfile Hsome)|].
        apply Hall; [exact Hin|]. rewrite (Hne name Hn). exact Hsome.
      * intros [-> Hall]. split.
        -- rewrite andb_true_r. apply negb_true_iff, andb_false_iff.
           destruct (path_exists fs file) eqn:He; [right | left; reflexivity].
           apply Hall; [left; reflexivity|]. now apply path_exists_true.
        -- intros name Hin Hsome. apply Hall; [right; exact Hin|].
           apply Hsub. exact Hsome.
Qed.

Lemma remove_all_spec locked files (fs : gmap string string) :
  (forall name,
      fst (remove_all locked files fs) !! name
      = if existsb (String.eqb name) files && negb (locked name)
        then None else fs !! name)
  /\ (snd (remove_all locked files fs) = true <->
      forall name, In name files -> is_Some (fs !! name) ->
                   locked name = false).
Proof.
  pose proof (remove_all_fold locked files fs true) as H.
  unfold remove_all. destruct (fold_left _ files _) as [fs' ok'].
  destruct H as [H1 H2]. split; [exact H1|].
  cbn [snd]. rewrite H2. tauto.
Qed.

(** The log files of a file system. *)
Lemma log_files_spec (fs : gmap string string) name :
  In name (log_files fs) <-> is_log_file name = true /\ is_Some (fs !! name).
Proof.
  unfold log_files. rewrite filter_In, in_map_iff. split.
  - intros [[[n c] [<- Hin]] Hlog]. split; [exact Hlog|].
    apply list_elem_of_In, elem_of_map_to_list in Hin. cbn. eauto.
  - intros [Hlog [c Hc]]. split; [|exact Hlog].
    exists (name, c). split; [reflexivity|].
    apply list_elem_of_In, elem_of_map_to_list. exact Hc.
Qed.

Lemma existsb_log_files (fs : gmap string string) name :
  existsb (String.eqb name) (log_files fs)
  = is_log_file name && path_exists fs name.
Proof.
  apply eq_true_iff_eq. rewrite existsb_exists, andb_true_iff.
  rewrite path_exists_true, <- log_files_spec. split.
  - intros (x & Hin & Heq). apply String.eqb_eq in Heq. congruence.
  - intros Hin. exists name. split; [exact Hin | apply String.eqb_refl].
Qed.

(** X28. The uninstaller removes what it goes after and nothing else: the
    lock file, the wallpaper, every [wallpaper.log*] file and the three
    error files are gone unless [unlink] fails on them, and every other
    file (the configuration and its backup among them) is untouched.
    The exit code is 0 exactly when the scheduled task could be removed
    and no existing lock, wallpaper or log file resisted; error files
    that resist do not count. *)
Theorem uninstall_main (system : OS.system) (query removal : result Z)
  (locked : string -> bool) (fs : gmap string string) :
  let '(fs', code) := main system query removal locked fs in
  (forall name,
      fs' !! name = if targeted name && negb (locked name)
                    then None else fs !! name)
  /\ fs' !! "life_calendar_config.json" = fs !! "life_calendar_config.json"
  /\ (code = 0 <->
      remove_scheduled_task system query removal = true
      /\ forall name,
          name = LOCK \/ name = WALLPAPER \/ is_log_file name = true ->
          is_Some (fs !! name) -> locked name = false)
  /\ (code = 0 \/ code = 1).
Proof.
  unfold main. rewrite !remove_file_spec.
  set (fs1 := if locked LOCK then fs else delete LOCK fs).
  set (fs2 := if locked WALLPAPER then fs1 else delete WALLPAPER fs1).
  unfold remove_log_files.
  destruct (remove_all_spec locked (log_files fs2) fs2) as [Hl1 Hl2].
  destruct (remove_all locked (log_files fs2) fs2) as [fs3 ok3].
  cbn [fst snd] in Hl1, Hl2.
  destruct (remove_all_spec locked ERROR_FILES fs3) as [He1 _].
  set (fs4 := fst (remove_all locked ERROR_FILES fs3)) in *.
  assert (H1 : forall name,
             fs1 !! name = if String.eqb name LOCK && negb (locked name)
                           then None else fs !! name).
  { intros name. unfold fs1.
    destruct (String.eqb_spec name LOCK) as [-> | Hn]; cbn [andb].
    - destruct (locked LOCK); [reflexivity | apply lookup_delete_eq].
    - destruct (locked LOCK); [reflexivity|].
      apply lookup_delete_ne. congruence. }
  assert (H2 : forall name,
             fs2 !! name = if String.eqb name WALLPAPER && negb (locked name)
                           then None else fs1 !! name).
  { intros name. unfold fs2.
    destruct (String.eqb_spec name WALLPAPER) as [-> | Hn]; cbn [andb].
    - destruct (locked WALLPAPER); [reflexivity | apply lookup_delete_eq].
    - destruct (locked WALLPAPER); [reflexivity|].
      apply lookup_delete_ne. congruence. }
  assert (Hlook : forall name,
             fs4 !! name = if targeted name && negb (locked name)
                           then None else fs !! name).
  { intros name. rewrite He1, Hl1, existsb_log_files, H2, H1.
    unfold targeted.
    destruct (locked name) eqn:HL.
    { cbn [negb]. rewrite !andb_false_r. reflexivity. }
    cbn [negb]. rewrite !andb_true_r.
    destruct (existsb (String.eqb name) ERROR_FILES) eqn:HE.
    { rewrite !orb_true_r. reflexivity. }
    rewrite orb_false_r.
    destruct (String.eqb name LOCK) eqn:HK;
      destruct (String.eqb name WALLPAPER) eqn:HW;
      destruct (is_log_file name) eqn:Hlog; cbn [andb orb];
      try reflexivity;
      try (destruct (path_exists fs2 name); reflexivity).
    destruct (path_exists fs2 name) eqn:Hex; [reflexivity|].
    apply path_exists_false in Hex.
    rewrite H2, H1, HW, HK, HL in Hex. cbn [andb negb] in Hex. exact Hex. }
  split; [exact Hlook|]. split; [apply Hlook|].
  assert (Hcode : (ok3
                   && (negb (path_exists fs1 WALLPAPER && locked WALLPAPER)
                       && (negb (path_exists fs LOCK && locked LOCK)
                           && (remove_scheduled_task system query removal
                               && true)))) = true
                  <-> remove_scheduled_task system query removal = true
                      /\ forall name,
                          name = LOCK \/ name = WALLPAPER
                          \/ is_log_file name = true ->
                          is_Some (fs !! name) -> locked name = false).
  { rewrite andb_true_r, !andb_true_iff, Hl2, !negb_true_iff, !andb_false_iff.
    assert (Hkeep : forall name, locked name = true ->
                                 fs2 !! name = fs !! name).
    { intros name Hlk. rewrite H2, H1, Hlk. cbn [negb].
      rewrite !andb_false_r. reflexivity. }
    assert (Hsub2 : forall name, is_Some (fs2 !! name) -> is_Some (fs !! name)).
    { intros name. rewrite H2, H1.
      destruct (_ && _); [intros [c Hc]; discriminate|].
      destruct (_ && _); [intros [c Hc]; discriminate | tauto]. }
    split.
    - intros (Hlogs & Hwall & Hlock & Htask). split; [exact Htask|].
      intros name Hname Hsome.
      destruct (locked name) eqn:Hlk; [|reflexivity].
      destruct Hname as [-> | [-> | Hlog]].
      + destruct Hlock as [Hx | Hx]; [|congruence].
        apply path_exists_false in Hx. destruct Hsome as [c Hc]. congruence.
      + destruct Hwall as [Hx | Hx]; [|congruence].
        apply path_exists_false in Hx.
        assert (Hf : fs1 !! WALLPAPER = fs !! WALLPAPER)
          by (rewrite H1; reflexivity).
        destruct Hsome as [c Hc]. congruence.
      + rewrite <- Hlk. apply Hlogs.
        * apply log_files_spec. split; [exact Hlog|].
          rewrite (Hkeep name Hlk). exact Hsome.
        * rewrite (Hkeep name Hlk). exact Hsome.
    - intros [Htask Hall]. split; [|split; [|split; [|exact Htask]]].
      + intros name Hin Hsome. apply log_files_spec in Hin as [Hlog _].
        apply Hall; [auto | apply Hsub2; exact Hsome].
      + destruct (path_exists fs1 WALLPAPER) eqn:Hx; [right | left; reflexivity].
        apply Hall; [auto|]. apply path_exists_true in Hx.
        revert Hx. rewrite H1. cbn [andb]. tauto.
      + destruct (path_exists fs LOCK) eqn:Hx; [right | left; reflexivity].
        apply Hall; [auto|]. now apply path_exists_true. }
  destruct (ok3 && _) eqn:Hall.
  - split; [|left; reflexivity]. split; [intros _; apply Hcode; reflexivity|].
    reflexivity.
  - split; [|right; reflexivity]. split; [discriminate|].
    intros H. apply Hcode in H. discriminate.
Qed.

Example uninstall_keeps_the_configuration :
  main OS.Linux (Ok 0) (Ok 0) (fun _ => false)
    (list_to_map
       [ ("life_calendar_config.json", "{}");
         ("life_calendar_config.json.bak", "{}");
         (".life_calendar.lock", "4242");
         ("life_calendar_wallpaper.png", "PNG");
         ("wallpaper.log", "a"); ("wallpaper.log.1", "b");
         ("ERROR_GENERATION_FAILED.txt", "c") ])
  = (list_to_map
       [ ("life_calendar_config.json", "{}");
         ("life_calendar_config.json.bak", "{}") ], 0).
Proof. vm_compute. reflexivity. Qed.

End UninstallFacts.

(** ** Setting the wallpaper *)

Module SetWallpaperFacts.

Import SetWallpaper.

Lemma sound_nothing d : sound d ([], false).
Proof.
  repeat split; cbn; try contradiction; try discriminate; lia.
Qed.

Lemma sound_run_one d cmd :
  which d (program cmd) = true -> sound d (run_one d cmd).
Proof.
  intros Hw. unfold run_one.
  destruct (run d cmd) as [rc|e] eqn:Hrun; cbn [fst snd].
  - repeat split.
    + intros c [<- | []]. exact Hw.
    + intros Hz. apply Z.eqb_eq in Hz. subst rc.
      exists cmd. split; [left; reflexivity | exact Hrun].
    + intros c1 c2 [<- | []] [<- | []]. reflexivity.
    + cbn. lia.
  - repeat split.
    + intros c [<- | []]. exact Hw.
    + discriminate.
    + intros c1 c2 [<- | []] [<- | []]. reflexivity.
    + cbn. lia.
Qed.

Lemma sound_guarded d tool cmd :
  program cmd = tool ->
  sound d (if negb (which d tool) then ([], false) else run_one d cmd).
Proof.
  intros Hp. destruct (which d tool) eqn:Hw; cbn [negb].
  - apply sound_run_one. rewrite Hp. exact Hw.
  - apply sound_nothing.
Qed.

(** X29. On Linux a wallpaper tool is run only if [shutil.which] has found
    it, success is reported only if a command that was run exited with
    code 0, at most two commands are run and they are calls of one and
    the same tool. *)
Theorem linux_wallpaper_tools (d : desktop) (abs_path : string) :
  let r := _set_linux_wallpaper d abs_path in
  (forall cmd, In cmd (fst r) -> which d (program cmd) = true)
  /\ (snd r = true -> exists cmd, In cmd (fst r) /\ run d cmd = Ok 0)
  /\ (forall c1 c2, In c1 (fst r) -> In c2 (fst r) -> program c1 = program c2)
  /\ (length (fst r) <= 2)%nat.
Proof.
  cbv zeta. change (sound d (_set_linux_wallpaper d abs_path)).
  unfold _set_linux_wallpaper. cbv zeta.
  destruct (_ || _).
  { destruct (which d "gsettings") eqn:Hw; cbn [negb];
      [|apply sound_nothing].
    destruct (run d ["gsettings"; "set"; "org.gnome.desktop.background";
                     "picture-uri"; "file://" +:+ abs_path])
      as [r1|e1] eqn:H1.
    - destruct (run d ["gsettings"; "set"; "org.gnome.desktop.background";
                       "picture-uri-dark"; "file://" +:+ abs_path])
        as [r2|e2] eqn:H2.
      + repeat split; cbn [fst snd].
        * intros c [<- | [<- | []]]; exact Hw.
        * intros Hok. apply orb_true_iff in Hok as [Hz | Hz];
            apply Z.eqb_eq in Hz; subst; eexists; (split; [|eassumption]);
            cbn; auto.
        * intros c1 c2 [<- | [<- | []]] [<- | [<- | []]]; reflexivity.
        * cbn. lia.
      + repeat split; cbn [fst snd].
        * intros c [<- | [<- | []]]; exact Hw.
        * discriminate.
        * intros c1 c2 [<- | [<- | []]] [<- | [<- | []]]; reflexivity.
        * cbn. lia.
    - repeat split; cbn [fst snd].
      + intros c [<- | []]; exact Hw.
      + discriminate.
      + intros c1 c2 [<- | []] [<- | []]; reflexivity.
      + cbn. lia. }
  destruct (_ || _); [apply sound_guarded; reflexivity|].
  destruct (contains "xfce" _); [apply sound_guarded; reflexivity|].
  destruct (contains "mate" _); [apply sound_guarded; reflexivity|].
  destruct (contains "cinnamon" _); apply sound_guarded; reflexivity.
Qed.

(** X30. On Windows the API is called only for a wallpaper file that
    exists and holds at least 1000 bytes, and success is reported
    exactly when it was called and returned a non-zero result. *)
Theorem windows_wallpaper_checks (spi : string -> result Z)
  (fs : gmap string string) (abs_path : string) :
  let r := _set_windows_wallpaper spi fs abs_path in
  (fst r = true <->
   exists content,
     fs !! abs_path = Some content
     /\ 1000 <= Z.of_nat (String.length content))
  /\ (snd r = true <->
      fst r = true /\ exists result, spi abs_path = Ok result /\ result <> 0).
Proof.
  cbv zeta. unfold _set_windows_wallpaper.
  destruct (fs !! abs_path) as [content|].
  2:{ cbn. split; split; try discriminate.
      - intros (c & Hc & _). discriminate.
      - intros [H _]. discriminate. }
  destruct (Z.ltb_spec (Z.of_nat (String.length content)) 1000).
  { cbn. split; split; try discriminate.
    - intros (c & [= <-] & Hc). lia.
    - intros [Hx _]. discriminate. }
  destruct (spi abs_path) as [result|e]; cbn [fst snd].
  - split; [split; [eauto | reflexivity]|].
    destruct (Z.eqb_spec result 0) as [-> | Hnz]; cbn [negb].
    + split; [discriminate|]. intros (_ & r & [= <-] & Hr). congruence.
    + split; [|reflexivity]. intros _. split; [reflexivity | eauto].
  - split; [split; [eauto | reflexivity]|].
    split; [discriminate|]. intros (_ & r & Hr & _). discriminate.
Qed.

Example gnome_needs_gsettings :
  _set_linux_wallpaper
    (mkdesktop (Some "ubuntu:GNOME") None (fun _ => false)
       (fun _ => Ok 0))
    "/home/u/life_calendar_wallpaper.png"
  = ([], false).
Proof. vm_compute. reflexivity. Qed.

End SetWallpaperFacts.

(** ** Where the grid is placed *)

Module CentreFacts.

Import PyFloat FloatFacts GridLayout LayoutFacts Halves ExactFacts GridFacts.

(** The offsets of a constructed layout: the float division by two and the
    addition of 60 are exact, and [int] truncates toward zero. *)
Lemma init_offsets (mode : string) (total canvas_w canvas_h : Z) L :
  init mode total canvas_w canvas_h = Ok L ->
  Z.abs (canvas_w - grid_width L) < 2 ^ 52 ->
  Z.abs (canvas_h - grid_height L) < 2 ^ 52 ->
  canvas_width L = canvas_w /\ canvas_height L = canvas_h
  /\ start_x L = Z.quot (canvas_w - grid_width L) 2
  /\ start_y L = Z.quot (canvas_h - grid_height L + 120) 2.
Proof.
  unfold init. cbv zeta.
  destruct (int_mul_float canvas_w literal_0_9) as [aw|];
    cbn [rbind]; [|discriminate].
  destruct (int_mul_float canvas_h literal_0_75) as [ah|];
    cbn [rbind]; [|discriminate].
  destruct (float_div_int aw _) as [mw|]; cbn [rbind]; [|discriminate].
  destruct (float_div_int ah _) as [mh|]; cbn [rbind]; [|discriminate].
  destruct (int_of_num _) as [c|]; cbn [rbind]; [|discriminate].
  destruct (int_mul_float c literal_0_15) as [scaled|];
    cbn [rbind]; [|discriminate].
  destruct (int_of_num _) as [g|]; cbn [rbind]; [|discriminate].
  set (gw := _ * c + _ * g). set (gh := _ * c + _ * g).
  destruct (int_truediv (canvas_w - gw) 2) as [hx|] eqn:Hhx;
    cbn [rbind]; [|discriminate].
  destruct (int_of_float hx) as [sx|] eqn:Hsx; cbn [rbind]; [|discriminate].
  destruct (int_truediv (canvas_h - gh) 2) as [hy|] eqn:Hhy;
    cbn [rbind]; [|discriminate].
  destruct (float_add_int hy 60) as [shifted|] eqn:Hsh;
    cbn [rbind]; [|discriminate].
  destruct (int_of_float shifted) as [sy|] eqn:Hsy;
    cbn [rbind]; [|discriminate].
  intros [= <-]. cbn [grid_width grid_height start_x start_y
                      canvas_width canvas_height].
  intros Hw Hh.
  assert (H53 : 2 ^ 53 = 2 ^ 52 * 2) by reflexivity.
  assert (H120 : 120 < 2 ^ 52) by reflexivity.
  rewrite int_truediv_half in Hhx by lia. injection Hhx as <-.
  rewrite int_of_half in Hsx by lia. injection Hsx as <-.
  rewrite int_truediv_half in Hhy by lia. injection Hhy as <-.
  rewrite half_plus_60 in Hsh by lia. injection Hsh as <-.
  rewrite int_of_half in Hsy by lia. injection Hsy as <-.
  auto.
Qed.

(** X25. The grid is centred horizontally and placed 60 pixels below the
    vertical centre: the left offset is half the free width, and the top
    offset is half of the free height plus 120, both truncated toward
    zero.  The two side margins differ by at most one pixel, a grid no
    wider than the canvas lies inside it horizontally, and a grid no
    higher than the canvas starts at least 60 pixels down. *)
Theorem grid_centred (mode : string) (total canvas_w canvas_h : Z) :
  1 <= total < 2 ^ 47 ->
  800 <= canvas_w < 2 ^ 51 ->
  600 <= canvas_h < 2 ^ 51 ->
  exists L,
    init mode total canvas_w canvas_h = Ok L
    /\ start_x L = Z.quot (canvas_w - grid_width L) 2
    /\ start_y L = Z.quot (canvas_h - grid_height L + 120) 2
    /\ Z.abs (canvas_w - grid_width L - 2 * start_x L) <= 1
    /\ (grid_width L <= canvas_w ->
        0 <= start_x L /\ start_x L + grid_width L <= canvas_w)
    /\ (grid_height L <= canvas_h ->
        start_y L = (canvas_h - grid_height L) / 2 + 60).
Proof.
  intros Ht Hw Hh.
  assert (H47 : 2 ^ 51 = 2 ^ 47 * 16) by reflexivity.
  assert (H52 : 2 ^ 52 = 2 ^ 47 * 32) by reflexivity.
  assert (H0 : 1377 < 2 ^ 47) by reflexivity.
  destruct (init_fields mode total canvas_w canvas_h
              ltac:(lia) Hw Hh)
    as (L & Hinit & Htot & Hcols & Hrows & Hc & Hg & Hgw & Hgh).
  pose proof (columns_range mode total ltac:(lia)) as Hcr.
  rewrite <- Hcols in Hcr.
  pose proof (rows_range total (columns L) ltac:(lia) ltac:(lia)) as Hrr.
  rewrite <- Hrows in Hrr.
  assert (Hgwr : 0 <= grid_width L <= 1377).
  { rewrite Hgw. clear - Hcr Hc Hg. nia. }
  assert (Hghr : 0 <= grid_height L <= 23 * rows L).
  { rewrite Hgh. clear - Hrr Hc Hg. nia. }
  destruct (init_offsets mode total canvas_w canvas_h L Hinit)
    as (_ & _ & Hx & Hy);
    [clear - Hw Hgwr H47 H52 H0; lia
    | clear - Hh Hghr Hrr Ht H47 H52; lia |].
  exists L. split; [exact Hinit|].
  split; [exact Hx|]. split; [exact Hy|].
  rewrite Hx, Hy. clear Hx Hy Hinit.
  repeat split.
  - Z.quot_rem_to_equations. lia.
  - Z.quot_rem_to_equations. lia.
  - Z.quot_rem_to_equations. lia.
  - intros Hfit. rewrite Z.quot_div_nonneg by lia.
    replace (canvas_h - grid_height L + 120)
      with (canvas_h - grid_height L + 60 * 2) by lia.
    apply Z.div_add. lia.
Qed.

Lemma grid_centred_witness :
  exists L,
    init "life" 4680 1920 1080 = Ok L
    /\ start_x L = Z.quot (1920 - grid_width L) 2
    /\ start_y L = Z.quot (1080 - grid_height L + 120) 2
    /\ Z.abs (1920 - grid_width L - 2 * start_x L) <= 1
    /\ (grid_width L <= 1920 ->
        0 <= start_x L /\ start_x L + grid_width L <= 1920)
    /\ (grid_height L <= 1080 ->
        start_y L = (1080 - grid_height L) / 2 + 60).
Proof.
  apply (grid_centred "life" 4680 1920 1080);
    (split; [lia | reflexivity]).
Defined.

End CentreFacts.
